(** * views/controls/menu/native_menu_win.cc: the native Win32 menu bridge

    A shallow embedding of [NativeMenuWin], its host window and the
    [SystemMenuModel], together with the part of the Win32 menu API and of
    the message loop they drive.

    Conventions of the embedding.
    - C++ [int], [UINT], [WPARAM] are [Z]; conversions between them are
      written out ([UINT_of_int], [int_of_WPARAM], [LOWORD]).  Signed
      overflow is undefined in C++: the loop bound of [Rebuild] is formed by
      [int_add], which has no result when the sum is no [int]; the indices
      formed below that bound are exact.
    - [std::wstring] is a list of code units; [L "..."] is a wide literal.
      A string handed to the OS through [c_str()] is read up to its first
      NUL.
    - Objects are passed explicitly: a method takes the object's state (and
      its address [this] where the code uses it) and returns the new state.
      A controller owns the controllers of its submenus, so a controller is
      a tree; the top-level controllers live in the [objects] of a
      [Process], next to the static [open_native_menu_win_].
    - Undefined behaviour of the C++ code (indexing a vector out of range,
      calling through a null pointer) is the result [None].
    - An OS handle is modelled by the resource it designates, [None] being
      the null handle.  A handle copied into another structure
      ([MENUITEMINFO.hSubMenu], the [HMENU] of a window message) carries the
      state the resource had when the copy was made; the state of a submenu
      that the code reads and writes is the one under the [menu_] of the
      submenu's own controller.
    - What the collaborators observe (calls on models and listeners,
      [EndMenu]) is recorded in the [notifications] of the [Process]; what
      the OS does while a call blocks is given as a list of events.
    - A device context holds the colours and the font selected into it and
      the painting calls made on it, each with the colours and the font it
      was made under; what the drawing handler asks the system (font,
      system colours and metrics) is a parameter of the handlers. *)

From Stdlib Require Import ZArith Lia Bool String Ascii.
From stdpp Require Import base option list gmap.

Local Open Scope Z_scope.

#[local] Set Warnings "-register-all".

(** ** Wide strings *)

Abbreviation wchar_t := Z (only parsing).
Abbreviation wstring := (list Z) (only parsing).

(** [L "abc"]: the wide string literal. *)
Definition L (s : string) : wstring :=
  map (fun c : ascii => Z.of_nat (nat_of_ascii c)) (list_ascii_of_string s).

(** [L"\t"], the delimiter between a label and its accelerator text. *)
Definition tab : wstring := [9].

(** [s.c_str()], read as the NUL-terminated string the pointer designates:
    the code units of [s] before its first NUL, all of [s] when it holds
    none.  This is the text a Win32 call that takes an [LPWSTR] sees. *)
Fixpoint c_str (s : wstring) : wstring :=
  match s with
  | [] => []
  | c :: rest => if c =? 0 then [] else c :: c_str rest
  end.

(** ** C++ object addresses

    The address of a [NativeMenuWin].  A top-level controller lives at an
    address chosen by its creator; the controller that [AddMenuItemAt]
    allocates for the submenu of model index [i] lives at
    [child_ptr this i], so that distinct live controllers have distinct
    addresses. *)

Abbreviation NativeMenuWinPtr := (list Z) (only parsing).

Definition child_ptr (this : NativeMenuWinPtr) (model_index : Z) : NativeMenuWinPtr :=
  this ++ [model_index].

(** ** The Win32 menu API (Windows SDK, as documented on MSDN) *)

Module Win32.

Abbreviation UINT := Z (only parsing).
Abbreviation WPARAM := Z (only parsing).
Abbreviation BOOL := bool (only parsing).

(** The code is built for 32-bit Windows: [int], [UINT] and [WPARAM] are 32
    bits wide. *)
Definition UINT_of_int (x : Z) : UINT := x mod 2 ^ 32.
Definition int_of_WPARAM (w : WPARAM) : Z := (w + 2 ^ 31) mod 2 ^ 32 - 2 ^ 31.
Definition LOWORD (w : WPARAM) : WPARAM := Z.land w 65535.

Definition INT_MIN : Z := -2147483648.
Definition INT_MAX : Z := 2147483647.

(** The values of [int]. *)
Definition is_int (x : Z) : bool := (INT_MIN <=? x) && (x <=? INT_MAX).

(** [x + y] on [int]: a sum that is no [int] is a signed overflow, which is
    undefined; so is, in this model, a sum of operands that are no [int]s,
    which no C++ expression of that type yields. *)
Definition int_add (x y : Z) : option Z :=
  if is_int x && is_int y && is_int (x + y) then Some (x + y) else None.

(** [!handle]: is the handle null? *)
Definition is_NULL {A} (handle : option A) : bool :=
  match handle with Some _ => false | None => true end.

(** [x & flag] used as a condition. *)
Definition has_flag (x flag : UINT) : bool := negb (Z.land x flag =? 0).

Definition MIIM_STATE : UINT := 1.
Definition MIIM_ID : UINT := 2.
Definition MIIM_SUBMENU : UINT := 4.
Definition MIIM_DATA : UINT := 32.
Definition MIIM_STRING : UINT := 64.
Definition MIIM_FTYPE : UINT := 256.

Definition MFT_STRING : UINT := 0.
Definition MFT_OWNERDRAW : UINT := 256.
Definition MFT_RADIOCHECK : UINT := 512.
Definition MFT_SEPARATOR : UINT := 2048.
Definition MF_SEPARATOR : UINT := 2048.
Definition MF_POPUP : UINT := 16.
Definition MF_HILITE : UINT := 128.

Definition MFS_ENABLED : UINT := 0.
Definition MFS_DISABLED : UINT := 3.
Definition MFS_CHECKED : UINT := 8.
Definition MFS_DEFAULT : UINT := 4096.

Definition MNS_NOTIFYBYPOS : UINT := 134217728.

Definition TPM_LEFTBUTTON : UINT := 0.
Definition TPM_RECURSE : UINT := 1.
Definition TPM_TOPALIGN : UINT := 0.
Definition TPM_LEFTALIGN : UINT := 0.
Definition TPM_RIGHTALIGN : UINT := 8.

Definition WM_DRAWITEM : UINT := 43.
Definition WM_MEASUREITEM : UINT := 44.
Definition WM_KEYDOWN : UINT := 256.
Definition WM_MENUSELECT : UINT := 287.
Definition WM_MENUCOMMAND : UINT := 294.
Definition WM_EXITMENULOOP : UINT := 530.

Definition VK_LEFT : WPARAM := 37.
Definition VK_RIGHT : WPARAM := 39.

(** An item as the OS keeps it.  [dwItemData] is the application's pointer
    to its [ItemData] (null for separators), named by the owning controller
    and the model index; [dwTypeData] is the item text. *)
Record MENUITEM_ (H : Type) : Type := mkMENUITEM {
  fType : UINT;
  fState : UINT;
  wID : UINT;
  hSubMenu : option H;
  dwItemData : option (NativeMenuWinPtr * Z);
  dwTypeData : option wstring }.

Arguments mkMENUITEM {H}.
Arguments fType {H}.
Arguments fState {H}.
Arguments wID {H}.
Arguments hSubMenu {H}.
Arguments dwItemData {H}.
Arguments dwTypeData {H}.

(** A menu resource: its [MENUINFO] ([dwStyle], [dwMenuData]) and its items
    by position. *)
Inductive MENU : Type := mkMENU {
  dwStyle : UINT;
  dwMenuData : option NativeMenuWinPtr;
  menu_items : list (MENUITEM_ MENU) }.

Abbreviation MENUITEM := (MENUITEM_ MENU) (only parsing).
Abbreviation HMENU := (option MENU) (only parsing).

(** The [MENUITEMINFO] structure passed to the item calls; [fMask] selects
    the members that are read or written. *)
Record MENUITEMINFO : Type := mkMENUITEMINFO {
  mii_fMask : UINT;
  mii_fType : UINT;
  mii_fState : UINT;
  mii_wID : UINT;
  mii_hSubMenu : HMENU;
  mii_dwItemData : option (NativeMenuWinPtr * Z);
  mii_dwTypeData : option wstring }.

(** [MENUITEMINFO mii = {0}]. *)
Definition mii_zero : MENUITEMINFO :=
  mkMENUITEMINFO 0 0 0 0 None None None.

Definition set_fMask (v : UINT) (mii : MENUITEMINFO) : MENUITEMINFO :=
  mkMENUITEMINFO v (mii_fType mii) (mii_fState mii) (mii_wID mii)
    (mii_hSubMenu mii) (mii_dwItemData mii) (mii_dwTypeData mii).
Definition set_fType (v : UINT) (mii : MENUITEMINFO) : MENUITEMINFO :=
  mkMENUITEMINFO (mii_fMask mii) v (mii_fState mii) (mii_wID mii)
    (mii_hSubMenu mii) (mii_dwItemData mii) (mii_dwTypeData mii).
Definition set_fState (v : UINT) (mii : MENUITEMINFO) : MENUITEMINFO :=
  mkMENUITEMINFO (mii_fMask mii) (mii_fType mii) v (mii_wID mii)
    (mii_hSubMenu mii) (mii_dwItemData mii) (mii_dwTypeData mii).
Definition set_wID (v : UINT) (mii : MENUITEMINFO) : MENUITEMINFO :=
  mkMENUITEMINFO (mii_fMask mii) (mii_fType mii) (mii_fState mii) v
    (mii_hSubMenu mii) (mii_dwItemData mii) (mii_dwTypeData mii).
Definition set_hSubMenu (v : HMENU) (mii : MENUITEMINFO) : MENUITEMINFO :=
  mkMENUITEMINFO (mii_fMask mii) (mii_fType mii) (mii_fState mii) (mii_wID mii)
    v (mii_dwItemData mii) (mii_dwTypeData mii).
Definition set_dwItemData (v : option (NativeMenuWinPtr * Z)) (mii : MENUITEMINFO)
  : MENUITEMINFO :=
  mkMENUITEMINFO (mii_fMask mii) (mii_fType mii) (mii_fState mii) (mii_wID mii)
    (mii_hSubMenu mii) v (mii_dwTypeData mii).
Definition set_dwTypeData (v : option wstring) (mii : MENUITEMINFO) : MENUITEMINFO :=
  mkMENUITEMINFO (mii_fMask mii) (mii_fType mii) (mii_fState mii) (mii_wID mii)
    (mii_hSubMenu mii) (mii_dwItemData mii) v.

(** [CreatePopupMenu()]: a new, empty menu. *)
Definition CreatePopupMenu : HMENU := Some (mkMENU 0 None []).

(** [SetMenuInfo(menu, &mi)] with [mi.fMask = MIM_STYLE | MIM_MENUDATA]. *)
Definition SetMenuInfo (menu : HMENU) (style : UINT) (data : option NativeMenuWinPtr)
  : HMENU :=
  match menu with
  | Some m => Some (mkMENU style data (menu_items m))
  | None => None
  end.

(** [GetMenuInfo(menu, &mi)] on a zeroed [mi], member [dwMenuData]: the
    call fails on a null handle and leaves the zero in place. *)
Definition GetMenuInfo_dwMenuData (menu : HMENU) : option NativeMenuWinPtr :=
  match menu with
  | Some m => dwMenuData m
  | None => None
  end.

(** [GetMenuItemCount(menu)]: the number of items, -1 when the call fails. *)
Definition GetMenuItemCount (menu : HMENU) : Z :=
  match menu with
  | Some m => Z.of_nat (length (menu_items m))
  | None => -1
  end.

(** The item at position [uItem] ([MF_BYPOSITION]); a position below zero
    is, as a [UINT], beyond every item. *)
Definition item_at (menu : HMENU) (uItem : Z) : option MENUITEM :=
  match menu with
  | Some m => if uItem <? 0 then None else menu_items m !! Z.to_nat uItem
  | None => None
  end.

(** [GetMenuItemInfo(menu, uItem, TRUE, &mii)]: the members selected by
    [mii.fMask] are filled in; a failing call leaves [mii] as it was. *)
Definition GetMenuItemInfo (menu : HMENU) (uItem : Z) (mii : MENUITEMINFO)
  : BOOL * MENUITEMINFO :=
  match item_at menu uItem with
  | Some it =>
      let sel (flag : UINT) {A} (new old : A) : A :=
        if has_flag (mii_fMask mii) flag then new else old in
      (true,
       mkMENUITEMINFO (mii_fMask mii)
         (sel MIIM_FTYPE (fType it) (mii_fType mii))
         (sel MIIM_STATE (fState it) (mii_fState mii))
         (sel MIIM_ID (wID it) (mii_wID mii))
         (sel MIIM_SUBMENU (hSubMenu it) (mii_hSubMenu mii))
         (sel MIIM_DATA (dwItemData it) (mii_dwItemData mii))
         (sel MIIM_STRING (dwTypeData it) (mii_dwTypeData mii)))
  | None => (false, mii)
  end.

(** The stored item after the members selected by [mii.fMask] are written. *)
Definition write_item (mii : MENUITEMINFO) (it : MENUITEM) : MENUITEM :=
  let sel (flag : UINT) {A} (new old : A) : A :=
    if has_flag (mii_fMask mii) flag then new else old in
  mkMENUITEM
    (sel MIIM_FTYPE (mii_fType mii) (fType it))
    (sel MIIM_STATE (mii_fState mii) (fState it))
    (sel MIIM_ID (mii_wID mii) (wID it))
    (sel MIIM_SUBMENU (mii_hSubMenu mii) (hSubMenu it))
    (sel MIIM_DATA (mii_dwItemData mii) (dwItemData it))
    (sel MIIM_STRING (mii_dwTypeData mii) (dwTypeData it)).

Definition item_zero : MENUITEM := mkMENUITEM 0 0 0 None None None.

(** [SetMenuItemInfo(menu, uItem, TRUE, &mii)]: fails, changing nothing,
    when there is no item at [uItem]. *)
Definition SetMenuItemInfo (menu : HMENU) (uItem : Z) (mii : MENUITEMINFO)
  : BOOL * HMENU :=
  match menu, item_at menu uItem with
  | Some m, Some it =>
      (true,
       Some (mkMENU (dwStyle m) (dwMenuData m)
               (<[Z.to_nat uItem := write_item mii it]> (menu_items m))))
  | _, _ => (false, menu)
  end.

(** [InsertMenuItem(menu, uItem, TRUE, &mii)]: the new item goes before
    the item at position [uItem], or at the end when there is no such
    item. *)
Definition InsertMenuItem (menu : HMENU) (uItem : Z) (mii : MENUITEMINFO)
  : BOOL * HMENU :=
  match menu with
  | Some m =>
      let count := length (menu_items m) in
      let pos := if uItem <? 0 then count else Nat.min (Z.to_nat uItem) count in
      (true,
       Some (mkMENU (dwStyle m) (dwMenuData m)
               (take pos (menu_items m) ++ write_item mii item_zero
                  :: drop pos (menu_items m))))
  | None => (false, None)
  end.

(** [GetMenuState(menu, i, MF_BYPOSITION)] of an existing item: its type
    and state flags, with [MF_POPUP] when the item opens a submenu. *)
Definition menu_state (it : MENUITEM) : UINT :=
  Z.lor (Z.lor (fType it) (fState it))
        (match hSubMenu it with Some _ => MF_POPUP | None => 0 end).

(** A window, as far as this code asks about it: the window menu that
    [GetSystemMenu] hands out. *)
Record WINDOW : Type := mkWINDOW { window_menu : HMENU }.

Abbreviation HWND := (option WINDOW) (only parsing).

(** [IsWindow(hwnd)]. *)
Definition IsWindow (hwnd : HWND) : BOOL :=
  match hwnd with Some _ => true | None => false end.

(** [GetSystemMenu(hwnd, FALSE)]: the copy of the window menu for the
    application to modify.  [GetSystemMenu(hwnd, TRUE)] throws the modified
    copy away, so that the next copy starts from the window menu again. *)
Definition GetSystemMenu (hwnd : HWND) : HMENU :=
  match hwnd with Some w => window_menu w | None => None end.

(** A queued message ([MSG]): the message number and [wParam]. *)
Record MSG : Type := mkMSG { message : UINT; wParam : WPARAM }.

End Win32.

Export Win32.

(** ** The menu model (ui::MenuModel)

    Modelled from the spec: ui/base/models/menu_model.h is not part of the
    sources; the spec lists the capability set the controller consumes
    ("item count, type-at, label-at (+ is-dynamic flag), enabled-at,
    checked-at, icon-at, accelerator-at, command-id-at, submenu-model-at,
    first-item-index-for(native menu), ... has-icons()").  A value of
    [MenuModel] is the state of a model object: what each query answers.
    [GetSubmenuModelAt] answers [None] for the null pointer, and
    [GetAcceleratorAt] answers [None] where the C++ query returns false. *)

Inductive ItemType : Type :=
  | TYPE_COMMAND
  | TYPE_CHECK
  | TYPE_RADIO
  | TYPE_SEPARATOR
  | TYPE_SUBMENU.

#[export] Instance ItemType_eq_dec : EqDecision ItemType.
Proof. solve_decision. Defined.

(** Modelled from the spec: views/accelerator.h is not part of the sources;
    of an accelerator the controller asks only its shortcut text. *)
Record Accelerator : Type := mkAccelerator { GetShortcutText : wstring }.

Inductive MenuModel : Type := mkMenuModel {
  HasIcons : bool;
  GetFirstItemIndex : HMENU -> Z;
  GetItemCount : Z;
  GetTypeAt : Z -> ItemType;
  GetCommandIdAt : Z -> Z;
  GetLabelAt : Z -> wstring;
  IsItemDynamicAt : Z -> bool;
  GetAcceleratorAt : Z -> option Accelerator;
  IsItemCheckedAt : Z -> bool;
  IsEnabledAt : Z -> bool;
  GetSubmenuModelAt : Z -> option MenuModel }.

(** ** The controller's data *)

(** NativeMenuWin::MenuAction (the header is not part of the sources; the
    spec lists none, previous and next). *)
Inductive MenuAction : Type :=
  | MENU_ACTION_NONE
  | MENU_ACTION_PREVIOUS
  | MENU_ACTION_NEXT.

(** Menu2::Alignment (menu_2.h is not part of the sources): the
    enumerators ALIGN_TOPLEFT and ALIGN_TOPRIGHT, in that order. *)
Definition ALIGN_TOPLEFT : Z := 0.
Definition ALIGN_TOPRIGHT : Z := 1.

Abbreviation MenuListenerPtr := Z (only parsing).

(** Modelled from the spec: views/controls/menu/menu_2.h is not part of the
    sources.  A [Menu2] holds its model and exclusively owns the wrapper
    built for it ("submenu items own a freshly constructed child controller
    whose model is the submenu's model"). *)
Record Menu2_ (W : Type) : Type := mkMenu2 {
  m2_model_ : MenuModel;
  wrapper_ : W }.

Arguments mkMenu2 {W}.
Arguments m2_model_ {W}.
Arguments wrapper_ {W}.

(** struct NativeMenuWin::ItemData.  [native_menu_win] and [model_index] are
    [None] as long as they have not been assigned: [new ItemData] leaves
    the pointer and the [int] member without a value. *)
Record ItemData_ (M : Type) : Type := mkItemData {
  label : wstring;
  submenu : option M;
  native_menu_win : option NativeMenuWinPtr;
  model_index : option Z }.

Arguments mkItemData {M}.
Arguments label {M}.
Arguments submenu {M}.
Arguments native_menu_win {M}.
Arguments model_index {M}.

(** class NativeMenuWin::MenuHostWindow. *)
Record MenuHostWindow : Type := mkMenuHostWindow {
  hwnd_ : HWND;
  parent_ : NativeMenuWinPtr }.

(** class NativeMenuWin.  [listeners_called_] is not set by the
    constructor: [None] until [RunMenuAt] assigns it. *)
Inductive NativeMenuWin : Type := mkNativeMenuWin {
  model_ : MenuModel;
  menu_ : HMENU;
  owner_draw_ : bool;
  system_menu_for_ : HWND;
  first_item_index_ : Z;
  menu_action_ : MenuAction;
  items_ : list (ItemData_ (Menu2_ NativeMenuWin));
  listeners_ : list MenuListenerPtr;
  listeners_called_ : option bool;
  host_window_ : option MenuHostWindow }.

Abbreviation Menu2 := (Menu2_ NativeMenuWin) (only parsing).
Abbreviation ItemData := (ItemData_ (Menu2_ NativeMenuWin)) (only parsing).

(** [new ItemData]: empty label, no submenu, the rest unassigned. *)
Definition new_ItemData : ItemData := mkItemData [] None None None.

Definition set_menu_ (v : HMENU) (s : NativeMenuWin) : NativeMenuWin :=
  mkNativeMenuWin (model_ s) v (owner_draw_ s) (system_menu_for_ s)
    (first_item_index_ s) (menu_action_ s) (items_ s) (listeners_ s)
    (listeners_called_ s) (host_window_ s).
Definition set_owner_draw_ (v : bool) (s : NativeMenuWin) : NativeMenuWin :=
  mkNativeMenuWin (model_ s) (menu_ s) v (system_menu_for_ s)
    (first_item_index_ s) (menu_action_ s) (items_ s) (listeners_ s)
    (listeners_called_ s) (host_window_ s).
Definition set_first_item_index_ (v : Z) (s : NativeMenuWin) : NativeMenuWin :=
  mkNativeMenuWin (model_ s) (menu_ s) (owner_draw_ s) (system_menu_for_ s)
    v (menu_action_ s) (items_ s) (listeners_ s)
    (listeners_called_ s) (host_window_ s).
Definition set_menu_action_ (v : MenuAction) (s : NativeMenuWin) : NativeMenuWin :=
  mkNativeMenuWin (model_ s) (menu_ s) (owner_draw_ s) (system_menu_for_ s)
    (first_item_index_ s) v (items_ s) (listeners_ s)
    (listeners_called_ s) (host_window_ s).
Definition set_items_ (v : list ItemData) (s : NativeMenuWin) : NativeMenuWin :=
  mkNativeMenuWin (model_ s) (menu_ s) (owner_draw_ s) (system_menu_for_ s)
    (first_item_index_ s) (menu_action_ s) v (listeners_ s)
    (listeners_called_ s) (host_window_ s).
Definition set_listeners_ (v : list MenuListenerPtr) (s : NativeMenuWin)
  : NativeMenuWin :=
  mkNativeMenuWin (model_ s) (menu_ s) (owner_draw_ s) (system_menu_for_ s)
    (first_item_index_ s) (menu_action_ s) (items_ s) v
    (listeners_called_ s) (host_window_ s).
Definition set_listeners_called_ (v : option bool) (s : NativeMenuWin)
  : NativeMenuWin :=
  mkNativeMenuWin (model_ s) (menu_ s) (owner_draw_ s) (system_menu_for_ s)
    (first_item_index_ s) (menu_action_ s) (items_ s) (listeners_ s)
    v (host_window_ s).
Definition set_host_window_ (v : option MenuHostWindow) (s : NativeMenuWin)
  : NativeMenuWin :=
  mkNativeMenuWin (model_ s) (menu_ s) (owner_draw_ s) (system_menu_for_ s)
    (first_item_index_ s) (menu_action_ s) (items_ s) (listeners_ s)
    (listeners_called_ s) v.
(** The model object changes state; the controller keeps pointing at it. *)
Definition set_model_ (v : MenuModel) (s : NativeMenuWin) : NativeMenuWin :=
  mkNativeMenuWin v (menu_ s) (owner_draw_ s) (system_menu_for_ s)
    (first_item_index_ s) (menu_action_ s) (items_ s) (listeners_ s)
    (listeners_called_ s) (host_window_ s).

Definition set_label (v : wstring) (d : ItemData) : ItemData :=
  mkItemData v (submenu d) (native_menu_win d) (model_index d).
Definition set_submenu (v : option Menu2) (d : ItemData) : ItemData :=
  mkItemData (label d) v (native_menu_win d) (model_index d).

(** ** std::vector<ItemData*> operations, out of range being undefined *)

(** [v[i]] and [v.at(i)]. *)
Definition vector_at {A} (v : list A) (i : Z) : option A :=
  if i <? 0 then None else v !! Z.to_nat i.

(** [v[i]->member = ...]: the entry at [i] replaced by [f] of it. *)
Definition vector_update {A} (f : A -> A) (v : list A) (i : Z) : option (list A) :=
  match vector_at v i with
  | Some x => Some (<[Z.to_nat i := f x]> v)
  | None => None
  end.

(** [v.insert(v.begin() + i, x)]. *)
Definition vector_insert {A} (v : list A) (i : Z) (x : A) : option (list A) :=
  if (0 <=? i) && (i <=? Z.of_nat (length v))
  then Some (take (Z.to_nat i) v ++ x :: drop (Z.to_nat i) v)
  else None.

(** ** NativeMenuWin: building and synchronising *)

Definition GetNativeMenu (self : NativeMenuWin) : HMENU := menu_ self.

Definition GetMenuAction (self : NativeMenuWin) : MenuAction := menu_action_ self.

(** Modelled from the spec: Menu2::GetNativeMenu forwards to the wrapper. *)
Definition Menu2_GetNativeMenu (m : Menu2) : HMENU := GetNativeMenu (wrapper_ m).

Definition IsSeparatorItemAt (self : NativeMenuWin) (menu_index : Z) : bool :=
  let mii := set_fMask MIIM_FTYPE mii_zero in
  let mii := snd (GetMenuItemInfo (menu_ self) menu_index mii) in
  has_flag (mii_fType mii) MF_SEPARATOR.

(** The text [UpdateMenuItemInfoForString] stores for [label] at
    [model_index]: the local [formatted] of the C++ function. *)
Definition formatted_label (model : MenuModel) (model_index : Z) (label' : wstring)
  : wstring :=
  let formatted := label' in
  let type := GetTypeAt model model_index in
  if decide (type <> TYPE_SUBMENU) then
    match GetAcceleratorAt model model_index with
    | Some accelerator => formatted ++ tab ++ GetShortcutText accelerator
    | None => formatted
    end
  else formatted.

Definition UpdateMenuItemInfoForString (self : NativeMenuWin) (mii : MENUITEMINFO)
    (model_index : Z) (label' : wstring) : option (NativeMenuWin * MENUITEMINFO) :=
  let formatted := formatted_label (model_ self) model_index label' in
  (* items_[model_index]->label = formatted; *)
  items ← vector_update (set_label formatted) (items_ self) model_index;
  let self := set_items_ items self in
  (* mii->fMask |= MIIM_STRING;
     mii->dwTypeData = items_.at(model_index)->label.c_str(); *)
  item ← vector_at (items_ self) model_index;
  let mii := set_fMask (Z.lor (mii_fMask mii) MIIM_STRING) mii in
  let mii := set_dwTypeData (Some (c_str (label item))) mii in
  Some (self, mii).

Definition SetMenuItemState (self : NativeMenuWin) (menu_index : Z)
    (enabled checked is_default : bool) : NativeMenuWin :=
  if IsSeparatorItemAt self menu_index then self
  else
    let state := if enabled then MFS_ENABLED else MFS_DISABLED in
    let state := if checked then Z.lor state MFS_CHECKED else state in
    let state := if is_default then Z.lor state MFS_DEFAULT else state in
    let mii := set_fMask MIIM_STATE mii_zero in
    let mii := set_fState state mii in
    set_menu_ (snd (SetMenuItemInfo (menu_ self) menu_index mii)) self.

Definition SetMenuItemLabel (self : NativeMenuWin) (menu_index model_index : Z)
    (label' : wstring) : option NativeMenuWin :=
  if IsSeparatorItemAt self menu_index then Some self
  else
    let mii := mii_zero in
    '(self, mii) ← UpdateMenuItemInfoForString self mii model_index label';
    Some (set_menu_ (snd (SetMenuItemInfo (menu_ self) menu_index mii)) self).

Definition AddSeparatorItemAt (self : NativeMenuWin) (menu_index model_index : Z)
  : option NativeMenuWin :=
  let mii := set_fMask MIIM_FTYPE mii_zero in
  let mii := set_fType MFT_SEPARATOR mii in
  (* Insert a dummy entry into our label list. *)
  items ← vector_insert (items_ self) model_index new_ItemData;
  let self := set_items_ items self in
  Some (set_menu_ (snd (InsertMenuItem (menu_ self) menu_index mii)) self).

Definition GetAlignmentFlags (alignment : Z) : UINT :=
  let alignment_flags := TPM_TOPALIGN in
  if alignment =? ALIGN_TOPLEFT then Z.lor alignment_flags TPM_LEFTALIGN
  else if alignment =? ALIGN_TOPRIGHT then Z.lor alignment_flags TPM_RIGHTALIGN
  else alignment_flags.

Definition ResetNativeMenu (this : NativeMenuWinPtr) (self : NativeMenuWin)
  : NativeMenuWin :=
  if IsWindow (system_menu_for_ self) then
    (* if (menu_) GetSystemMenu(system_menu_for_, TRUE): the modified copy
       is dropped *)
    set_menu_ (GetSystemMenu (system_menu_for_ self)) self
  else
    (* if (menu_) DestroyMenu(menu_); *)
    let menu := CreatePopupMenu in
    set_menu_ (SetMenuInfo menu MNS_NOTIFYBYPOS (Some this)) self.

Definition CreateHostWindow (this : NativeMenuWinPtr) (self : NativeMenuWin)
  : NativeMenuWin :=
  match host_window_ self with
  | Some _ => self
  | None =>
      (* new MenuHostWindow(this): a message-only window *)
      set_host_window_ (Some (mkMenuHostWindow (Some (mkWINDOW None)) this)) self
  end.

Definition AddMenuListener (self : NativeMenuWin) (listener : MenuListenerPtr)
  : NativeMenuWin :=
  set_listeners_ (listeners_ self ++ [listener]) self.

(** [listeners_.erase(iter)] at the first [iter] with [*iter == listener]. *)
Fixpoint erase_first (listener : MenuListenerPtr) (l : list MenuListenerPtr)
  : list MenuListenerPtr :=
  match l with
  | [] => []
  | x :: rest => if x =? listener then rest else x :: erase_first listener rest
  end.

Definition RemoveMenuListener (self : NativeMenuWin) (listener : MenuListenerPtr)
  : NativeMenuWin :=
  set_listeners_ (erase_first listener (listeners_ self)) self.

Section Construction.

(** [l10n_util::NeedOverrideDefaultUIFont(NULL, NULL)]: a property of the
    locale the process runs in. *)
Variable NeedOverrideDefaultUIFont : bool.

(** NativeMenuWin::NativeMenuWin(model, system_menu_for). *)
Definition NativeMenuWin_ctor (model : MenuModel) (system_menu_for : HWND)
  : NativeMenuWin :=
  mkNativeMenuWin model None
    (NeedOverrideDefaultUIFont && is_NULL system_menu_for)
    system_menu_for 0 MENU_ACTION_NONE [] [] None None.

(** MenuWrapper::CreateWrapper(menu), [menu->model()] being [model]. *)
Definition CreateWrapper (model : MenuModel) : NativeMenuWin :=
  NativeMenuWin_ctor model None.

Section Rebuild.

(** [new Menu2(model_->GetSubmenuModelAt(model_index))], for each
    [model_index]; supplied by [Menu2_ctor] and [Rebuild] below. *)
Variable new_Menu2 : Z -> option Menu2.

Definition AddMenuItemAt (this : NativeMenuWinPtr) (self : NativeMenuWin)
    (menu_index model_index : Z) : option NativeMenuWin :=
  let mii := set_fMask (Z.lor (Z.lor MIIM_FTYPE MIIM_ID) MIIM_DATA) mii_zero in
  let mii :=
    if negb (owner_draw_ self) then set_fType MFT_STRING mii
    else set_fType MFT_OWNERDRAW mii in
  let item_data := new_ItemData in
  let item_data := set_label [] item_data in
  let type := GetTypeAt (model_ self) model_index in
  '(item_data, mii) ←
    (if decide (type = TYPE_SUBMENU) then
       sub ← new_Menu2 model_index;
       let item_data := set_submenu (Some sub) item_data in
       let mii := set_fMask (Z.lor (mii_fMask mii) MIIM_SUBMENU) mii in
       let mii := set_hSubMenu (Menu2_GetNativeMenu sub) mii in
       Some (item_data, mii)
     else
       let mii :=
         if decide (type = TYPE_RADIO)
         then set_fType (Z.lor (mii_fType mii) MFT_RADIOCHECK) mii
         else mii in
       let mii :=
         set_wID (UINT_of_int (GetCommandIdAt (model_ self) model_index)) mii in
       Some (item_data, mii));
  let item_data :=
    mkItemData (label item_data) (submenu item_data) (Some this) (Some model_index) in
  items ← vector_insert (items_ self) model_index item_data;
  let self := set_items_ items self in
  let mii := set_dwItemData (Some (this, model_index)) mii in
  '(self, mii) ←
    UpdateMenuItemInfoForString self mii model_index
      (GetLabelAt (model_ self) model_index);
  Some (set_menu_ (snd (InsertMenuItem (menu_ self) menu_index mii)) self).

(** The body of the [for] loop of [Rebuild], run [n] more times from
    [menu_index]. *)
Fixpoint Rebuild_loop (this : NativeMenuWinPtr) (n : nat) (menu_index : Z)
    (self : NativeMenuWin) : option NativeMenuWin :=
  match n with
  | O => Some self
  | S n' =>
      let model_index := menu_index - first_item_index_ self in
      self ←
        (if decide (GetTypeAt (model_ self) model_index = TYPE_SEPARATOR)
         then AddSeparatorItemAt self menu_index model_index
         else AddMenuItemAt this self menu_index model_index);
      Rebuild_loop this n' (menu_index + 1) self
  end.

Definition Rebuild_with (this : NativeMenuWinPtr) (self : NativeMenuWin)
  : option NativeMenuWin :=
  let self := ResetNativeMenu this self in
  let self := set_items_ [] self in
  let self := set_owner_draw_ (HasIcons (model_ self) || owner_draw_ self) self in
  let self :=
    set_first_item_index_
      (GetFirstItemIndex (model_ self) (GetNativeMenu self)) self in
  (* for (menu_index = first_item_index_;
          menu_index < first_item_index_ + model_->GetItemCount(); ++menu_index):
     the loop body changes neither operand of the sum, so the bound is the
     same in every round, and the loop runs for the indices below it *)
  bound ← int_add (first_item_index_ self) (GetItemCount (model_ self));
  Rebuild_loop this (Z.to_nat (bound - first_item_index_ self))
    (first_item_index_ self) self.

End Rebuild.

(** Modelled from the spec: Menu2::Menu2(model) is not part of the sources.
    It creates the wrapper for [model] and rebuilds it ("recursively
    constructing a child MenuController for submenu types"); a null [model]
    is dereferenced by that rebuild.  [addr] is the address of the new
    wrapper. *)
Fixpoint Menu2_ctor (model : MenuModel) (addr : NativeMenuWinPtr) {struct model}
  : option Menu2 :=
  let wrapper := CreateWrapper model in
  wrapper ←
    Rebuild_with
      (fun i => sub_model ← GetSubmenuModelAt model i;
                Menu2_ctor sub_model (child_ptr addr i))
      addr wrapper;
  Some (mkMenu2 model wrapper).

(** NativeMenuWin::Rebuild(). *)
Definition Rebuild (this : NativeMenuWinPtr) (self : NativeMenuWin)
  : option NativeMenuWin :=
  Rebuild_with
    (fun i => sub_model ← GetSubmenuModelAt (model_ self) i;
              Menu2_ctor sub_model (child_ptr this i))
    this self.

End Construction.

Section UpdateStates.

(** Modelled from the spec: Menu2::UpdateStates is not part of the sources;
    it forwards to the wrapper ("recurses into owned submenu controllers").
    Supplied by [UpdateStates] below. *)
Variable Menu2_UpdateStates : Menu2 -> option Menu2.

(** The body of the [for] loop of [UpdateStates] for the entry [it] at
    [model_index].  The position [model_index + first_item_index_] lies
    below the loop bound of the [Rebuild] that filled [items_]. *)
Definition UpdateStates_step (it : ItemData) (model_index : Z) (self : NativeMenuWin)
  : option NativeMenuWin :=
  let menu_index := model_index + first_item_index_ self in
  let self :=
    SetMenuItemState self menu_index
      (IsEnabledAt (model_ self) model_index)
      (IsItemCheckedAt (model_ self) model_index) false in
  self ←
    (if IsItemDynamicAt (model_ self) model_index
     then SetMenuItemLabel self menu_index model_index
            (GetLabelAt (model_ self) model_index)
     else Some self);
  match submenu it with
  | Some sub =>
      (* submenu->UpdateStates(), the entry keeping its submenu *)
      sub ← Menu2_UpdateStates sub;
      items ← vector_update (set_submenu (Some sub)) (items_ self) model_index;
      Some (set_items_ items self)
  | None => Some self
  end.

(** The walk over [items_].  The iterator runs over the entries the vector
    holds when the walk starts; the walk assigns labels only, so the
    [submenu] of the entry under the iterator is the one the entry had at
    the start. *)
Fixpoint UpdateStates_walk (its : list ItemData) (model_index : Z)
    (self : NativeMenuWin) : option NativeMenuWin :=
  match its with
  | [] => Some self
  | it :: rest =>
      self ← UpdateStates_step it model_index self;
      UpdateStates_walk rest (model_index + 1) self
  end.

End UpdateStates.

(** NativeMenuWin::UpdateStates(): a depth-first walk of the menu items,
    updating states. *)
Fixpoint UpdateStates (self : NativeMenuWin) : option NativeMenuWin :=
  UpdateStates_walk
    (fun sub : Menu2 =>
       wrapper ← UpdateStates (wrapper_ sub);
       Some (mkMenu2 (m2_model_ sub) wrapper))
    (items_ self) 0 self.

(** ** SystemMenuModel *)

(** SystemMenuModel::GetFirstItemIndex(native_menu): insertions are allowed
    before the last item (Close). *)
Definition SystemMenuModel_GetFirstItemIndex (native_menu : HMENU) : Z :=
  Z.max 0 (GetMenuItemCount native_menu - 1).

(** A [SystemMenuModel] is a [SimpleMenuModel] (the state [base]) that
    overrides [GetFirstItemIndex]. *)
Definition SystemMenuModel (base : MenuModel) : MenuModel :=
  mkMenuModel (HasIcons base) SystemMenuModel_GetFirstItemIndex
    (GetItemCount base) (GetTypeAt base) (GetCommandIdAt base) (GetLabelAt base)
    (IsItemDynamicAt base) (GetAcceleratorAt base) (IsItemCheckedAt base)
    (IsEnabledAt base) (GetSubmenuModelAt base).

(** ** The process: static data, message loop and what the collaborators
    observe *)

(** Calls made on the collaborators, in the order they are made.  A model
    is named by the controller through whose [model_] it is called. *)
Inductive Notification : Type :=
  | ActivatedAt (receiver : NativeMenuWinPtr) (position : Z)
  | HighlightChangedTo (receiver : NativeMenuWinPtr) (position : Z)
  | MenuClosed (receiver : NativeMenuWinPtr)
  | OnMenuOpened (listener : MenuListenerPtr)
  | EndMenu.

(** A task of the message loop: the runnable method
    [MenuHostWindow::OnMenuClosed] bound to its host. *)
Inductive Task : Type :=
  | OnMenuClosed_task (host : MenuHostWindow).

(** [objects]: the top-level controllers by address;
    [open_native_menu_win_]: the static member of NativeMenuWin;
    [pending_tasks]: the queue of [MessageLoop::current()], oldest first;
    [notifications]: the calls made so far, oldest first. *)
Record Process : Type := mkProcess {
  objects : gmap NativeMenuWinPtr NativeMenuWin;
  open_native_menu_win_ : option NativeMenuWinPtr;
  pending_tasks : list Task;
  notifications : list Notification }.

Definition set_objects (v : gmap NativeMenuWinPtr NativeMenuWin) (p : Process)
  : Process :=
  mkProcess v (open_native_menu_win_ p) (pending_tasks p) (notifications p).
Definition set_open_native_menu_win_ (v : option NativeMenuWinPtr) (p : Process)
  : Process :=
  mkProcess (objects p) v (pending_tasks p) (notifications p).
Definition set_pending_tasks (v : list Task) (p : Process) : Process :=
  mkProcess (objects p) (open_native_menu_win_ p) v (notifications p).
Definition notify (n : Notification) (p : Process) : Process :=
  mkProcess (objects p) (open_native_menu_win_ p) (pending_tasks p)
    (notifications p ++ [n]).
Definition store (this : NativeMenuWinPtr) (self : NativeMenuWin) (p : Process)
  : Process :=
  set_objects (<[this := self]> (objects p)) p.

(** Modelled from the spec: base/message_loop.h is not part of the sources.
    [PostTask] schedules "a follow-up task rather than notifying inline":
    the task joins the queue and runs once the current call stack has
    returned to the message loop. *)
Definition PostTask (t : Task) (p : Process) : Process :=
  set_pending_tasks (pending_tasks p ++ [t]) p.

(** The [LPARAM] of a window message: a menu handle for the menu messages,
    a pointer this model does not look into for the others. *)
Inductive LPARAM : Type :=
  | lparam_HMENU (menu : HMENU)
  | lparam_other (value : Z).

(** [reinterpret_cast<HMENU>(l_param)]; what is not a menu handle is
    a handle the menu calls fail on. *)
Definition HMENU_of_LPARAM (l_param : LPARAM) : HMENU :=
  match l_param with
  | lparam_HMENU menu => menu
  | lparam_other _ => None
  end.

(** ** NativeMenuWin::MenuHostWindow *)

Definition GetNativeMenuWinFromHMENU (hmenu : HMENU) : option NativeMenuWinPtr :=
  GetMenuInfo_dwMenuData hmenu.

(** The [for] loop of [GetMenuItemIndexFromWPARAM], run [n] more times from
    [i]; [None] when it ends without a [return]. *)
Fixpoint find_command_id (menu : HMENU) (w_param : WPARAM) (n : nat) (i : Z)
  : option Z :=
  match n with
  | O => None
  | S n' =>
      let mii := set_fMask MIIM_ID mii_zero in
      let mii := snd (GetMenuItemInfo menu i mii) in
      if mii_wID mii =? w_param then Some i
      else find_command_id menu w_param n' (i + 1)
  end.

Definition GetMenuItemIndexFromWPARAM (menu : HMENU) (w_param : WPARAM) : Z :=
  let count := GetMenuItemCount menu in
  match find_command_id menu w_param (Z.to_nat count) 0 with
  | Some i => i
  | None => int_of_WPARAM w_param
  end.

(** [intergoat->model_->ActivatedAt(position)]; [None] when the menu info
    holds no controller. *)
Definition OnMenuCommand (position : Z) (menu : HMENU) (p : Process)
  : option Process :=
  intergoat ← GetNativeMenuWinFromHMENU menu;
  Some (notify (ActivatedAt intergoat position) p).

Definition OnMenuSelect (w_param : WPARAM) (menu : HMENU) (p : Process)
  : option Process :=
  match menu with
  | None => Some p
  | Some _ =>
      let position := GetMenuItemIndexFromWPARAM menu w_param in
      if 0 <=? position then
        receiver ← GetNativeMenuWinFromHMENU menu;
        Some (notify (HighlightChangedTo receiver position) p)
      else Some p
  end.

Definition OnMenuClosed (host : MenuHostWindow) (p : Process) : Process :=
  notify (MenuClosed (parent_ host)) p.

(** [ProcessWindowMessage]: whether the message was handled, [*l_result]
    and the new process state.  Measuring and drawing call nothing that is
    recorded here. *)
Definition ProcessWindowMessage (host : MenuHostWindow) (message : UINT)
    (w_param : WPARAM) (l_param : LPARAM) (l_result : Z) (p : Process)
  : option (bool * Z * Process) :=
  if message =? WM_MENUCOMMAND then
    p ← OnMenuCommand (int_of_WPARAM w_param) (HMENU_of_LPARAM l_param) p;
    Some (true, 0, p)
  else if message =? WM_MENUSELECT then
    p ← OnMenuSelect (LOWORD w_param) (HMENU_of_LPARAM l_param) p;
    Some (true, 0, p)
  else if message =? WM_MEASUREITEM then Some (true, 0, p)
  else if message =? WM_DRAWITEM then Some (true, 0, p)
  else if message =? WM_EXITMENULOOP then
    Some (true, l_result, PostTask (OnMenuClosed_task host) p)
  else Some (false, l_result, p).

(** [MenuHostWindowProc]; [host] is the user data of the window, null
    during construction.  [DefWindowProc] answers 0 for what is left. *)
Definition MenuHostWindowProc (host : option MenuHostWindow) (message : UINT)
    (w_param : WPARAM) (l_param : LPARAM) (p : Process) : option (Z * Process) :=
  match host with
  | None => Some (0, p)
  | Some host =>
      '(handled, l_result, p') ← ProcessWindowMessage host message w_param l_param 0 p;
      if (handled : bool) then Some (l_result, p') else Some (0, p')
  end.

(** Modelled from the spec: the message loop, back in control, runs the
    tasks of its queue in the order they were posted. *)
Definition run_task (t : Task) (p : Process) : Process :=
  match t with
  | OnMenuClosed_task host => OnMenuClosed host p
  end.

Definition RunAllPending (p : Process) : Process :=
  foldl (fun p t => run_task t p) (set_pending_tasks [] p) (pending_tasks p).

(** ** The keyboard hook *)

(** [GetHighlightedMenuItemInfo(menu, &has_parent, &has_submenu)]: the
    result and the two flags after the call. *)
Fixpoint GetHighlightedMenuItemInfo_rec (menu : MENU) (has_parent has_submenu : bool)
  : bool * bool * bool :=
  (fix scan (its : list MENUITEM) : bool * bool * bool :=
     match its with
     | [] => (false, has_parent, has_submenu)
     | it :: rest =>
         let state := menu_state it in
         if has_flag state MF_HILITE then
           if has_flag state MF_POPUP then
             match hSubMenu it with
             | Some submenu =>
                 let '(found, has_parent', has_submenu') :=
                   GetHighlightedMenuItemInfo_rec submenu has_parent has_submenu in
                 if found then (true, true, has_submenu')
                 else (true, has_parent', true)
             | None => (true, has_parent, true)
             end
           else (true, has_parent, has_submenu)
         else scan rest
     end) (menu_items menu).

Definition GetHighlightedMenuItemInfo (menu : HMENU) (has_parent has_submenu : bool)
  : bool * bool * bool :=
  match menu with
  | Some m => GetHighlightedMenuItemInfo_rec m has_parent has_submenu
  | None => (false, has_parent, has_submenu)
  end.

(** The navigation a key message asks for, given the flags: the two
    branches of the hook that assign [menu_action_]. *)
Definition key_action (msg : MSG) (has_parent has_submenu : bool) : option MenuAction :=
  if (wParam msg =? VK_LEFT) && negb has_parent then Some MENU_ACTION_PREVIOUS
  else if (wParam msg =? VK_RIGHT) && negb has_parent && negb has_submenu
  then Some MENU_ACTION_NEXT
  else None.

(** [MenuMessageHook], [msg] being the message under [l_param].  [live] is
    the state the OS holds for [this_ptr->menu_] when the hook runs: the
    highlight moves as the user navigates. *)
Definition MenuMessageHook (msg : MSG) (live : HMENU) (p : Process)
  : option Process :=
  this_ptr ← open_native_menu_win_ p;
  this ← objects p !! this_ptr;
  called ← listeners_called_ this;
  let '(this, p) :=
    if negb called then
      (set_listeners_called_ (Some true) this,
       foldl (fun p l => notify (OnMenuOpened l) p) p (listeners_ this))
    else (this, p) in
  if message msg =? WM_KEYDOWN then
    let '(_, has_parent, has_submenu) :=
      GetHighlightedMenuItemInfo live false false in
    match key_action msg has_parent has_submenu with
    | Some action =>
        Some (notify EndMenu (store this_ptr (set_menu_action_ action this) p))
    | None => Some (store this_ptr this p)
    end
  else Some (store this_ptr this p).

(** ** The modal loop *)

(** What the OS does while [TrackPopupMenuEx] blocks: it runs the message
    hook, and sends messages to the host window. *)
Inductive LoopEvent : Type :=
  | HookCall (msg : MSG) (live : HMENU)
  | WindowMessage (message : UINT) (w_param : WPARAM) (l_param : LPARAM).

Definition loop_step (host : option MenuHostWindow) (e : LoopEvent) (p : Process)
  : option Process :=
  match e with
  | HookCall msg live => MenuMessageHook msg live p
  | WindowMessage message w_param l_param =>
      snd <$> MenuHostWindowProc host message w_param l_param p
  end.

(** The modal loop of the OS: it delivers [events], one after the other,
    [host] being the user data of the window the menu messages go to. *)
Fixpoint modal_loop (host : option MenuHostWindow) (events : list LoopEvent)
    (p : Process) : option Process :=
  match events with
  | [] => Some p
  | e :: rest => p ← loop_step host e p; modal_loop host rest p
  end.

(** [TrackPopupMenuEx(menu, flags, x, y, hwnd, NULL)]: the call blocks in
    the modal loop, in which the OS delivers [events].  [host] is the user
    data of [hwnd]. *)
Definition TrackPopupMenuEx (menu : HMENU) (flags : UINT) (x y : Z)
    (host : option MenuHostWindow) (events : list LoopEvent) (p : Process)
  : option Process :=
  modal_loop host events p.

(** [RunMenuAt] up to the call of [TrackPopupMenuEx]: the process state
    the modal loop starts in.  (The flags of the call are computed in
    [RunMenuAt] below; they depend on [alignment] only.) *)
Definition RunMenuAt_enter (this : NativeMenuWinPtr) (alignment : Z) (p : Process)
  : option Process :=
  self ← objects p !! this;
  let self := CreateHostWindow this self in
  self ← UpdateStates self;
  let self := set_menu_action_ MENU_ACTION_NONE self in
  let p := set_open_native_menu_win_ (Some this) p in
  let self := set_listeners_called_ (Some false) self in
  Some (store this self p).

(** NativeMenuWin::RunMenuAt(point, alignment). *)
Definition RunMenuAt (this : NativeMenuWinPtr) (point : Z * Z) (alignment : Z)
    (events : list LoopEvent) (p : Process) : option Process :=
  p ← RunMenuAt_enter this alignment p;
  self ← objects p !! this;
  let flags := Z.lor (Z.lor TPM_LEFTBUTTON TPM_RECURSE) (GetAlignmentFlags alignment) in
  p ← TrackPopupMenuEx (menu_ self) flags (fst point) (snd point)
        (host_window_ self) events p;
  (* UnhookWindowsHookEx(hhook); *)
  Some (set_open_native_menu_win_ None p).

(** NativeMenuWin::CancelMenu(). *)
Definition CancelMenu (p : Process) : Process := notify EndMenu p.

(** ** Owner-drawn items: the handlers of WM_MEASUREITEM and WM_DRAWITEM *)

(** The width of an icon, including the pixels between the icon and the
    item label; the margins around the label; the width for displaying the
    sub-menu arrow. *)
Definition kIconWidth : Z := 23.
Definition kItemTopMargin : Z := 3.
Definition kItemBottomMargin : Z := 4.
Definition kItemLeftMargin : Z := 4.
Definition kItemRightMargin : Z := 10.
Definition kArrowWidth : Z := 10.

(** [s.find(c)] of std::wstring: the position of the first [c], [None] for
    [npos].  [s.substr(pos)] and [s.substr(0, pos)], for a position within
    the string, are [drop pos s] and [take pos s]. *)
Fixpoint wstring_find (s : wstring) (c : wchar_t) : option nat :=
  match s with
  | [] => None
  | x :: rest => if x =? c then Some O else S <$> wstring_find rest c
  end.

(** The part of GDI the drawing handler calls (Windows SDK). *)
Module Gdi.

Abbreviation COLORREF := Z (only parsing).
Abbreviation HGDIOBJ := Z (only parsing).

Definition ODS_SELECTED : UINT := 1.
Definition ODS_DISABLED : UINT := 4.

Definition COLOR_MENU : Z := 4.
Definition COLOR_MENUTEXT : Z := 7.
Definition COLOR_HIGHLIGHT : Z := 13.
Definition COLOR_HIGHLIGHTTEXT : Z := 14.
Definition COLOR_GRAYTEXT : Z := 17.

Definition DT_TOP : UINT := 0.
Definition DT_LEFT : UINT := 0.
Definition DT_RIGHT : UINT := 2.
Definition DT_SINGLELINE : UINT := 32.
Definition DT_HIDEPREFIX : UINT := 1048576.

Definition EDGE_ETCHED : UINT := 6.
Definition BF_TOP : UINT := 2.

Definition SM_CYMENU : Z := 15.
Definition SM_CXMENUCHECK : Z := 71.

Record RECT : Type := mkRECT {
  rc_left : Z;
  rc_top : Z;
  rc_right : Z;
  rc_bottom : Z }.

Definition set_rc_left (v : Z) (rc : RECT) : RECT :=
  mkRECT v (rc_top rc) (rc_right rc) (rc_bottom rc).
Definition set_rc_top (v : Z) (rc : RECT) : RECT :=
  mkRECT (rc_left rc) v (rc_right rc) (rc_bottom rc).
Definition set_rc_right (v : Z) (rc : RECT) : RECT :=
  mkRECT (rc_left rc) (rc_top rc) v (rc_bottom rc).

(** SkBitmap, as far as the handler asks: the size of the icon. *)
Record SkBitmap : Type := mkSkBitmap { bm_width : Z; bm_height : Z }.

(** The calls that paint.  A brush is given by its colour. *)
Inductive GdiCall : Type :=
  | FillRect (rc : RECT) (hbr : COLORREF)
  | DrawTextEx (text : wstring) (rc : RECT) (format : UINT)
  | drawToHDC (icon : SkBitmap) (x y : Z)
  | DrawEdge (rc : RECT) (edge grfFlags : UINT).

(** A device context: the background colour, the text colour and the font
    selected into it, and the painting calls made on it so far, oldest
    first, each with the colours and the font it was made under. *)
Record DC : Type := mkDC {
  dc_bk_color : COLORREF;
  dc_text_color : COLORREF;
  dc_font : HGDIOBJ;
  dc_painted : list (GdiCall * (COLORREF * COLORREF * HGDIOBJ)) }.

(** [SetBkColor], [SetTextColor] and [SelectObject] answer the value they
    replace. *)
Definition SetBkColor (dc : DC) (color : COLORREF) : COLORREF * DC :=
  (dc_bk_color dc, mkDC color (dc_text_color dc) (dc_font dc) (dc_painted dc)).
Definition SetTextColor (dc : DC) (color : COLORREF) : COLORREF * DC :=
  (dc_text_color dc, mkDC (dc_bk_color dc) color (dc_font dc) (dc_painted dc)).
Definition SelectObject (dc : DC) (obj : HGDIOBJ) : HGDIOBJ * DC :=
  (dc_font dc, mkDC (dc_bk_color dc) (dc_text_color dc) obj (dc_painted dc)).
Definition GetBkColor (dc : DC) : COLORREF := dc_bk_color dc.

(** A painting call made on [dc]. *)
Definition paint (call : GdiCall) (dc : DC) : DC :=
  mkDC (dc_bk_color dc) (dc_text_color dc) (dc_font dc)
    (dc_painted dc ++ [(call, (dc_bk_color dc, dc_text_color dc, dc_font dc))]).

End Gdi.

Export Gdi.

(** Modelled from the spec: gfx/font.h is not part of the sources; the
    handlers consult "font metrics".  Of the default font they ask the width
    of a string, the height and the native font. *)
Record Font : Type := mkFont {
  GetStringWidth : wstring -> Z;
  GetHeight : Z;
  GetNativeFont : HGDIOBJ }.

(** [MEASUREITEMSTRUCT] and [DRAWITEMSTRUCT], with the members the handlers
    use.  [itemData] is the pointer to the registry entry that
    [AddMenuItemAt] stored in the item, given by the entry it points to;
    it is null for a separator. *)
Record MEASUREITEMSTRUCT : Type := mkMEASUREITEMSTRUCT {
  mis_itemWidth : UINT;
  mis_itemHeight : UINT;
  mis_itemData : option ItemData }.

Record DRAWITEMSTRUCT : Type := mkDRAWITEMSTRUCT {
  dis_itemState : UINT;
  dis_hDC : DC;
  dis_rcItem : RECT;
  dis_itemData : option ItemData }.

Section OwnerDraw.

(** What the handlers ask the system: the default font ([gfx::Font font]),
    [GetSystemMetrics], [GetSysColor], and whether mnemonics are underlined
    ([SystemParametersInfo(SPI_GETKEYBOARDCUES, ...)]). *)
Variable font : Font.
Variable GetSystemMetrics : Z -> Z.
Variable GetSysColor : Z -> COLORREF.
Variable underline_mnemonics : bool.

(** [controller->model_->GetIconAt(model_index, &icon)] for the controller
    at an address: the icon, [None] where the query answers false.
    Modelled from the spec: the capability "icon-at" of the model. *)
Variable GetIconAt : NativeMenuWinPtr -> Z -> option SkBitmap.

(** Called by Windows to measure the size of an owner-drawn menu item. *)
Definition OnMeasureItem (w_param : WPARAM) (measure_item_struct : MEASUREITEMSTRUCT)
  : MEASUREITEMSTRUCT :=
  match mis_itemData measure_item_struct with
  | Some data =>
      let itemWidth :=
        UINT_of_int
          (GetStringWidth font (label data) + kIconWidth + kItemLeftMargin
           + kItemRightMargin - GetSystemMetrics SM_CXMENUCHECK) in
      let itemWidth :=
        if negb (is_NULL (submenu data)) then UINT_of_int (itemWidth + kArrowWidth)
        else itemWidth in
      (* If the label contains an accelerator, make room for tab. *)
      let itemWidth :=
        if negb (is_NULL (wstring_find (label data) 9))
        then UINT_of_int (itemWidth + GetStringWidth font (L " "))
        else itemWidth in
      let itemHeight :=
        UINT_of_int (GetHeight font + kItemBottomMargin + kItemTopMargin) in
      mkMEASUREITEMSTRUCT itemWidth itemHeight (mis_itemData measure_item_struct)
  | None =>
      (* Measure separator size. *)
      let itemHeight := UINT_of_int (Z.quot (GetSystemMetrics SM_CYMENU) 2) in
      mkMEASUREITEMSTRUCT 0 itemHeight (mis_itemData measure_item_struct)
  end.

(** The rectangle the label is drawn into. *)
Definition label_rect (rcItem : RECT) : RECT :=
  let rect := rcItem in
  let rect := set_rc_top (rc_top rect + kItemTopMargin) rect in
  let rect := set_rc_left (rc_left rect + (kItemLeftMargin + kIconWidth)) rect in
  set_rc_right (rc_right rect - kItemRightMargin) rect.

(** The [format] of the two [DrawTextEx] calls. *)
Definition label_format : UINT :=
  let format := Z.lor DT_TOP DT_SINGLELINE in
  if negb underline_mnemonics then Z.lor format DT_HIDEPREFIX else format.

(** Called by Windows to paint an owner-drawn menu item.  [None]: the
    handler reads a member of the entry that was never assigned. *)
Definition OnDrawItem (w_param : UINT) (draw_item_struct : DRAWITEMSTRUCT)
  : option DRAWITEMSTRUCT :=
  let dc := dis_hDC draw_item_struct in
  let itemState := dis_itemState draw_item_struct in
  let rcItem := dis_rcItem draw_item_struct in
  (* Set background color and text color *)
  let '(prev_bg_color, prev_text_color, dc) :=
    if has_flag itemState ODS_SELECTED then
      let '(prev_bg_color, dc) := SetBkColor dc (GetSysColor COLOR_HIGHLIGHT) in
      let '(prev_text_color, dc) := SetTextColor dc (GetSysColor COLOR_HIGHLIGHTTEXT) in
      (prev_bg_color, prev_text_color, dc)
    else
      let '(prev_bg_color, dc) := SetBkColor dc (GetSysColor COLOR_MENU) in
      let '(prev_text_color, dc) :=
        if has_flag itemState ODS_DISABLED
        then SetTextColor dc (GetSysColor COLOR_GRAYTEXT)
        else SetTextColor dc (GetSysColor COLOR_MENUTEXT) in
      (prev_bg_color, prev_text_color, dc) in
  '(dc, rcItem) ←
    match dis_itemData draw_item_struct with
    | Some data =>
        (* Draw the background. *)
        let hbr := GetBkColor dc in
        let dc := paint (FillRect rcItem hbr) dc in
        (* Draw the label. *)
        let rect := label_rect rcItem in
        let format := label_format in
        let '(old_font, dc) := SelectObject dc (GetNativeFont font) in
        let label' := label data in
        let accel := [] in
        let tab_pos := wstring_find label' 9 in
        let '(label', accel) :=
          match tab_pos with
          | Some tab_pos => (take tab_pos label', drop tab_pos label')
          | None => (label', accel)
          end in
        let dc := paint (DrawTextEx label' rect (Z.lor format DT_LEFT)) dc in
        let dc :=
          match accel with
          | [] => dc
          | _ => paint (DrawTextEx accel rect (Z.lor format DT_RIGHT)) dc
          end in
        let '(_, dc) := SelectObject dc old_font in
        (* Draw the icon after the label, otherwise it would be covered by
           the label. *)
        controller ← native_menu_win data;
        index ← model_index data;
        let dc :=
          match GetIconAt controller index with
          | Some icon =>
              paint
                (drawToHDC icon (rc_left rcItem + kItemLeftMargin)
                   (rc_top rcItem
                    + Z.quot (rc_bottom rcItem - rc_top rcItem - bm_height icon) 2))
                dc
          | None => dc
          end in
        Some (dc, rcItem)
    | None =>
        (* Draw the separator *)
        let rcItem :=
          set_rc_top
            (rc_top rcItem + Z.quot (rc_bottom rcItem - rc_top rcItem) 3) rcItem in
        Some (paint (DrawEdge rcItem EDGE_ETCHED BF_TOP) dc, rcItem)
    end;
  let '(_, dc) := SetBkColor dc prev_bg_color in
  let '(_, dc) := SetTextColor dc prev_text_color in
  Some (mkDRAWITEMSTRUCT itemState dc rcItem (dis_itemData draw_item_struct)).

End OwnerDraw.

(** ** Models given by a list of items (used for the concrete examples) *)

Record ModelItem : Type := mkModelItem {
  item_type : ItemType;
  item_command_id : Z;
  item_label : wstring;
  item_dynamic : bool;
  item_accelerator : option Accelerator;
  item_checked : bool;
  item_enabled : bool;
  item_submenu : option MenuModel }.

Definition command_item (id : Z) (text : wstring) : ModelItem :=
  mkModelItem TYPE_COMMAND id text false None false true None.
Definition separator_item : ModelItem :=
  mkModelItem TYPE_SEPARATOR 0 [] false None false true None.
Definition submenu_item (text : wstring) (sub : MenuModel) : ModelItem :=
  mkModelItem TYPE_SUBMENU 0 text false None false true (Some sub).

(** The model that answers every query from [items]; an index outside the
    list is answered like an enabled, unchecked command without label. *)
Definition list_model (has_icons : bool) (items : list ModelItem) : MenuModel :=
  let item i := default (command_item 0 []) (vector_at items i) in
  mkMenuModel has_icons (fun _ => 0) (Z.of_nat (length items))
    (fun i => item_type (item i)) (fun i => item_command_id (item i))
    (fun i => item_label (item i)) (fun i => item_dynamic (item i))
    (fun i => item_accelerator (item i)) (fun i => item_checked (item i))
    (fun i => item_enabled (item i)) (fun i => item_submenu (item i)).

(** ** Notions used in the statements *)

(** The model indices [Rebuild] visits: 0, ..., count - 1. *)
Definition model_indices (model : MenuModel) : list Z :=
  map Z.of_nat (seq 0 (Z.to_nat (GetItemCount model))).

(** Every item of type submenu has a submenu model, at every depth: the
    models [Rebuild] can build without calling through a null pointer. *)
Fixpoint submenus_present (model : MenuModel) : bool :=
  forallb
    (fun i =>
       match GetTypeAt model i with
       | TYPE_SUBMENU =>
           match GetSubmenuModelAt model i with
           | Some sub_model => submenus_present sub_model
           | None => false
           end
       | _ => true
       end)
    (model_indices model).

(** The menu [ResetNativeMenu] creates for a controller at [this] that
    wraps no window menu. *)
Definition new_popup_menu (this : NativeMenuWinPtr) : HMENU :=
  SetMenuInfo CreatePopupMenu MNS_NOTIFYBYPOS (Some this).

(** The first item index that [model] answers for the menu [menu0], its
    item count and their sum, the bound of the loop of [Rebuild], are
    [int]s: the loop test does not overflow. *)
Definition loop_bound_fits (model : MenuModel) (menu0 : HMENU) : bool :=
  is_int (GetFirstItemIndex model menu0)
  && is_int (GetItemCount model)
  && is_int (GetFirstItemIndex model menu0 + GetItemCount model).

(** The loop test overflows neither in the [Rebuild] of the controller at
    [this], which starts from the menu [menu0], nor, at any depth, in that
    of the controller of a submenu, which starts from a new popup menu. *)
Fixpoint loop_bounds_fit (model : MenuModel) (this : NativeMenuWinPtr) (menu0 : HMENU)
    {struct model} : bool :=
  loop_bound_fits model menu0
  && forallb
       (fun i =>
          match GetTypeAt model i with
          | TYPE_SUBMENU =>
              match GetSubmenuModelAt model i with
              | Some sub_model =>
                  loop_bounds_fit sub_model (child_ptr this i)
                    (new_popup_menu (child_ptr this i))
              | None => true
              end
          | _ => true
          end)
       (model_indices model).

(** A run of [SetMenuItemLabel] calls, each given as
    (menu_index, model_index, label). *)
Fixpoint SetMenuItemLabel_calls (calls : list (Z * Z * wstring)) (self : NativeMenuWin)
  : option NativeMenuWin :=
  match calls with
  | [] => Some self
  | (menu_index, model_index, text) :: rest =>
      self ← SetMenuItemLabel self menu_index model_index text;
      SetMenuItemLabel_calls rest self
  end.

(** The navigation the hook resolves at one event of the modal loop,
    [action] being the one resolved so far: a key message that asks for a
    navigation replaces it, every other event keeps it. *)
Definition action_step (action : MenuAction) (e : LoopEvent) : MenuAction :=
  match e with
  | HookCall msg live =>
      if message msg =? WM_KEYDOWN then
        let '(_, has_parent, has_submenu) :=
          GetHighlightedMenuItemInfo live false false in
        default action (key_action msg has_parent has_submenu)
      else action
  | WindowMessage _ _ _ => action
  end.

(** The navigation resolved by the hook calls among [events]: the action
    asked for by the last key message that asks for one, none otherwise. *)
Definition action_resolved (events : list LoopEvent) : MenuAction :=
  foldl action_step MENU_ACTION_NONE events.

(** The notification a queued task makes when it runs. *)
Definition task_notification (t : Task) : Notification :=
  match t with
  | OnMenuClosed_task host => MenuClosed (parent_ host)
  end.

(** The modal loop changes [menu_action_] and [listeners_called_] only. *)
Definition same_but_action (s s' : NativeMenuWin) : Prop :=
  model_ s' = model_ s /\ menu_ s' = menu_ s /\ owner_draw_ s' = owner_draw_ s
  /\ system_menu_for_ s' = system_menu_for_ s
  /\ first_item_index_ s' = first_item_index_ s
  /\ items_ s' = items_ s /\ listeners_ s' = listeners_ s
  /\ host_window_ s' = host_window_ s.

(** A menu message carries a menu whose menu info names a controller: the
    messages the handlers can dispatch. *)
Definition dispatchable (e : LoopEvent) : bool :=
  match e with
  | HookCall _ _ => true
  | WindowMessage message _ l_param =>
      if (message =? WM_MENUCOMMAND) || (message =? WM_MENUSELECT) then
        match GetNativeMenuWinFromHMENU (HMENU_of_LPARAM l_param) with
        | Some _ => true
        | None => false
        end
      else true
  end.

(** What a client does with the controller at [this] between its
    construction and its destruction. *)
Inductive Call : Type :=
  | call_Rebuild
  | call_UpdateStates
  | call_RunMenuAt (point : Z * Z) (alignment : Z) (events : list LoopEvent)
  | model_changes (new_state : MenuModel).

Definition do_call (NeedOverrideDefaultUIFont : bool) (this : NativeMenuWinPtr)
    (c : Call) (p : Process) : option Process :=
  match c with
  | call_Rebuild =>
      self ← objects p !! this;
      self ← Rebuild NeedOverrideDefaultUIFont this self;
      Some (store this self p)
  | call_UpdateStates =>
      self ← objects p !! this;
      self ← UpdateStates self;
      Some (store this self p)
  | call_RunMenuAt point alignment events =>
      RunMenuAt this point alignment events p
  | model_changes new_state =>
      self ← objects p !! this;
      Some (store this (set_model_ new_state self) p)
  end.

Fixpoint do_calls (NeedOverrideDefaultUIFont : bool) (this : NativeMenuWinPtr)
    (calls : list Call) (p : Process) : option Process :=
  match calls with
  | [] => Some p
  | c :: rest =>
      p ← do_call NeedOverrideDefaultUIFont this c p;
      do_calls NeedOverrideDefaultUIFont this rest p
  end.

(** The entry of [items_] at index [i], and the OS item text at a
    position. *)
Definition registry_label (self : NativeMenuWin) (i : Z) : option wstring :=
  label <$> vector_at (items_ self) i.

Definition os_label (self : NativeMenuWin) (menu_index : Z) : option wstring :=
  it ← item_at (menu_ self) menu_index; dwTypeData it.

(** The items of a menu handle, none for the null handle. *)
Definition items_of (menu : HMENU) : list MENUITEM :=
  match menu with Some m => menu_items m | None => [] end.

(** The members of a controller other than [menu_] and [items_] agree. *)
Definition same_config (s s' : NativeMenuWin) : Prop :=
  model_ s' = model_ s /\ owner_draw_ s' = owner_draw_ s
  /\ system_menu_for_ s' = system_menu_for_ s
  /\ first_item_index_ s' = first_item_index_ s
  /\ menu_action_ s' = menu_action_ s /\ listeners_ s' = listeners_ s
  /\ listeners_called_ s' = listeners_called_ s
  /\ host_window_ s' = host_window_ s.

(** The entry [Rebuild] adds to [items_] for model index [i], [sub] being
    the submenu built for it (none unless the item is a submenu). *)
Definition built_entry (this : NativeMenuWinPtr) (model : MenuModel) (i : Z)
    (sub : option Menu2) : ItemData :=
  if decide (GetTypeAt model i = TYPE_SEPARATOR) then new_ItemData
  else mkItemData (formatted_label model i (GetLabelAt model i)) sub
         (Some this) (Some i).

(** The submenu [AddMenuItemAt] builds for model index [i]: [new_Menu2 i]
    for an item of type submenu, none for the other types; [None] when the
    construction fails. *)
Definition built_submenu (new_Menu2 : Z -> option Menu2) (model : MenuModel) (i : Z)
  : option (option Menu2) :=
  if decide (GetTypeAt model i = TYPE_SUBMENU) then Some <$> new_Menu2 i
  else Some None.

(** [InsertMenuItem] at [start], [start + 1], ... for the structures [ms]. *)
Fixpoint insert_all (menu : HMENU) (start : Z) (ms : list MENUITEMINFO) : HMENU :=
  match ms with
  | [] => menu
  | mii :: rest => insert_all (snd (InsertMenuItem menu start mii)) (start + 1) rest
  end.

(** The label C10 describes for the text [text] at model index [i]: the
    text, a tab and the shortcut text for an item that is not a submenu and
    has an accelerator; the text alone for a submenu item. *)
Definition claimed_label (model : MenuModel) (i : Z) (text expected : wstring) : Prop :=
  (GetTypeAt model i <> TYPE_SUBMENU
   /\ exists accelerator,
        GetAcceleratorAt model i = Some accelerator
        /\ expected = text ++ tab ++ GetShortcutText accelerator)
  \/ (GetTypeAt model i = TYPE_SUBMENU /\ expected = text).

(** The [MENUITEMINFO] that [SetMenuItemLabel] passes to the OS for the
    stored text [f]: a pointer to its code units, which the OS reads up to
    the first NUL. *)
Definition label_mii (f : wstring) : MENUITEMINFO :=
  set_dwTypeData (Some (c_str f))
    (set_fMask (Z.lor (mii_fMask mii_zero) MIIM_STRING) mii_zero).

(** The [MENUITEMINFO] that [SetMenuItemState] passes to the OS. *)
Definition state_mii (enabled checked : bool) : MENUITEMINFO :=
  set_fState
    (let state := if enabled then MFS_ENABLED else MFS_DISABLED in
     if checked then Z.lor state MFS_CHECKED else state)
    (set_fMask MIIM_STATE mii_zero).

(** Modelled from the spec: Menu2::UpdateStates, forwarding to the wrapper;
    the function [UpdateStates] hands to its walk. *)
Definition Menu2_UpdateStates (sub : Menu2) : option Menu2 :=
  wrapper ← UpdateStates (wrapper_ sub);
  Some (mkMenu2 (m2_model_ sub) wrapper).

(** What one round of the walk writes into the OS item of model index [k]:
    nothing for a separator, else the state flags and, for a dynamic item,
    the text. *)
Definition os_item_sync (model : MenuModel) (k : Z) (it : MENUITEM) : MENUITEM :=
  if has_flag (fType it) MF_SEPARATOR then it
  else
    let it := write_item (state_mii (IsEnabledAt model k) (IsItemCheckedAt model k)) it in
    if IsItemDynamicAt model k
    then write_item (label_mii (formatted_label model k (GetLabelAt model k))) it
    else it.

(** Index [k] of controller [s] is in step with the model: the OS item,
    the registry label and the submenu are what a round of the walk writes. *)
Definition synced (s : NativeMenuWin) (k : nat) : Prop :=
  let model := model_ s in
  let menu_index := Z.of_nat k + first_item_index_ s in
  (forall it, item_at (menu_ s) menu_index = Some it ->
              os_item_sync model (Z.of_nat k) it = it)
  /\ (forall d, items_ s !! k = Some d ->
        (IsItemDynamicAt model (Z.of_nat k) = true ->
         IsSeparatorItemAt s menu_index = false ->
         label d = formatted_label model (Z.of_nat k) (GetLabelAt model (Z.of_nat k)))
        /\ (forall sub, submenu d = Some sub -> Menu2_UpdateStates sub = Some sub)).

(** The menu with the item at position [i], if there is one, changed by
    [g]. *)
Definition alter_item (g : MENUITEM -> MENUITEM) (menu : HMENU) (i : Z) : HMENU :=
  match menu with
  | Some m =>
      Some (mkMENU (dwStyle m) (dwMenuData m)
              (if i <? 0 then menu_items m else alter g (Z.to_nat i) (menu_items m)))
  | None => None
  end.

(** Controller [s'] is [s] with the OS item at position [menu_index]
    changed by [g] and the registry entry at index [k] changed by [h]. *)
Definition changed_at (g : MENUITEM -> MENUITEM) (h : ItemData -> ItemData)
    (k : nat) (menu_index : Z) (s s' : NativeMenuWin) : Prop :=
  same_config s s'
  /\ items_ s' = alter h k (items_ s)
  /\ menu_ s' = alter_item g (menu_ s) menu_index.

(** What one round of the walk writes into the registry entry of model
    index [k]: the stored text for a dynamic item whose menu item is not a
    separator, and the updated submenu [r] where the entry has one. *)
Definition reg_sync (s : NativeMenuWin) (k : nat) (r : option Menu2) (d : ItemData)
  : ItemData :=
  let model := model_ s in
  let d :=
    if IsItemDynamicAt model (Z.of_nat k)
       && negb (IsSeparatorItemAt s (Z.of_nat k + first_item_index_ s))
    then set_label (formatted_label model (Z.of_nat k) (GetLabelAt model (Z.of_nat k))) d
    else d in
  match r with
  | Some sub => set_submenu (Some sub) d
  | None => d
  end.

(** The submenu a round of the walk leaves in the entry [it]: the updated
    submenu, none where the entry has no submenu. *)
Definition stepped_submenu (it : ItemData) : option (option Menu2) :=
  match submenu it with
  | Some sub => Some <$> Menu2_UpdateStates sub
  | None => Some None
  end.

(** The item [Rebuild] inserts into the OS menu for model index [i], [sub]
    being the submenu built for it: what [InsertMenuItem] makes of the
    structure filled in by [AddSeparatorItemAt] or [AddMenuItemAt]. *)
Definition built_item (this : NativeMenuWinPtr) (owner_draw : bool) (model : MenuModel)
    (i : Z) (sub : option Menu2) : MENUITEM :=
  let type := GetTypeAt model i in
  if decide (type = TYPE_SEPARATOR) then mkMENUITEM MFT_SEPARATOR 0 0 None None None
  else
    mkMENUITEM
      (Z.lor (if owner_draw then MFT_OWNERDRAW else MFT_STRING)
         (if decide (type = TYPE_RADIO) then MFT_RADIOCHECK else 0))
      0
      (if decide (type = TYPE_SUBMENU) then 0
       else UINT_of_int (GetCommandIdAt model i))
      (sub ≫= Menu2_GetNativeMenu)
      (Some (this, i))
      (Some (c_str (formatted_label model i (GetLabelAt model i)))).

(** The state flags [SetMenuItemState] computes. *)
Definition item_state (enabled checked is_default : bool) : UINT :=
  let state := if enabled then MFS_ENABLED else MFS_DISABLED in
  let state := if checked then Z.lor state MFS_CHECKED else state in
  if is_default then Z.lor state MFS_DEFAULT else state.

(** The listeners told that the menu opened, in the order of the calls. *)
Definition opened_listeners (ns : list Notification) : list MenuListenerPtr :=
  omap (fun n => match n with OnMenuOpened l => Some l | _ => None end) ns.

(** How often [EndMenu] was called. *)
Definition EndMenu_calls (ns : list Notification) : nat :=
  length (omap (fun n => match n with EndMenu => Some tt | _ => None end) ns).

Definition is_HookCall (e : LoopEvent) : bool :=
  match e with
  | HookCall _ _ => true
  | WindowMessage _ _ _ => false
  end.

(** Did the OS run the message hook during the modal loop? *)
Definition hook_called (events : list LoopEvent) : bool := existsb is_HookCall events.

(** The tasks the window messages among [events] post for [host]: one per
    WM_EXITMENULOOP. *)
Definition posted_tasks (host : option MenuHostWindow) (events : list LoopEvent)
  : list Task :=
  match host with
  | Some h =>
      flat_map
        (fun e =>
           match e with
           | WindowMessage message _ _ =>
               if message =? WM_EXITMENULOOP then [OnMenuClosed_task h] else []
           | HookCall _ _ => []
           end)
        events
  | None => []
  end.

(** An item is highlighted; an item opens a submenu ([GetMenuState]). *)
Definition is_highlighted (it : MENUITEM) : bool := has_flag (menu_state it) MF_HILITE.
Definition opens_submenu (it : MENUITEM) : bool := has_flag (menu_state it) MF_POPUP.

(** The highlighted items from a menu downwards: the first highlighted item
    of the menu and, when that item opens a submenu, the highlighted items
    from the submenu downwards. *)
Fixpoint highlight_chain (menu : MENU) : list MENUITEM :=
  (fix first_highlighted (its : list MENUITEM) : list MENUITEM :=
     match its with
     | [] => []
     | it :: rest =>
         if is_highlighted it then
           it :: (if opens_submenu it
                  then match hSubMenu it with
                       | Some sub => highlight_chain sub
                       | None => []
                       end
                  else [])
         else first_highlighted rest
     end) (menu_items menu).

Definition highlight_chain_of (menu : HMENU) : list MENUITEM :=
  match menu with Some m => highlight_chain m | None => [] end.

(** The navigation a message asks of the hook, [live] being the menu as
    shown: the left arrow key asks for the previous menu unless the
    highlight is inside a submenu; the right arrow key asks for the next
    menu unless the highlight is inside a submenu or on an item that opens
    one. *)
Definition navigation_asked (msg : MSG) (live : HMENU) : option MenuAction :=
  let chain := highlight_chain_of live in
  let in_submenu := (2 <=? length chain)%nat in
  let on_submenu_item := from_option opens_submenu false (last chain) in
  if negb (message msg =? WM_KEYDOWN) then None
  else if (wParam msg =? VK_LEFT) && negb in_submenu then Some MENU_ACTION_PREVIOUS
  else if (wParam msg =? VK_RIGHT) && negb in_submenu && negb on_submenu_item
  then Some MENU_ACTION_NEXT
  else None.

(** The texts of the [DrawTextEx] calls among painting calls, with their
    formats. *)
Definition drawn_texts (calls : list (GdiCall * (COLORREF * COLORREF * HGDIOBJ)))
  : list (wstring * UINT) :=
  omap (fun c => match fst c with
                 | DrawTextEx text _ format => Some (text, format)
                 | _ => None
                 end) calls.

(** What a round of the walk makes of the registry entry [d] at index [k]
    of controller [s]: the stored text is replaced where the item is dynamic
    and its menu item is no separator; the submenu, if there is one, is
    replaced by the updated submenu. *)
Definition entry_updated (s : NativeMenuWin) (k : nat) (d d' : ItemData) : Prop :=
  label d'
  = (if IsItemDynamicAt (model_ s) (Z.of_nat k)
        && negb (IsSeparatorItemAt s (Z.of_nat k + first_item_index_ s))
     then formatted_label (model_ s) (Z.of_nat k) (GetLabelAt (model_ s) (Z.of_nat k))
     else label d)
  /\ native_menu_win d' = native_menu_win d
  /\ model_index d' = model_index d
  /\ submenu d' = submenu d ≫= Menu2_UpdateStates.

(** ** Concrete models and controllers *)

(** The model of the spec's scenario: Command "A" with id 1, a separator,
    and Submenu "B" with one child. *)
Definition ex_submenu_model : MenuModel :=
  list_model false [command_item 7 (L "Child")].

Definition ex_model : MenuModel :=
  list_model false
    [command_item 1 (L "A"); separator_item; submenu_item (L "B") ex_submenu_model].

Definition ex_controller : NativeMenuWin := NativeMenuWin_ctor false ex_model None.

(** A model with a separator only. *)
Definition separator_model : MenuModel := list_model false [separator_item].

(** A window whose window menu holds "Restore" and "Close", and a
    controller wrapping it with a system menu model of one command. *)
Definition ex_window : WINDOW :=
  mkWINDOW
    (Some (mkMENU 0 None
             [mkMENUITEM MFT_STRING 0 61728 None None (Some (L "Restore"));
              mkMENUITEM MFT_STRING 0 61536 None None (Some (L "Close"))])).

Definition ex_system_model : MenuModel :=
  SystemMenuModel (list_model false [command_item 100 (L "Task manager")]).

Definition ex_system_controller : NativeMenuWin :=
  NativeMenuWin_ctor false ex_system_model (Some ex_window).

(** A command "New Tab" with the accelerator Ctrl+T, dynamic. *)
Definition accel_model : MenuModel :=
  list_model false
    [mkModelItem TYPE_COMMAND 1 (L "New Tab") true
       (Some (mkAccelerator (L "Ctrl+T"))) false true None].

Definition accel_controller : NativeMenuWin :=
  default (NativeMenuWin_ctor false accel_model None)
    (Rebuild false [1] (NativeMenuWin_ctor false accel_model None)).

(** A model with one command that asks for its items at position
    [INT_MAX] of the menu. *)
Definition far_model : MenuModel :=
  mkMenuModel false (fun _ => INT_MAX) 1 (fun _ => TYPE_COMMAND) (fun _ => 1)
    (fun _ => L "A") (fun _ => false) (fun _ => None) (fun _ => false)
    (fun _ => true) (fun _ => None).

(** A label that holds a NUL: "ab", NUL, "cd". *)
Definition nul_label : wstring := L "ab" ++ [0] ++ L "cd".

(** A model whose one command has that label and the accelerator
    "Ctrl+T". *)
Definition nul_model : MenuModel :=
  list_model false
    [mkModelItem TYPE_COMMAND 1 nul_label true
       (Some (mkAccelerator (L "Ctrl+T"))) false true None].

(** Two top-level controllers: the one at [[1]] is registered as open, the
    one at [[2]] has a listener. *)
Definition open_controller_ptr : NativeMenuWinPtr := [1].

Definition second_controller_ptr : NativeMenuWinPtr := [2].

Definition second_controller : NativeMenuWin :=
  AddMenuListener
    (default ex_controller (Rebuild false second_controller_ptr ex_controller)) 7.

Definition nested_process : Process :=
  mkProcess
    (<[open_controller_ptr := accel_controller]>
       (<[second_controller_ptr := second_controller]> ∅))
    (Some open_controller_ptr) [] [].

(** The right arrow key pressed while the menu of the second controller is
    shown with nothing highlighted. *)
Definition right_key_events : list LoopEvent :=
  [HookCall (mkMSG WM_KEYDOWN VK_RIGHT) (menu_ second_controller)].

(** A model with icons, a controller for it built where the font override
    applies, and a process holding that controller. *)
Definition icon_model : MenuModel := list_model true [command_item 1 (L "A")].

Definition icon_controller : NativeMenuWin := NativeMenuWin_ctor true ex_model None.

Definition icon_process : Process :=
  mkProcess (<[open_controller_ptr := icon_controller]> ∅) None [] [].

Definition icon_calls : list Call :=
  [call_Rebuild; call_UpdateStates; call_RunMenuAt (0, 0) 0 right_key_events;
   model_changes separator_model; call_Rebuild; call_UpdateStates].

(** A host window of the controller at [[1]], and the menu of a command
    message that names the controller at [[1; 2]]. *)
Definition ex_host : MenuHostWindow :=
  mkMenuHostWindow (Some (mkWINDOW None)) open_controller_ptr.

Definition ex_command_menu : HMENU :=
  Some (mkMENU MNS_NOTIFYBYPOS (Some [1; 2])
          [mkMENUITEM MFT_STRING 0 7 None (Some ([1; 2], 0)) (Some (L "Child"))]).

Definition empty_process : Process := mkProcess ∅ None [] [].

(** Is the notification a [MenuClosed]? *)
Definition is_MenuClosed (n : Notification) : bool :=
  match n with
  | MenuClosed _ => true
  | _ => false
  end.

(** The controller of the spec's scenario once rebuilt, and its OS menu. *)
Definition ex_rebuilt : NativeMenuWin :=
  default ex_controller (Rebuild false open_controller_ptr ex_controller).

Definition ex_built_menu : HMENU := menu_ ex_rebuilt.

(** A controller with the listener 7 registered twice, around the
    listener 8. *)
Definition listener_controller : NativeMenuWin :=
  AddMenuListener (AddMenuListener (AddMenuListener ex_controller 7) 8) 7.

(** The process when [RunMenuAt] on the second controller has entered the
    modal loop, and the second controller then. *)
Definition entered_process : Process :=
  default nested_process (RunMenuAt_enter second_controller_ptr 0 nested_process).

Definition entered_controller : NativeMenuWin :=
  default second_controller (objects entered_process !! second_controller_ptr).

(** The right arrow key ends the menu; the OS then leaves the menu loop. *)
Definition exit_events : list LoopEvent :=
  right_key_events ++ [WindowMessage WM_EXITMENULOOP 0 (lparam_other 0)].

Definition exit_run : Process :=
  default nested_process
    (RunMenuAt second_controller_ptr (0, 0) 0 exit_events nested_process).

(** The controller of the window menu once rebuilt. *)
Definition ex_system_rebuilt : NativeMenuWin :=
  default ex_system_controller
    (Rebuild false open_controller_ptr ex_system_controller).

(** "Cut", a separator and "Copy", and the controller built for them. *)
Definition edit_model : MenuModel :=
  list_model false
    [command_item 5 (L "Cut"); separator_item; command_item 6 (L "Copy")].

Definition edit_controller : NativeMenuWin := NativeMenuWin_ctor false edit_model None.

Definition edit_rebuilt : NativeMenuWin :=
  default edit_controller (Rebuild false open_controller_ptr edit_controller).

(** A model with icons whose submenu has none. *)
Definition icon_parent_model : MenuModel :=
  list_model true [submenu_item (L "B") ex_submenu_model].

Definition icon_parent_controller : NativeMenuWin :=
  NativeMenuWin_ctor false icon_parent_model None.

Definition icon_parent_rebuilt : NativeMenuWin :=
  default icon_parent_controller
    (Rebuild false open_controller_ptr icon_parent_controller).

Definition icon_parent_entry : ItemData :=
  default new_ItemData (items_ icon_parent_rebuilt !! 0%nat).

Definition icon_parent_submenu : Menu2 :=
  default (mkMenu2 ex_submenu_model icon_parent_controller) (submenu icon_parent_entry).

(** A font seven pixels wide per character and sixteen high; system
    metrics and colours; a model without icons. *)
Definition ex_font : Font := mkFont (fun s => 7 * Z.of_nat (length s)) 16 1.

Definition ex_metrics (index : Z) : Z := 15.

Definition ex_colors (index : Z) : COLORREF := index.

Definition no_icons (controller : NativeMenuWinPtr) (index : Z) : option SkBitmap :=
  None.

(** The registry entry of "New Tab", with the stored text
    "New Tab\tCtrl+T", as the item data of a measuring and of a drawing
    request. *)
Definition accel_entry : ItemData :=
  default new_ItemData (items_ accel_controller !! 0%nat).

Definition ex_measure : MEASUREITEMSTRUCT := mkMEASUREITEMSTRUCT 0 0 (Some accel_entry).

Definition ex_draw : DRAWITEMSTRUCT :=
  mkDRAWITEMSTRUCT ODS_SELECTED (mkDC 16777215 0 0 []) (mkRECT 0 0 142 23)
    (Some accel_entry).

(** * Properties *)

(** ** The Win32 model *)



Lemma item_at_lookup (menu : HMENU) (i : Z) :
  item_at menu i = if i <? 0 then None else items_of menu !! Z.to_nat i.
Proof. destruct menu; simpl; [reflexivity | ]. destruct (i <? 0); reflexivity. Qed.

Lemma item_at_in_range (menu : HMENU) (i : Z) :
  0 <= i < GetMenuItemCount menu -> is_Some (item_at menu i).
Proof.
  destruct menu as [m|]; simpl; [ | intros; lia].
  intros Hi. destruct (Z.ltb_spec i 0); [lia | ].
  apply lookup_lt_is_Some. lia.
Qed.

Lemma item_at_Some_range (menu : HMENU) (i : Z) (it : MENUITEM) :
  item_at menu i = Some it -> 0 <= i < GetMenuItemCount menu.
Proof.
  destruct menu as [m|]; simpl; [ | discriminate].
  destruct (Z.ltb_spec i 0); [discriminate | ].
  intros H1. apply lookup_lt_Some in H1. lia.
Qed.

Lemma GetMenuItemInfo_wID (menu : HMENU) (i : Z) :
  mii_wID (snd (GetMenuItemInfo menu i (set_fMask MIIM_ID mii_zero)))
  = from_option wID 0 (item_at menu i).
Proof. unfold GetMenuItemInfo. destruct (item_at menu i); reflexivity. Qed.

Lemma GetMenuItemInfo_fType (menu : HMENU) (i : Z) :
  mii_fType (snd (GetMenuItemInfo menu i (set_fMask MIIM_FTYPE mii_zero)))
  = from_option fType 0 (item_at menu i).
Proof. unfold GetMenuItemInfo. destruct (item_at menu i); reflexivity. Qed.

(** ** Position resolution *)

Lemma find_command_id_found (menu : HMENU) (w : WPARAM) (n : nat) (i k : Z) :
  i <= k < i + Z.of_nat n ->
  from_option wID 0 (item_at menu k) = w ->
  (forall j, i <= j < k -> from_option wID 0 (item_at menu j) <> w) ->
  find_command_id menu w n i = Some k.
Proof.
  revert i. induction n as [|n IH]; intros i Hk Hw Hfirst; [lia | ].
  cbn [find_command_id]. rewrite GetMenuItemInfo_wID.
  destruct (Z.eqb_spec (from_option wID 0 (item_at menu i)) w) as [Heq|Hne].
  - destruct (Z.eq_dec i k) as [->|Hik]; [reflexivity | ].
    exfalso. apply (Hfirst i); [lia | exact Heq].
  - destruct (Z.eq_dec i k) as [->|Hik]; [congruence | ].
    apply IH; [lia | exact Hw | ].
    intros j Hj. apply Hfirst. lia.
Qed.

Lemma find_command_id_none (menu : HMENU) (w : WPARAM) (n : nat) (i : Z) :
  (forall j, i <= j < i + Z.of_nat n -> from_option wID 0 (item_at menu j) <> w) ->
  find_command_id menu w n i = None.
Proof.
  revert i. induction n as [|n IH]; intros i Hall; [reflexivity | ].
  cbn [find_command_id]. rewrite GetMenuItemInfo_wID.
  destruct (Z.eqb_spec (from_option wID 0 (item_at menu i)) w) as [Heq|Hne].
  - exfalso. apply (Hall i); [lia | exact Heq].
  - apply IH. intros j Hj. apply Hall. lia.
Qed.

(** C3.  For a menu and an identifier [w]: if position [k] is the first,
    scanning forward from 0, whose command id equals [w], the resolution
    returns [k]; if no position has command id [w] and [w] lies in
    [0, itemCount) -- the count being an [int] -- it returns [w]
    unchanged. *)
Theorem GetMenuItemIndexFromWPARAM_resolves (menu : HMENU) (w : WPARAM) :
  (forall k,
     wID <$> item_at menu k = Some w ->
     (forall j, 0 <= j < k -> wID <$> item_at menu j <> Some w) ->
     GetMenuItemIndexFromWPARAM menu w = k)
  /\ (GetMenuItemCount menu <= 2 ^ 31 - 1 ->
      (forall k, wID <$> item_at menu k <> Some w) ->
      0 <= w < GetMenuItemCount menu ->
      GetMenuItemIndexFromWPARAM menu w = w).
Proof.
  split.
  - intros k Hk Hfirst. unfold GetMenuItemIndexFromWPARAM.
    destruct (item_at menu k) as [it|] eqn:Hit; [ | discriminate].
    pose proof (item_at_Some_range _ _ _ Hit) as Hrange.
    rewrite (find_command_id_found menu w _ 0 k); [reflexivity | lia | | ].
    + rewrite Hit. simpl in *. congruence.
    + intros j Hj Heq. apply (Hfirst j); [lia | ].
      destruct (item_at_in_range menu j) as [it' Hit']; [lia | ].
      rewrite Hit' in *. simpl in *. congruence.
  - intros Hint Hnone Hw. unfold GetMenuItemIndexFromWPARAM.
    rewrite find_command_id_none.
    + unfold int_of_WPARAM. rewrite Z.mod_small; lia.
    + intros j Hj Heq. apply (Hnone j).
      destruct (item_at_in_range menu j) as [it' Hit']; [lia | ].
      rewrite Hit' in *. simpl in *. congruence.
Qed.

(** ** Vector operations *)

Lemma vector_at_Some {A} (v : list A) (i : Z) (x : A) :
  vector_at v i = Some x <-> 0 <= i /\ v !! Z.to_nat i = Some x.
Proof.
  unfold vector_at. destruct (Z.ltb_spec i 0); split.
  - discriminate.
  - intros [? _]; lia.
  - intros; split; [lia | assumption].
  - intros [_ ?]; assumption.
Qed.

Lemma vector_at_in_range {A} (v : list A) (i : Z) :
  0 <= i < Z.of_nat (length v) -> is_Some (vector_at v i).
Proof.
  intros Hi. unfold vector_at. destruct (Z.ltb_spec i 0); [lia | ].
  apply lookup_lt_is_Some. lia.
Qed.

Lemma vector_at_Some_range {A} (v : list A) (i : Z) (x : A) :
  vector_at v i = Some x -> 0 <= i < Z.of_nat (length v).
Proof.
  intros [Hi Hx]%vector_at_Some. apply lookup_lt_Some in Hx. lia.
Qed.

Lemma vector_at_of_nat {A} (v : list A) (n : nat) :
  vector_at v (Z.of_nat n) = v !! n.
Proof.
  unfold vector_at. destruct (Z.ltb_spec (Z.of_nat n) 0); [lia | ].
  by rewrite Nat2Z.id.
Qed.

Lemma vector_insert_end {A} (v : list A) (x : A) :
  vector_insert v (Z.of_nat (length v)) x = Some (v ++ [x]).
Proof.
  unfold vector_insert.
  destruct (Z.leb_spec 0 (Z.of_nat (length v))); [ | lia].
  destruct (Z.leb_spec (Z.of_nat (length v)) (Z.of_nat (length v))); [ | lia].
  simpl. rewrite Nat2Z.id, firstn_all, drop_all. reflexivity.
Qed.


Lemma vector_update_Some {A} (f : A -> A) (v : list A) (i : Z) (x : A) :
  vector_at v i = Some x ->
  vector_update f v i = Some (<[Z.to_nat i := f x]> v).
Proof. intros H. unfold vector_update. by rewrite H. Qed.


Lemma vector_at_update {A} (f : A -> A) (v v' : list A) (i j : Z) :
  vector_update f v i = Some v' ->
  vector_at v' j = if decide (j = i) then f <$> vector_at v i else vector_at v j.
Proof.
  unfold vector_update. destruct (vector_at v i) as [x|] eqn:Hx; [ | discriminate].
  intros [= <-]. pose proof (vector_at_Some_range _ _ _ Hx) as Hi.
  case_decide as Hj.
  - subst j. simpl. unfold vector_at in *. destruct (Z.ltb_spec i 0); [lia | ].
    apply list_lookup_insert_eq. lia.
  - unfold vector_at. destruct (Z.ltb_spec j 0); [reflexivity | ].
    apply list_lookup_insert_ne. lia.
Qed.

(** ** Labels *)

Lemma UpdateMenuItemInfoForString_Some (self : NativeMenuWin) (mii : MENUITEMINFO)
    (i : Z) (text : wstring) (d : ItemData) :
  vector_at (items_ self) i = Some d ->
  UpdateMenuItemInfoForString self mii i text
  = Some (set_items_
            (<[Z.to_nat i := set_label (formatted_label (model_ self) i text) d]>
               (items_ self)) self,
          set_dwTypeData (Some (c_str (formatted_label (model_ self) i text)))
            (set_fMask (Z.lor (mii_fMask mii) MIIM_STRING) mii)).
Proof.
  intros Hd. unfold UpdateMenuItemInfoForString.
  rewrite (vector_update_Some _ _ _ _ Hd). cbn [mbind option_bind].
  cbn [items_ set_items_ model_].
  assert (Hat : vector_at
            (<[Z.to_nat i := set_label (formatted_label (model_ self) i text) d]>
               (items_ self)) i
          = Some (set_label (formatted_label (model_ self) i text) d)).
  { rewrite (vector_at_update (set_label (formatted_label (model_ self) i text))
               (items_ self) _ i i (vector_update_Some _ _ _ _ Hd)).
    rewrite decide_True by reflexivity. by rewrite Hd. }
  rewrite Hat. reflexivity.
Qed.

Lemma UpdateMenuItemInfoForString_None (self : NativeMenuWin) (mii : MENUITEMINFO)
    (i : Z) (text : wstring) :
  vector_at (items_ self) i = None ->
  UpdateMenuItemInfoForString self mii i text = None.
Proof.
  intros Hd. unfold UpdateMenuItemInfoForString, vector_update. by rewrite Hd.
Qed.

Lemma has_flag_lor_r (x flag : Z) :
  0 < flag -> has_flag (Z.lor x flag) flag = true.
Proof.
  intros Hflag. unfold has_flag.
  rewrite Z.land_lor_distr_l, Z.land_diag.
  destruct (Z.eqb_spec (Z.lor (Z.land x flag) flag) 0) as [H0|]; [ | reflexivity].
  apply Z.lor_eq_0_iff in H0. lia.
Qed.

(** ** Building *)

Lemma AddSeparatorItemAt_end (self : NativeMenuWin) (menu_index : Z) :
  exists mii,
    AddSeparatorItemAt self menu_index (Z.of_nat (length (items_ self)))
    = Some (set_menu_ (snd (InsertMenuItem (menu_ self) menu_index mii))
              (set_items_ (items_ self ++ [new_ItemData]) self)).
Proof.
  eexists. unfold AddSeparatorItemAt. rewrite vector_insert_end. reflexivity.
Qed.

Lemma vector_insert_Some {A} (v : list A) (i : Z) (x : A) :
  0 <= i <= Z.of_nat (length v) ->
  vector_insert v i x = Some (take (Z.to_nat i) v ++ x :: drop (Z.to_nat i) v).
Proof.
  intros Hi. unfold vector_insert.
  destruct (Z.leb_spec 0 i); [ | lia].
  destruct (Z.leb_spec i (Z.of_nat (length v))); [ | lia].
  reflexivity.
Qed.

Lemma vector_at_inserted {A} (v : list A) (i : Z) (x : A) :
  0 <= i <= Z.of_nat (length v) ->
  vector_at (take (Z.to_nat i) v ++ x :: drop (Z.to_nat i) v) i = Some x.
Proof.
  intros Hi. apply vector_at_Some. split; [lia | ].
  apply list_lookup_middle. rewrite length_take. lia.
Qed.

Lemma insert_inserted {A} (v : list A) (n : nat) (x y : A) :
  (n <= length v)%nat ->
  <[n := y]> (take n v ++ x :: drop n v) = take n v ++ y :: drop n v.
Proof.
  intros Hn. rewrite insert_app_r_alt by (rewrite length_take; lia).
  rewrite length_take, Nat.min_l, Nat.sub_diag by lia. reflexivity.
Qed.

(** [AddMenuItemAt] at a valid insertion index, [sub] being the submenu
    built for the item. *)
Lemma AddMenuItemAt_Some (new_Menu2 : Z -> option Menu2) (this : NativeMenuWinPtr)
    (self : NativeMenuWin) (menu_index k : Z) (sub : option Menu2) :
  0 <= k <= Z.of_nat (length (items_ self)) ->
  built_submenu new_Menu2 (model_ self) k = Some sub ->
  exists mii,
    AddMenuItemAt new_Menu2 this self menu_index k
    = Some (set_menu_ (snd (InsertMenuItem (menu_ self) menu_index mii))
              (set_items_
                 (take (Z.to_nat k) (items_ self)
                  ++ mkItemData
                       (formatted_label (model_ self) k (GetLabelAt (model_ self) k))
                       sub (Some this) (Some k)
                  :: drop (Z.to_nat k) (items_ self)) self))
    /\ mii_dwTypeData mii
       = Some (c_str (formatted_label (model_ self) k (GetLabelAt (model_ self) k)))
    /\ has_flag (mii_fMask mii) MIIM_STRING = true
    /\ mii_dwItemData mii = Some (this, k)
    /\ has_flag (mii_fMask mii) MIIM_DATA = true.
Proof.
  intros Hk Hsub. unfold AddMenuItemAt. unfold built_submenu in Hsub.
  destruct (decide (GetTypeAt (model_ self) k = TYPE_SUBMENU)) as [Ht|Ht];
    [destruct (new_Menu2 k) as [s|]; [ | discriminate] | ];
    injection Hsub as <-; cbn [mbind option_bind];
    rewrite vector_insert_Some by exact Hk; cbn [mbind option_bind];
    (erewrite UpdateMenuItemInfoForString_Some
       by (cbn [items_ set_items_]; apply vector_at_inserted; exact Hk));
    cbn [mbind option_bind items_ set_items_ model_ menu_ set_menu_];
    eexists; (split; [ | split; [ | split; [ | split]]]).
  - rewrite insert_inserted by lia. reflexivity.
  - reflexivity.
  - apply has_flag_lor_r. reflexivity.
  - reflexivity.
  - destruct (owner_draw_ self); reflexivity.
  - rewrite insert_inserted by lia. reflexivity.
  - reflexivity.
  - apply has_flag_lor_r. reflexivity.
  - reflexivity.
  - destruct (owner_draw_ self), (decide (GetTypeAt (model_ self) k = TYPE_RADIO));
      reflexivity.
Qed.

Lemma same_config_refl (s : NativeMenuWin) : same_config s s.
Proof. unfold same_config. tauto. Qed.

Lemma same_config_trans (s1 s2 s3 : NativeMenuWin) :
  same_config s1 s2 -> same_config s2 s3 -> same_config s1 s3.
Proof. unfold same_config. intuition congruence. Qed.

Lemma same_config_set (s : NativeMenuWin) (menu : HMENU) (items : list ItemData) :
  same_config s (set_menu_ menu (set_items_ items s)).
Proof. unfold same_config. cbn. tauto. Qed.

Lemma Rebuild_step (new_Menu2 : Z -> option Menu2) (this : NativeMenuWinPtr)
    (self : NativeMenuWin) (menu_index k : Z) (sub : option Menu2) :
  k = Z.of_nat (length (items_ self)) ->
  built_submenu new_Menu2 (model_ self) k = Some sub ->
  exists mii,
    (if decide (GetTypeAt (model_ self) k = TYPE_SEPARATOR)
     then AddSeparatorItemAt self menu_index k
     else AddMenuItemAt new_Menu2 this self menu_index k)
    = Some (set_menu_ (snd (InsertMenuItem (menu_ self) menu_index mii))
              (set_items_ (items_ self ++ [built_entry this (model_ self) k sub])
                 self)).
Proof.
  intros Hk Hsub. unfold built_entry.
  destruct (decide (GetTypeAt (model_ self) k = TYPE_SEPARATOR)) as [Ht|Ht].
  - subst k. apply AddSeparatorItemAt_end.
  - destruct (AddMenuItemAt_Some new_Menu2 this self menu_index k sub)
      as (mii & Hadd & _); [lia | exact Hsub | ].
    exists mii. rewrite Hadd. subst k.
    rewrite Nat2Z.id, firstn_all, drop_all. reflexivity.
Qed.

Lemma Rebuild_loop_spec (new_Menu2 : Z -> option Menu2) (this : NativeMenuWinPtr)
    (n : nat) :
  forall self : NativeMenuWin,
    let len := Z.of_nat (length (items_ self)) in
    (forall i, len <= i < len + Z.of_nat n ->
               is_Some (built_submenu new_Menu2 (model_ self) i)) ->
    exists self' ds ms,
      Rebuild_loop new_Menu2 this n (first_item_index_ self + len) self = Some self'
      /\ same_config self self'
      /\ items_ self' = items_ self ++ ds
      /\ length ds = n /\ length ms = n
      /\ menu_ self' = insert_all (menu_ self) (first_item_index_ self + len) ms
      /\ forall j : nat, (j < n)%nat ->
           exists sub,
             built_submenu new_Menu2 (model_ self) (len + Z.of_nat j) = Some sub
             /\ ds !! j = Some (built_entry this (model_ self) (len + Z.of_nat j) sub).
Proof.
  induction n as [|n IH]; intros self len Hsubs.
  - exists self, [], []. cbn [Rebuild_loop].
    repeat split; try reflexivity; [by rewrite app_nil_r | intros; lia].
  - cbn [Rebuild_loop].
    replace (first_item_index_ self + len - first_item_index_ self) with len by lia.
    destruct (Hsubs len) as [sub Hsub]; [lia | ].
    destruct (Rebuild_step new_Menu2 this self (first_item_index_ self + len)
                len sub eq_refl Hsub) as (mii & Hstep).
    rewrite Hstep. cbn [mbind option_bind].
    set (self1 := set_menu_ _ _) in *.
    assert (Hcfg : same_config self self1) by apply same_config_set.
    assert (Hitems : items_ self1 = items_ self ++ [built_entry this (model_ self) len sub])
      by reflexivity.
    assert (Hlen1 : Z.of_nat (length (items_ self1)) = len + 1).
    { rewrite Hitems, length_app. cbn. unfold len. lia. }
    destruct (IH self1) as (self' & ds & ms & Hloop & Hcfg' & Hit' & Hlds & Hlms
                            & Hmenu & Hentries).
    { intros i Hi. replace (model_ self1) with (model_ self) by reflexivity.
      apply Hsubs. lia. }
    replace (first_item_index_ self1) with (first_item_index_ self) in * by reflexivity.
    replace (model_ self1) with (model_ self) in * by reflexivity.
    rewrite Hlen1 in *.
    replace (first_item_index_ self + len + 1)
      with (first_item_index_ self + (len + 1)) by lia.
    exists self', (built_entry this (model_ self) len sub :: ds), (mii :: ms).
    split; [exact Hloop | ]. split; [exact Hcfg' | ].
    split; [ | split; [ | split; [ | split]]].
    + rewrite Hit', Hitems, <- app_assoc. reflexivity.
    + cbn. lia.
    + cbn. lia.
    + rewrite Hmenu. cbn [insert_all].
      replace (first_item_index_ self + len + 1)
        with (first_item_index_ self + (len + 1)) by lia.
      reflexivity.
    + intros [|j] Hj.
      * exists sub. rewrite Z.add_0_r. split; [exact Hsub | reflexivity].
      * destruct (Hentries j) as (sub' & Hsub' & Hds); [lia | ].
        exists sub'.
        replace (len + Z.of_nat (S j)) with (len + 1 + Z.of_nat j) by lia.
        split; [exact Hsub' | exact Hds].
Qed.

(** Induction over a model and the submenu models below it. *)
Lemma MenuModel_induction (P : MenuModel -> Prop) :
  (forall model,
     (forall i sub_model, GetSubmenuModelAt model i = Some sub_model -> P sub_model) ->
     P model) ->
  forall model, P model.
Proof.
  intros Hstep. fix IH 1. intros model. apply Hstep.
  destruct model as [? ? ? ? ? ? ? ? ? ? subs]. cbn [GetSubmenuModelAt].
  intros i sub_model Hsub.
  destruct (subs i) as [sm|]; [ | discriminate].
  injection Hsub as <-. apply IH.
Qed.

Lemma model_indices_elem (model : MenuModel) (i : Z) :
  i ∈ model_indices model <-> 0 <= i < GetItemCount model.
Proof.
  unfold model_indices. rewrite list_elem_of_fmap. split.
  - intros (n & -> & Hn). apply elem_of_seq in Hn. lia.
  - intros Hi. exists (Z.to_nat i). split; [lia | ].
    apply elem_of_seq. lia.
Qed.

Lemma submenus_present_unfold (model : MenuModel) :
  submenus_present model = true ->
  forall i, 0 <= i < GetItemCount model ->
    GetTypeAt model i = TYPE_SUBMENU ->
    exists sub_model,
      GetSubmenuModelAt model i = Some sub_model
      /\ submenus_present sub_model = true.
Proof.
  intros Hwf i Hi Ht.
  assert (Hin : In i (model_indices model))
    by (apply list_elem_of_In, model_indices_elem; exact Hi).
  destruct model as [? ? ? types ? ? ? ? ? ? subs].
  cbn [submenus_present] in Hwf. rewrite forallb_forall in Hwf.
  specialize (Hwf i Hin). cbn [GetTypeAt GetSubmenuModelAt] in *.
  rewrite Ht in Hwf. destruct (subs i) as [sm|]; [ | discriminate].
  exists sm. split; [reflexivity | exact Hwf].
Qed.

Lemma Menu2_ctor_unfold (need : bool) (model : MenuModel) (addr : NativeMenuWinPtr) :
  Menu2_ctor need model addr
  = (wrapper ←
       Rebuild_with
         (fun i => sub_model ← GetSubmenuModelAt model i;
                   Menu2_ctor need sub_model (child_ptr addr i))
         addr (CreateWrapper need model);
     Some (mkMenu2 model wrapper)).
Proof. destruct model; reflexivity. Qed.

Lemma int_add_Some (x y : Z) :
  is_int x && is_int y && is_int (x + y) = true -> int_add x y = Some (x + y).
Proof. intros Hfit. unfold int_add. by rewrite Hfit. Qed.

Lemma int_add_inv (x y bound : Z) :
  int_add x y = Some bound ->
  bound = x + y /\ is_int x && is_int y && is_int (x + y) = true.
Proof.
  unfold int_add. destruct (is_int x && is_int y && is_int (x + y)); [ | discriminate].
  intros [= <-]. by split.
Qed.

(** The loop of [Rebuild] under its bound: when the bound is an [int] the
    loop runs once per model index, and else the loop test is undefined. *)
Lemma Rebuild_with_unfold (new_Menu2 : Z -> option Menu2) (this : NativeMenuWinPtr)
    (self : NativeMenuWin) :
  let self0 := set_items_ [] (ResetNativeMenu this self) in
  let self1 :=
    set_first_item_index_
      (GetFirstItemIndex (model_ self) (menu_ (ResetNativeMenu this self)))
      (set_owner_draw_ (HasIcons (model_ self) || owner_draw_ self) self0) in
  Rebuild_with new_Menu2 this self
  = if loop_bound_fits (model_ self) (menu_ (ResetNativeMenu this self))
    then Rebuild_loop new_Menu2 this (Z.to_nat (GetItemCount (model_ self)))
           (first_item_index_ self1) self1
    else None.
Proof.
  unfold Rebuild_with, loop_bound_fits, int_add, ResetNativeMenu.
  destruct (IsWindow (system_menu_for_ self));
    cbn [model_ owner_draw_ first_item_index_ menu_ GetNativeMenu set_items_ set_menu_
         set_owner_draw_ set_first_item_index_];
    (match goal with
     | |- context [is_int ?x && is_int ?y && is_int (?x + ?y)] =>
         destruct (is_int x && is_int y && is_int (x + y)); [ | reflexivity];
         cbn [mbind option_bind]; replace (x + y - x) with y by lia; reflexivity
     end).
Qed.

(** From [Rebuild ... = Some ...] in [H] to the run of the loop. *)
Ltac Rebuild_to_loop H :=
  unfold Rebuild in H; rewrite Rebuild_with_unfold in H; cbv zeta in H;
  match type of H with
  | context [loop_bound_fits ?model ?menu] =>
      destruct (loop_bound_fits model menu); [ | discriminate H]
  end.

Lemma Rebuild_bound_fits (need : bool) (this : NativeMenuWinPtr)
    (self self' : NativeMenuWin) :
  Rebuild need this self = Some self' ->
  loop_bound_fits (model_ self) (menu_ (ResetNativeMenu this self)) = true.
Proof.
  unfold Rebuild. rewrite Rebuild_with_unfold. cbv zeta.
  by destruct (loop_bound_fits _ _).
Qed.

(** What [Rebuild_with] leaves behind, given that the loop bound is an
    [int] and that the submenus it needs can be built. *)
Lemma Rebuild_with_spec (new_Menu2 : Z -> option Menu2) (this : NativeMenuWinPtr)
    (self : NativeMenuWin) :
  let model := model_ self in
  let menu0 := menu_ (ResetNativeMenu this self) in
  let first := GetFirstItemIndex model menu0 in
  loop_bound_fits model menu0 = true ->
  (forall i, 0 <= i < GetItemCount model -> is_Some (built_submenu new_Menu2 model i)) ->
  exists self' ms,
    Rebuild_with new_Menu2 this self = Some self'
    /\ model_ self' = model
    /\ owner_draw_ self' = HasIcons model || owner_draw_ self
    /\ system_menu_for_ self' = system_menu_for_ self
    /\ first_item_index_ self' = first
    /\ menu_action_ self' = menu_action_ self
    /\ listeners_ self' = listeners_ self
    /\ listeners_called_ self' = listeners_called_ self
    /\ host_window_ self' = host_window_ self
    /\ length (items_ self') = Z.to_nat (GetItemCount model)
    /\ length ms = Z.to_nat (GetItemCount model)
    /\ menu_ self' = insert_all menu0 first ms
    /\ forall j : nat, (j < Z.to_nat (GetItemCount model))%nat ->
         exists sub,
           built_submenu new_Menu2 model (Z.of_nat j) = Some sub
           /\ items_ self' !! j = Some (built_entry this model (Z.of_nat j) sub).
Proof.
  intros model menu0 first Hfit Hsubs. rewrite Rebuild_with_unfold.
  fold model menu0. rewrite Hfit.
  set (self1 := set_first_item_index_ _ _).
  assert (Hm1 : model_ self1 = model).
  { unfold self1, ResetNativeMenu. destruct (IsWindow (system_menu_for_ self));
      reflexivity. }
  assert (Hi1 : items_ self1 = []) by reflexivity.
  assert (Hf1 : first_item_index_ self1 = first).
  { unfold self1, first, menu0, model, ResetNativeMenu.
    destruct (IsWindow (system_menu_for_ self)); reflexivity. }
  assert (Hmenu1 : menu_ self1 = menu0).
  { unfold self1, menu0, ResetNativeMenu.
    destruct (IsWindow (system_menu_for_ self)); reflexivity. }
  destruct (Rebuild_loop_spec new_Menu2 this (Z.to_nat (GetItemCount (model_ self1)))
              self1) as (self' & ds & ms & Hloop & Hcfg & Hitems & Hlds & Hlms
                         & Hmenu & Hentries).
  { rewrite Hi1, Hm1. cbn. intros i Hi. apply Hsubs. lia. }
  rewrite Hi1 in *. cbn [length app] in *. rewrite Z.add_0_r in *.
  rewrite Hm1 in *. rewrite Hf1 in *. rewrite Hmenu1 in *.
  destruct Hcfg as (Hc1 & Hc2 & Hc3 & Hc4 & Hc5 & Hc6 & Hc7 & Hc8).
  exists self', ms.
  assert (Hreset : owner_draw_ self1 = HasIcons model || owner_draw_ self
                   /\ system_menu_for_ self1 = system_menu_for_ self
                   /\ menu_action_ self1 = menu_action_ self
                   /\ listeners_ self1 = listeners_ self
                   /\ listeners_called_ self1 = listeners_called_ self
                   /\ host_window_ self1 = host_window_ self).
  { unfold self1, model, ResetNativeMenu.
    destruct (IsWindow (system_menu_for_ self)); cbn; tauto. }
  destruct Hreset as (Hr1 & Hr2 & Hr3 & Hr4 & Hr5 & Hr6).
  split; [exact Hloop | ].
  split; [congruence | ]. split; [congruence | ]. split; [congruence | ].
  split; [congruence | ]. split; [congruence | ]. split; [congruence | ].
  split; [congruence | ]. split; [congruence | ].
  split; [rewrite Hitems; exact Hlds | ].
  split; [exact Hlms | ]. split; [exact Hmenu | ].
  intros j Hj. destruct (Hentries j Hj) as (sub & Hsub & Hds).
  exists sub. rewrite Z.add_0_l in *. rewrite Hitems. split; assumption.
Qed.

Lemma loop_bounds_fit_unfold (model : MenuModel) (this : NativeMenuWinPtr)
    (menu0 : HMENU) :
  loop_bounds_fit model this menu0 = true ->
  loop_bound_fits model menu0 = true
  /\ forall i sub_model, 0 <= i < GetItemCount model ->
       GetTypeAt model i = TYPE_SUBMENU ->
       GetSubmenuModelAt model i = Some sub_model ->
       loop_bounds_fit sub_model (child_ptr this i) (new_popup_menu (child_ptr this i))
       = true.
Proof.
  intros Hfit.
  assert (Hin : forall i, 0 <= i < GetItemCount model -> In i (model_indices model))
    by (intros i Hi; apply list_elem_of_In, model_indices_elem; exact Hi).
  destruct model as [? firsts count types ? ? ? ? ? ? subs].
  cbn [loop_bounds_fit] in Hfit. apply andb_prop in Hfit as [Hbound Hsubs].
  split; [exact Hbound | ].
  intros i sm Hi Ht Hsm. rewrite forallb_forall in Hsubs.
  specialize (Hsubs i (Hin i Hi)). cbn [GetTypeAt GetSubmenuModelAt] in *.
  by rewrite Ht, Hsm in Hsubs.
Qed.

Lemma Menu2_ctor_total (need : bool) (model : MenuModel) :
  submenus_present model = true ->
  forall addr,
    loop_bounds_fit model addr (new_popup_menu addr) = true ->
    is_Some (Menu2_ctor need model addr).
Proof.
  induction model as [model IH] using MenuModel_induction.
  intros Hwf addr Hfit. rewrite Menu2_ctor_unfold.
  destruct (loop_bounds_fit_unfold model addr _ Hfit) as [Hbound Hfits].
  destruct (Rebuild_with_spec
              (fun i => sub_model ← GetSubmenuModelAt model i;
                        Menu2_ctor need sub_model (child_ptr addr i))
              addr (CreateWrapper need model)) as (self' & ms & Hre & _).
  - exact Hbound.
  - cbn [model_ CreateWrapper NativeMenuWin_ctor]. intros i Hi.
    unfold built_submenu. case_decide as Ht; [ | by eexists].
    destruct (submenus_present_unfold model Hwf i Hi Ht) as (sm & Hsm & Hwfsm).
    rewrite Hsm. cbn [mbind option_bind].
    destruct (IH i sm Hsm Hwfsm (child_ptr addr i) (Hfits i sm Hi Ht Hsm)) as [m2 Hm2].
    rewrite Hm2. by eexists.
  - rewrite Hre. by eexists.
Qed.

Lemma Rebuild_submenus (need : bool) (this : NativeMenuWinPtr) (model : MenuModel)
    (menu0 : HMENU) :
  submenus_present model = true ->
  loop_bounds_fit model this menu0 = true ->
  forall i, 0 <= i < GetItemCount model ->
    is_Some (built_submenu
               (fun i => sub_model ← GetSubmenuModelAt model i;
                         Menu2_ctor need sub_model (child_ptr this i))
               model i).
Proof.
  intros Hwf Hfit i Hi. unfold built_submenu. case_decide as Ht; [ | by eexists].
  destruct (submenus_present_unfold model Hwf i Hi Ht) as (sm & Hsm & Hwfsm).
  destruct (loop_bounds_fit_unfold model this _ Hfit) as [_ Hfits].
  rewrite Hsm. cbn [mbind option_bind].
  destruct (Menu2_ctor_total need sm Hwfsm (child_ptr this i) (Hfits i sm Hi Ht Hsm))
    as [m2 Hm2].
  rewrite Hm2. by eexists.
Qed.

(** ** C1: the registry after Rebuild *)

(** Where the loop bound is no [int] the loop test overflows, and [Rebuild]
    has no defined result. *)
Lemma Rebuild_loop_test_overflows (need : bool) (this : NativeMenuWinPtr)
    (self : NativeMenuWin) :
  loop_bound_fits (model_ self) (menu_ (ResetNativeMenu this self)) = false ->
  Rebuild need this self = None.
Proof.
  intros Hfit. unfold Rebuild. rewrite Rebuild_with_unfold. cbv zeta.
  by rewrite Hfit.
Qed.

(** So for the model with one item that asks for its items at position
    [INT_MAX]: the loop test forms [INT_MAX + 1]. *)
Example Rebuild_at_INT_MAX :
  GetFirstItemIndex far_model (new_popup_menu [1]) + GetItemCount far_model
  = INT_MAX + 1
  /\ Rebuild false [1] (NativeMenuWin_ctor false far_model None) = None.
Proof. split; reflexivity. Qed.

(** C1, as stated, fails at a separator: the model with one separator is
    rebuilt into a registry whose entry 0 exists and has no [model_index]
    assigned, so it is not the index 0. *)
Lemma Rebuild_separator_model_index_unassigned :
  GetItemCount separator_model = 1
  /\ (self' ← Rebuild false [1] (NativeMenuWin_ctor false separator_model None);
      model_index <$> vector_at (items_ self') 0) = Some None.
Proof. split; reflexivity. Qed.

(** C1, amended.  For a model whose submenu items all have a submenu
    model, and whose loop bound first_item_index_ + GetItemCount() is an
    [int] in this controller and in the controllers of its submenus (the
    loop test of [Rebuild] overflows otherwise, which is undefined),
    [Rebuild] completes; the registry then has max(0, GetItemCount())
    entries, and for every [i] in [0, itemCount) the entry at position [i]
    is the one made for model index [i]: for an item that is not a separator
    its [model_index] is [i] and its [native_menu_win] is this controller,
    at a separator position it is the placeholder [new ItemData], whose
    [model_index] is not assigned. *)
Theorem Rebuild_registry (need : bool) (this : NativeMenuWinPtr) (self : NativeMenuWin) :
  submenus_present (model_ self) = true ->
  loop_bounds_fit (model_ self) this (menu_ (ResetNativeMenu this self)) = true ->
  exists self',
    Rebuild need this self = Some self'
    /\ Z.of_nat (length (items_ self')) = Z.max 0 (GetItemCount (model_ self))
    /\ forall i, 0 <= i < GetItemCount (model_ self) ->
         exists d,
           vector_at (items_ self') i = Some d
           /\ if decide (GetTypeAt (model_ self) i = TYPE_SEPARATOR)
              then d = new_ItemData
              else model_index d = Some i /\ native_menu_win d = Some this.
Proof.
  intros Hwf Hfit. unfold Rebuild.
  destruct (Rebuild_with_spec
              (fun i => sub_model ← GetSubmenuModelAt (model_ self) i;
                        Menu2_ctor need sub_model (child_ptr this i))
              this self (proj1 (loop_bounds_fit_unfold _ _ _ Hfit))
              (Rebuild_submenus need this (model_ self) _ Hwf Hfit))
    as (self' & ms & Hre & _ & _ & _ & _ & _ & _ & _ & _ & Hlen & _ & _ & Hentries).
  exists self'. split; [exact Hre | ]. split; [lia | ].
  intros i Hi. destruct (Hentries (Z.to_nat i)) as (sub & _ & Hd); [lia | ].
  rewrite Z2Nat.id in Hd by lia.
  exists (built_entry this (model_ self) i sub). split.
  - apply vector_at_Some. split; [lia | exact Hd].
  - unfold built_entry. case_decide; [reflexivity | split; reflexivity].
Qed.

Lemma Rebuild_registry_witness :
  exists self',
    Rebuild false [1] ex_controller = Some self'
    /\ Z.of_nat (length (items_ self')) = Z.max 0 (GetItemCount (model_ ex_controller))
    /\ forall i, 0 <= i < GetItemCount (model_ ex_controller) ->
         exists d,
           vector_at (items_ self') i = Some d
           /\ if decide (GetTypeAt (model_ ex_controller) i = TYPE_SEPARATOR)
              then d = new_ItemData
              else model_index d = Some i /\ native_menu_win d = Some [1].
Proof. apply (Rebuild_registry false [1] ex_controller); reflexivity. Defined.

(** ** C9: the first item index of a system menu *)

Lemma insert_all_layout (style : UINT) (data : option NativeMenuWinPtr)
    (ms : list MENUITEMINFO) :
  forall pre suf : list MENUITEM,
    insert_all (Some (mkMENU style data (pre ++ suf))) (Z.of_nat (length pre)) ms
    = Some (mkMENU style data
              (pre ++ map (fun mii => write_item mii item_zero) ms ++ suf)).
Proof.
  induction ms as [|mii ms IH]; intros pre suf; [reflexivity | ].
  cbn [insert_all InsertMenuItem snd menu_items dwStyle dwMenuData].
  destruct (Z.ltb_spec (Z.of_nat (length pre)) 0); [lia | ].
  rewrite Nat2Z.id, Nat.min_l by (rewrite length_app; lia).
  rewrite take_app_length, drop_app_length.
  replace (Z.of_nat (length pre) + 1)
    with (Z.of_nat (length (pre ++ [write_item mii item_zero])))
    by (rewrite length_app; cbn; lia).
  replace (pre ++ write_item mii item_zero :: suf)
    with ((pre ++ [write_item mii item_zero]) ++ suf)
    by (rewrite <- app_assoc; reflexivity).
  rewrite IH. cbn [map]. rewrite <- app_assoc. reflexivity.
Qed.

(** C9.  Through the model interface, a system menu model answers
    max(0, GetMenuItemCount(native_menu) - 1) for every handle; the answer
    is never negative, and is 0 for an empty menu and for a handle the
    count fails on.  Rebuilding a controller that wraps a window menu with
    the items [pre ++ [last]] therefore leaves [pre], then the new items,
    one per model item, then [last]; an empty window menu receives just
    the new items.  ([Rebuild] completes for a model whose submenu items
    have their submenu models and whose items fit the menu: the position
    behind the last new item is an [int].) *)
Theorem SystemMenuModel_first_item_index (base : MenuModel) :
  (forall native_menu : HMENU,
     GetFirstItemIndex (SystemMenuModel base) native_menu
     = Z.max 0 (GetMenuItemCount native_menu - 1)
     /\ 0 <= GetFirstItemIndex (SystemMenuModel base) native_menu
     /\ (items_of native_menu = [] ->
         GetFirstItemIndex (SystemMenuModel base) native_menu = 0))
  /\ (forall need this self w style data pre last,
        model_ self = SystemMenuModel base ->
        submenus_present (model_ self) = true ->
        loop_bounds_fit (model_ self) this (window_menu w) = true ->
        system_menu_for_ self = Some w ->
        window_menu w = Some (mkMENU style data (pre ++ [last])) ->
        exists self' new,
          Rebuild need this self = Some self'
          /\ length new = Z.to_nat (GetItemCount base)
          /\ items_of (menu_ self') = pre ++ new ++ [last])
  /\ (forall need this self w style data,
        model_ self = SystemMenuModel base ->
        submenus_present (model_ self) = true ->
        loop_bounds_fit (model_ self) this (window_menu w) = true ->
        system_menu_for_ self = Some w ->
        window_menu w = Some (mkMENU style data []) ->
        exists self' new,
          Rebuild need this self = Some self'
          /\ length new = Z.to_nat (GetItemCount base)
          /\ items_of (menu_ self') = new).
Proof.
  split; [ | split].
  - intros native_menu. cbn [GetFirstItemIndex SystemMenuModel].
    unfold SystemMenuModel_GetFirstItemIndex. split; [reflexivity | ].
    split; [lia | ].
    destruct native_menu as [m|]; cbn; [ | reflexivity].
    intros ->. reflexivity.
  - intros need this self w style data pre last Hmodel Hwf Hfit Hsys Hmenu.
    assert (Hmenu0 : menu_ (ResetNativeMenu this self) = window_menu w)
      by (unfold ResetNativeMenu; by rewrite Hsys).
    rewrite <- Hmenu0 in Hfit. unfold Rebuild.
    destruct (Rebuild_with_spec
                (fun i => sub_model ← GetSubmenuModelAt (model_ self) i;
                          Menu2_ctor need sub_model (child_ptr this i))
                this self (proj1 (loop_bounds_fit_unfold _ _ _ Hfit))
                (Rebuild_submenus need this (model_ self) _ Hwf Hfit))
      as (self' & ms & Hre & _ & _ & _ & _ & _ & _ & _ & _ & _ & Hlms & Hm & _).
    exists self', (map (fun mii => write_item mii item_zero) ms).
    split; [exact Hre | ]. split.
    + rewrite length_map, Hlms, Hmodel. reflexivity.
    + rewrite Hm. unfold ResetNativeMenu. rewrite Hsys. cbn [IsWindow menu_ set_menu_].
      cbn [GetSystemMenu]. rewrite Hmenu, Hmodel.
      cbn [GetFirstItemIndex SystemMenuModel].
      unfold SystemMenuModel_GetFirstItemIndex. cbn [GetMenuItemCount menu_items].
      rewrite length_app. cbn [length].
      replace (Z.max 0 (Z.of_nat (length pre + 1) - 1)) with (Z.of_nat (length pre))
        by lia.
      rewrite insert_all_layout. reflexivity.
  - intros need this self w style data Hmodel Hwf Hfit Hsys Hmenu.
    assert (Hmenu0 : menu_ (ResetNativeMenu this self) = window_menu w)
      by (unfold ResetNativeMenu; by rewrite Hsys).
    rewrite <- Hmenu0 in Hfit. unfold Rebuild.
    destruct (Rebuild_with_spec
                (fun i => sub_model ← GetSubmenuModelAt (model_ self) i;
                          Menu2_ctor need sub_model (child_ptr this i))
                this self (proj1 (loop_bounds_fit_unfold _ _ _ Hfit))
                (Rebuild_submenus need this (model_ self) _ Hwf Hfit))
      as (self' & ms & Hre & _ & _ & _ & _ & _ & _ & _ & _ & _ & Hlms & Hm & _).
    exists self', (map (fun mii => write_item mii item_zero) ms).
    split; [exact Hre | ]. split.
    + rewrite length_map, Hlms, Hmodel. reflexivity.
    + rewrite Hm. unfold ResetNativeMenu. rewrite Hsys. cbn [IsWindow menu_ set_menu_].
      cbn [GetSystemMenu]. rewrite Hmenu, Hmodel.
      cbn [GetFirstItemIndex SystemMenuModel].
      unfold SystemMenuModel_GetFirstItemIndex. cbn [GetMenuItemCount menu_items length].
      pose proof (insert_all_layout style data ms [] []) as Hlayout.
      cbn [app length] in Hlayout.
      change (Z.max 0 (Z.of_nat 0 - 1)) with (Z.of_nat 0).
      rewrite Hlayout. cbn [items_of menu_items]. by rewrite app_nil_r.
Qed.

Lemma SystemMenuModel_first_item_index_witness :
  (exists self' new,
     Rebuild false [1] ex_system_controller = Some self'
     /\ length new = 1%nat
     /\ items_of (menu_ self')
        = [mkMENUITEM MFT_STRING 0 61728 None None (Some (L "Restore"))]
          ++ new ++ [mkMENUITEM MFT_STRING 0 61536 None None (Some (L "Close"))])
  /\ (exists self' new,
        Rebuild false [1]
          (NativeMenuWin_ctor false ex_system_model
             (Some (mkWINDOW (Some (mkMENU 0 None []))))) = Some self'
        /\ length new = 1%nat
        /\ items_of (menu_ self') = new).
Proof.
  pose proof (SystemMenuModel_first_item_index
                (list_model false [command_item 100 (L "Task manager")]))
    as (_ & Hlast & Hempty).
  split.
  - apply (Hlast false [1] ex_system_controller ex_window 0 None
             [mkMENUITEM MFT_STRING 0 61728 None None (Some (L "Restore"))]
             (mkMENUITEM MFT_STRING 0 61536 None None (Some (L "Close"))));
      reflexivity.
  - apply (Hempty false [1]
             (NativeMenuWin_ctor false ex_system_model
                (Some (mkWINDOW (Some (mkMENU 0 None [])))))
             (mkWINDOW (Some (mkMENU 0 None []))) 0 None);
      reflexivity.
Defined.

(** ** C10 and C4: the stored label *)

Lemma claimed_label_formatted (model : MenuModel) (i : Z) (text expected : wstring) :
  claimed_label model i text expected -> formatted_label model i text = expected.
Proof.
  unfold formatted_label.
  intros [(Ht & acc & Hacc & ->) | (Ht & ->)].
  - rewrite decide_True by exact Ht. by rewrite Hacc.
  - rewrite decide_False by (intros Hn; apply Hn; exact Ht). reflexivity.
Qed.

Lemma formatted_label_plain (model : MenuModel) (i : Z) (text : wstring) :
  GetTypeAt model i = TYPE_SUBMENU \/ GetAcceleratorAt model i = None ->
  formatted_label model i text = text.
Proof.
  unfold formatted_label. intros [Ht | Hacc].
  - rewrite decide_False by (intros Hn; apply Hn; exact Ht). reflexivity.
  - rewrite Hacc. case_decide; reflexivity.
Qed.

Lemma item_at_InsertMenuItem (menu : HMENU) (i : Z) (mii : MENUITEMINFO) :
  0 <= i <= GetMenuItemCount menu ->
  item_at (snd (InsertMenuItem menu i mii)) i = Some (write_item mii item_zero).
Proof.
  destruct menu as [m|]; cbn [GetMenuItemCount]; [ | lia].
  intros Hi. cbn [InsertMenuItem snd item_at menu_items].
  destruct (Z.ltb_spec i 0); [lia | ].
  apply list_lookup_middle. rewrite length_take. lia.
Qed.

Lemma item_at_SetMenuItemInfo (menu : HMENU) (i j : Z) (mii : MENUITEMINFO) :
  item_at (snd (SetMenuItemInfo menu i mii)) j
  = if decide (j = i) then write_item mii <$> item_at menu j else item_at menu j.
Proof.
  unfold SetMenuItemInfo. destruct menu as [m|]; [ | by case_decide].
  destruct (item_at (Some m) i) as [it|] eqn:Hit.
  - cbn [snd item_at menu_items]. cbn [item_at] in Hit.
    destruct (Z.ltb_spec i 0); [discriminate | ].
    case_decide as Hj.
    + subst j. destruct (Z.ltb_spec i 0); [lia | ].
      rewrite list_lookup_insert_eq by (by eapply lookup_lt_Some).
      by rewrite Hit.
    + destruct (Z.ltb_spec j 0); [reflexivity | ].
      apply list_lookup_insert_ne. lia.
  - cbn [snd]. case_decide as Hj; [ | reflexivity].
    subst j. by rewrite Hit.
Qed.

Lemma SetMenuItemLabel_Some (self : NativeMenuWin) (menu_index k : Z)
    (text : wstring) (d : ItemData) :
  vector_at (items_ self) k = Some d ->
  IsSeparatorItemAt self menu_index = false ->
  SetMenuItemLabel self menu_index k text
  = Some (set_menu_
            (snd (SetMenuItemInfo (menu_ self) menu_index
                    (label_mii (formatted_label (model_ self) k text))))
            (set_items_
               (<[Z.to_nat k := set_label (formatted_label (model_ self) k text) d]>
                  (items_ self)) self)).
Proof.
  intros Hd Hsep. unfold SetMenuItemLabel. rewrite Hsep.
  rewrite (UpdateMenuItemInfoForString_Some self mii_zero k text d Hd).
  reflexivity.
Qed.

Lemma registry_label_updated (self : NativeMenuWin) (menu : HMENU) (k : Z)
    (f : wstring) (d : ItemData) :
  vector_at (items_ self) k = Some d ->
  registry_label
    (set_menu_ menu (set_items_ (<[Z.to_nat k := set_label f d]> (items_ self)) self)) k
  = Some f.
Proof.
  intros Hd. unfold registry_label. cbn [items_ set_menu_ set_items_].
  rewrite (vector_at_update (set_label f) (items_ self) _ k k
             (vector_update_Some _ _ _ _ Hd)).
  rewrite decide_True by reflexivity. by rewrite Hd.
Qed.

(** [c_str] cuts a string at its first NUL: the result holds no NUL and is
    the whole string or the part before a NUL of it. *)
Lemma c_str_prefix (s : wstring) :
  (0 ∉ c_str s) /\ (s = c_str s \/ exists rest, s = c_str s ++ 0 :: rest).
Proof.
  induction s as [|c s [IHnot IHcut]]; cbn [c_str].
  - split; [apply not_elem_of_nil | by left].
  - destruct (Z.eqb_spec c 0) as [-> | Hc].
    + split; [apply not_elem_of_nil | right; by exists s].
    + split; [apply not_elem_of_cons; split; [congruence | exact IHnot] | ].
      destruct IHcut as [Hs | [rest Hs]].
      * left. by rewrite <- Hs.
      * right. exists rest. cbn [app]. by rewrite <- Hs.
Qed.

Lemma c_str_no_NUL (s : wstring) : 0 ∉ s -> c_str s = s.
Proof.
  induction s as [|c s IH]; [reflexivity | ].
  intros [Hc Hs]%not_elem_of_cons. cbn [c_str].
  destruct (Z.eqb_spec c 0); [congruence | ]. by rewrite IH.
Qed.

(** C10, as stated, fails for a label that holds a NUL.  The command of
    [nul_model] has the label "ab", NUL, "cd" and the accelerator "Ctrl+T":
    built by [Rebuild], and relabeled with the model's label, its registry
    entry stores the label, a tab and "Ctrl+T", but its OS item shows
    "ab". *)
Lemma os_label_ends_at_NUL :
  claimed_label nul_model 0 (GetLabelAt nul_model 0) (nul_label ++ tab ++ L "Ctrl+T")
  /\ (built ← Rebuild false [1] (NativeMenuWin_ctor false nul_model None);
      registry_label built 0) = Some (nul_label ++ tab ++ L "Ctrl+T")
  /\ (built ← Rebuild false [1] (NativeMenuWin_ctor false nul_model None);
      os_label built 0) = Some (L "ab")
  /\ (built ← Rebuild false [1] (NativeMenuWin_ctor false nul_model None);
      relabeled ← SetMenuItemLabel built 0 0 (GetLabelAt nul_model 0);
      registry_label relabeled 0) = Some (nul_label ++ tab ++ L "Ctrl+T")
  /\ (built ← Rebuild false [1] (NativeMenuWin_ctor false nul_model None);
      relabeled ← SetMenuItemLabel built 0 0 (GetLabelAt nul_model 0);
      os_label relabeled 0) = Some (L "ab")
  /\ L "ab" <> nul_label ++ tab ++ L "Ctrl+T".
Proof.
  split; [left; split; [discriminate | eexists; split; reflexivity] | ].
  repeat (split; [reflexivity | ]). discriminate.
Qed.

(** C10, amended.  With [expected] the label the claim describes -- the
    text, a tab and the shortcut text for an item that is not a submenu and
    has an accelerator, the text alone for a submenu item: an item built by
    [AddMenuItemAt] from the model's label, and an item relabeled by
    [SetMenuItemLabel], store [expected] in the registry; the OS item at
    [menu_index], where there is one, shows [expected] up to its first NUL,
    which is [expected] itself when it holds no NUL. *)
Theorem stored_label_carries_accelerator (self : NativeMenuWin) (k : Z) :
  (forall new_Menu2 this menu_index expected,
     claimed_label (model_ self) k (GetLabelAt (model_ self) k) expected ->
     0 <= k <= Z.of_nat (length (items_ self)) ->
     is_Some (built_submenu new_Menu2 (model_ self) k) ->
     exists self',
       AddMenuItemAt new_Menu2 this self menu_index k = Some self'
       /\ registry_label self' k = Some expected
       /\ (0 <= menu_index <= GetMenuItemCount (menu_ self) ->
           os_label self' menu_index = Some (c_str expected)
           /\ (0 ∉ expected -> os_label self' menu_index = Some expected)))
  /\ (forall menu_index text expected,
        claimed_label (model_ self) k text expected ->
        is_Some (vector_at (items_ self) k) ->
        IsSeparatorItemAt self menu_index = false ->
        exists self',
          SetMenuItemLabel self menu_index k text = Some self'
          /\ registry_label self' k = Some expected
          /\ (is_Some (item_at (menu_ self) menu_index) ->
              os_label self' menu_index = Some (c_str expected)
              /\ (0 ∉ expected -> os_label self' menu_index = Some expected))).
Proof.
  split.
  - intros new_Menu2 this menu_index expected Hexp Hk [sub Hsub].
    apply claimed_label_formatted in Hexp.
    destruct (AddMenuItemAt_Some new_Menu2 this self menu_index k sub Hk Hsub)
      as (mii & Hadd & Htext & Hmask & _).
    rewrite Hexp in *. eexists. split; [exact Hadd | ]. split.
    + unfold registry_label. cbn [items_ set_menu_ set_items_].
      by rewrite vector_at_inserted.
    + intros Hmi.
      assert (Hos : os_label
                      (set_menu_ (snd (InsertMenuItem (menu_ self) menu_index mii))
                         (set_items_
                            (take (Z.to_nat k) (items_ self)
                             ++ mkItemData expected sub (Some this) (Some k)
                             :: drop (Z.to_nat k) (items_ self)) self)) menu_index
                    = Some (c_str expected)).
      { unfold os_label. cbn [menu_ set_menu_ set_items_].
        rewrite item_at_InsertMenuItem by exact Hmi. cbn [mbind option_bind].
        unfold write_item. cbn [dwTypeData]. by rewrite Hmask. }
      split; [exact Hos | ].
      intros Hnul. by rewrite Hos, c_str_no_NUL.
  - intros menu_index text expected Hexp [d Hd] Hsep.
    apply claimed_label_formatted in Hexp.
    rewrite (SetMenuItemLabel_Some self menu_index k text d Hd Hsep), Hexp.
    eexists. split; [reflexivity | ]. split.
    + apply registry_label_updated. exact Hd.
    + intros [it Hit].
      assert (Hos : os_label
                      (set_menu_
                         (snd (SetMenuItemInfo (menu_ self) menu_index
                                 (label_mii expected)))
                         (set_items_
                            (<[Z.to_nat k := set_label expected d]> (items_ self))
                            self)) menu_index
                    = Some (c_str expected)).
      { unfold os_label. cbn [menu_ set_menu_ set_items_].
        rewrite item_at_SetMenuItemInfo, decide_True, Hit by reflexivity.
        reflexivity. }
      split; [exact Hos | ].
      intros Hnul. by rewrite Hos, c_str_no_NUL.
Qed.

Lemma stored_label_carries_accelerator_witness :
  (exists self',
     AddMenuItemAt (fun _ => None) [1]
       (ResetNativeMenu [1] (NativeMenuWin_ctor false accel_model None)) 0 0
     = Some self'
     /\ registry_label self' 0 = Some (L "New Tab" ++ tab ++ L "Ctrl+T")
     /\ (0 <= 0 <= GetMenuItemCount
                    (menu_ (ResetNativeMenu [1]
                              (NativeMenuWin_ctor false accel_model None))) ->
         os_label self' 0 = Some (c_str (L "New Tab" ++ tab ++ L "Ctrl+T"))
         /\ (0 ∉ L "New Tab" ++ tab ++ L "Ctrl+T" ->
             os_label self' 0 = Some (L "New Tab" ++ tab ++ L "Ctrl+T"))))
  /\ (exists self',
        SetMenuItemLabel accel_controller 0 0 nul_label = Some self'
        /\ registry_label self' 0 = Some (nul_label ++ tab ++ L "Ctrl+T")
        /\ (is_Some (item_at (menu_ accel_controller) 0) ->
            os_label self' 0 = Some (c_str (nul_label ++ tab ++ L "Ctrl+T"))
            /\ (0 ∉ nul_label ++ tab ++ L "Ctrl+T" ->
                os_label self' 0 = Some (nul_label ++ tab ++ L "Ctrl+T")))).
Proof.
  split.
  - apply (proj1 (stored_label_carries_accelerator
                    (ResetNativeMenu [1] (NativeMenuWin_ctor false accel_model None))
                    0)).
    + left. split; [discriminate | ]. eexists. split; reflexivity.
    + cbn. lia.
    + eexists. reflexivity.
  - apply (proj2 (stored_label_carries_accelerator accel_controller 0) 0 nul_label).
    + left. split; [discriminate | ]. eexists. split; reflexivity.
    + eexists. reflexivity.
    + reflexivity.
Defined.

(** C4, as stated, fails for an item with an accelerator: relabeling the
    command of [accel_model] with "Open" stores "Open", a tab and "Ctrl+T",
    which is not the label passed in. *)
Lemma SetMenuItemLabel_stores_more_than_label :
  IsSeparatorItemAt accel_controller 0 = false
  /\ (self' ← SetMenuItemLabel accel_controller 0 0 (L "Open");
      registry_label self' 0) = Some (L "Open" ++ tab ++ L "Ctrl+T")
  /\ L "Open" ++ tab ++ L "Ctrl+T" <> L "Open".
Proof. split; [reflexivity | split; [reflexivity | discriminate]]. Qed.

Lemma SetMenuItemLabel_other (self self' : NativeMenuWin) (menu_index k' : Z)
    (text : wstring) :
  SetMenuItemLabel self menu_index k' text = Some self' ->
  model_ self' = model_ self
  /\ length (items_ self') = length (items_ self)
  /\ forall k, k <> k' -> vector_at (items_ self') k = vector_at (items_ self) k.
Proof.
  unfold SetMenuItemLabel. destruct (IsSeparatorItemAt self menu_index).
  - intros [= <-]. repeat split; reflexivity.
  - destruct (vector_at (items_ self) k') as [d|] eqn:Hd.
    + rewrite (UpdateMenuItemInfoForString_Some self mii_zero k' text d Hd).
      cbn [mbind option_bind]. intros [= <-].
      cbn [model_ items_ set_menu_ set_items_].
      split; [reflexivity | ]. split; [apply length_insert | ].
      intros k Hk.
      rewrite (vector_at_update (set_label (formatted_label (model_ self) k' text))
                 (items_ self) _ k' k (vector_update_Some _ _ _ _ Hd)).
      by rewrite decide_False.
    + rewrite (UpdateMenuItemInfoForString_None self mii_zero k' text Hd).
      discriminate.
Qed.

Lemma SetMenuItemLabel_total (self : NativeMenuWin) (menu_index k : Z) (text : wstring) :
  is_Some (vector_at (items_ self) k) ->
  is_Some (SetMenuItemLabel self menu_index k text).
Proof.
  intros [d Hd]. unfold SetMenuItemLabel.
  destruct (IsSeparatorItemAt self menu_index); [by eexists | ].
  rewrite (UpdateMenuItemInfoForString_Some self mii_zero k text d Hd).
  by eexists.
Qed.

Lemma SetMenuItemLabel_calls_other (k : Z) (len : nat)
    (calls : list (Z * Z * wstring)) :
  forall self : NativeMenuWin,
    length (items_ self) = len ->
    Forall (fun c => c.1.2 <> k /\ 0 <= c.1.2 < Z.of_nat len) calls ->
    exists self',
      SetMenuItemLabel_calls calls self = Some self'
      /\ vector_at (items_ self') k = vector_at (items_ self) k.
Proof.
  induction calls as [|[[menu_index k'] text] calls IH]; intros self Hlen Hcalls.
  - exists self. split; reflexivity.
  - apply Forall_cons in Hcalls as [[Hne Hrange] Hcalls]. cbn in Hne, Hrange.
    cbn [SetMenuItemLabel_calls].
    destruct (SetMenuItemLabel_total self menu_index k' text) as [self1 Hself1].
    { apply vector_at_in_range. lia. }
    rewrite Hself1. cbn [mbind option_bind].
    destruct (SetMenuItemLabel_other _ _ _ _ _ Hself1) as (_ & Hlen1 & Hother).
    destruct (IH self1) as (self' & Hrun & Hk); [congruence | exact Hcalls | ].
    exists self'. split; [exact Hrun | ].
    rewrite Hk. apply Hother. congruence.
Qed.

(** C4, amended.  [SetMenuItemLabel] on an existing registry entry whose
    menu item is not a separator stores the label passed in, followed by a
    tab and the accelerator's shortcut text when the item is not a submenu
    item and the model provides an accelerator for it, and the label passed
    in as it is otherwise; the entry still holds that text after any run of
    [SetMenuItemLabel] calls on other entries of the registry. *)
Theorem SetMenuItemLabel_registry_label (self : NativeMenuWin) (menu_index k : Z)
    (text : wstring) :
  is_Some (vector_at (items_ self) k) ->
  IsSeparatorItemAt self menu_index = false ->
  exists self' stored,
    SetMenuItemLabel self menu_index k text = Some self'
    /\ registry_label self' k = Some stored
    /\ (forall accelerator,
          GetTypeAt (model_ self) k <> TYPE_SUBMENU ->
          GetAcceleratorAt (model_ self) k = Some accelerator ->
          stored = text ++ tab ++ GetShortcutText accelerator)
    /\ (GetTypeAt (model_ self) k = TYPE_SUBMENU
        \/ GetAcceleratorAt (model_ self) k = None ->
        stored = text)
    /\ forall calls : list (Z * Z * wstring),
         Forall (fun c => c.1.2 <> k /\ is_Some (vector_at (items_ self) c.1.2)) calls ->
         exists self'',
           SetMenuItemLabel_calls calls self' = Some self''
           /\ registry_label self'' k = Some stored.
Proof.
  intros [d Hd] Hsep.
  rewrite (SetMenuItemLabel_Some self menu_index k text d Hd Hsep).
  eexists. exists (formatted_label (model_ self) k text).
  split; [reflexivity | ]. split; [apply registry_label_updated; exact Hd | ].
  split; [ | split].
  - intros acc Ht Hacc. apply claimed_label_formatted. left.
    split; [exact Ht | ]. exists acc. split; [exact Hacc | reflexivity].
  - apply formatted_label_plain.
  - intros calls Hcalls.
    destruct (SetMenuItemLabel_calls_other k (length (items_ self)) calls
                (set_menu_
                   (snd (SetMenuItemInfo (menu_ self) menu_index
                           (label_mii (formatted_label (model_ self) k text))))
                   (set_items_
                      (<[Z.to_nat k :=
                           set_label (formatted_label (model_ self) k text) d]>
                         (items_ self)) self)))
      as (self'' & Hrun & Hk).
    + cbn [items_ set_menu_ set_items_]. apply length_insert.
    + eapply Forall_impl; [exact Hcalls | ].
      intros c [Hne [x Hx]]. split; [exact Hne | ].
      eapply vector_at_Some_range. exact Hx.
    + exists self''. split; [exact Hrun | ].
      unfold registry_label. rewrite Hk.
      apply registry_label_updated with (menu := menu_ self). exact Hd.
Qed.

Lemma SetMenuItemLabel_registry_label_witness :
  exists self' stored,
    SetMenuItemLabel accel_controller 0 0 (L "Open") = Some self'
    /\ registry_label self' 0 = Some stored
    /\ (forall accelerator,
          GetTypeAt (model_ accel_controller) 0 <> TYPE_SUBMENU ->
          GetAcceleratorAt (model_ accel_controller) 0 = Some accelerator ->
          stored = L "Open" ++ tab ++ GetShortcutText accelerator)
    /\ (GetTypeAt (model_ accel_controller) 0 = TYPE_SUBMENU
        \/ GetAcceleratorAt (model_ accel_controller) 0 = None ->
        stored = L "Open")
    /\ forall calls : list (Z * Z * wstring),
         Forall (fun c => c.1.2 <> 0
                          /\ is_Some (vector_at (items_ accel_controller) c.1.2)) calls ->
         exists self'',
           SetMenuItemLabel_calls calls self' = Some self''
           /\ registry_label self'' 0 = Some stored.
Proof.
  apply (SetMenuItemLabel_registry_label accel_controller 0 0 (L "Open")).
  - eexists. reflexivity.
  - reflexivity.
Defined.

(** ** UpdateStates *)

(** Induction over a controller and the controllers of its submenus. *)
Lemma NativeMenuWin_induction (P : NativeMenuWin -> Prop) :
  (forall self,
     Forall (fun it : ItemData =>
               forall sub, submenu it = Some sub -> P (wrapper_ sub))
       (items_ self) ->
     P self) ->
  forall self, P self.
Proof.
  intros Hstep. fix IH 1. intros self. apply Hstep.
  destruct self as [? ? ? ? ? ? items ? ? ?]. cbn [items_].
  revert items. fix IHitems 1. intros [|it items].
  - constructor.
  - constructor; [ | apply IHitems].
    intros sub Hsub. destruct it as [? [s|] ? ?]; [ | discriminate].
    injection Hsub as <-. destruct s as [? w]. cbn [wrapper_]. apply IH.
Qed.

Lemma UpdateStates_unfold (self : NativeMenuWin) :
  UpdateStates self = UpdateStates_walk Menu2_UpdateStates (items_ self) 0 self.
Proof. destruct self; reflexivity. Qed.

Lemma IsSeparatorItemAt_eq (self : NativeMenuWin) (menu_index : Z) :
  IsSeparatorItemAt self menu_index
  = has_flag (from_option fType 0 (item_at (menu_ self) menu_index)) MF_SEPARATOR.
Proof. unfold IsSeparatorItemAt. by rewrite GetMenuItemInfo_fType. Qed.



Lemma SetMenuItemState_eq (self : NativeMenuWin) (menu_index : Z) (enabled checked : bool) :
  SetMenuItemState self menu_index enabled checked false
  = if IsSeparatorItemAt self menu_index then self
    else set_menu_
           (snd (SetMenuItemInfo (menu_ self) menu_index (state_mii enabled checked)))
           self.
Proof. reflexivity. Qed.


Lemma insert_as_alter {A} (h : A -> A) (l : list A) (k : nat) (d : A) :
  l !! k = Some d -> <[k := h d]> l = alter h k l.
Proof.
  intros Hd. apply list_eq. intros j.
  destruct (decide (j = k)) as [->|Hj].
  - rewrite list_lookup_insert_eq by (by eapply lookup_lt_Some).
    by rewrite list_lookup_alter_eq, Hd.
  - by rewrite list_lookup_insert_ne, list_lookup_alter_ne by congruence.
Qed.

Lemma alter_same {A} (h : A -> A) (l : list A) (k : nat) :
  (forall d, l !! k = Some d -> h d = d) -> alter h k l = l.
Proof.
  intros Hh. apply list_eq. intros j.
  destruct (decide (j = k)) as [->|Hj].
  - rewrite list_lookup_alter_eq. destruct (l !! k) as [d|] eqn:Hd; [ | reflexivity].
    cbn. by rewrite Hh.
  - by rewrite list_lookup_alter_ne by congruence.
Qed.

Lemma alter_item_ext (g g' : MENUITEM -> MENUITEM) (menu : HMENU) (i : Z) :
  (forall it, item_at menu i = Some it -> g it = g' it) ->
  alter_item g menu i = alter_item g' menu i.
Proof.
  intros Hg. destruct menu as [m|]; [ | reflexivity]. cbn [alter_item item_at] in *.
  destruct (Z.ltb_spec i 0); [reflexivity | ]. do 2 f_equal.
  apply list_eq. intros j. destruct (decide (j = Z.to_nat i)) as [->|Hj].
  - rewrite !list_lookup_alter_eq.
    destruct (menu_items m !! Z.to_nat i) as [it|] eqn:Hit; [ | reflexivity].
    cbn. by rewrite Hg.
  - by rewrite !list_lookup_alter_ne by congruence.
Qed.

Lemma alter_item_id (menu : HMENU) (i : Z) : alter_item id menu i = menu.
Proof.
  destruct menu as [[style data items]|]; [ | reflexivity]. cbn.
  destruct (i <? 0); [reflexivity | ]. by rewrite list_alter_id.
Qed.

Lemma alter_item_compose (g1 g2 : MENUITEM -> MENUITEM) (menu : HMENU) (i : Z) :
  alter_item g2 (alter_item g1 menu i) i = alter_item (g2 ∘ g1) menu i.
Proof.
  destruct menu as [m|]; [ | reflexivity]. cbn.
  destruct (i <? 0); [reflexivity | ]. by rewrite list_alter_alter_eq.
Qed.

Lemma item_at_alter_item (g : MENUITEM -> MENUITEM) (menu : HMENU) (i j : Z) :
  item_at (alter_item g menu i) j
  = if decide (j = i) then g <$> item_at menu j else item_at menu j.
Proof.
  destruct menu as [m|]; [ | by case_decide]. cbn [alter_item item_at menu_items].
  destruct (Z.ltb_spec i 0), (Z.ltb_spec j 0); case_decide; try reflexivity; try lia.
  - subst j. apply list_lookup_alter_eq.
  - apply list_lookup_alter_ne. lia.
Qed.

Lemma SetMenuItemInfo_alter_item (menu : HMENU) (i : Z) (mii : MENUITEMINFO) :
  snd (SetMenuItemInfo menu i mii) = alter_item (write_item mii) menu i.
Proof.
  unfold SetMenuItemInfo. destruct menu as [[style data items]|]; [ | reflexivity].
  cbn [item_at menu_items alter_item dwStyle dwMenuData].
  destruct (Z.ltb_spec i 0); [reflexivity | ].
  destruct (items !! Z.to_nat i) as [it|] eqn:Hit; cbn [snd].
  - by rewrite (insert_as_alter _ _ _ _ Hit).
  - do 2 f_equal. symmetry. apply alter_same. intros d. rewrite Hit. discriminate.
Qed.

Lemma changed_at_refl (k : nat) (menu_index : Z) (s : NativeMenuWin) :
  changed_at id id k menu_index s s.
Proof.
  split; [apply same_config_refl | ]. split.
  - symmetry. by apply alter_same.
  - by rewrite alter_item_id.
Qed.

Lemma changed_at_trans (g1 g2 : MENUITEM -> MENUITEM) (h1 h2 : ItemData -> ItemData)
    (k : nat) (menu_index : Z) (s1 s2 s3 : NativeMenuWin) :
  changed_at g1 h1 k menu_index s1 s2 ->
  changed_at g2 h2 k menu_index s2 s3 ->
  changed_at (g2 ∘ g1) (h2 ∘ h1) k menu_index s1 s3.
Proof.
  intros (Hc1 & Hi1 & Hm1) (Hc2 & Hi2 & Hm2).
  split; [by eapply same_config_trans | ]. split.
  - by rewrite Hi2, Hi1, list_alter_alter_eq.
  - by rewrite Hm2, Hm1, alter_item_compose.
Qed.

Lemma changed_at_ext (g g' : MENUITEM -> MENUITEM) (h h' : ItemData -> ItemData)
    (k : nat) (menu_index : Z) (s s' : NativeMenuWin) :
  (forall it, item_at (menu_ s) menu_index = Some it -> g it = g' it) ->
  (forall d, items_ s !! k = Some d -> h d = h' d) ->
  changed_at g h k menu_index s s' -> changed_at g' h' k menu_index s s'.
Proof.
  intros Hg Hh (Hc & Hi & Hm).
  split; [exact Hc | ]. split.
  - rewrite Hi. apply list_eq. intros j.
    destruct (decide (j = k)) as [->|Hj].
    + rewrite !list_lookup_alter_eq. destruct (items_ s !! k) as [d|] eqn:Hd;
        [ | reflexivity]. cbn. by rewrite Hh.
    + by rewrite !list_lookup_alter_ne by congruence.
  - rewrite Hm. by apply alter_item_ext.
Qed.

Lemma changed_at_IsSeparatorItemAt (g : MENUITEM -> MENUITEM) (h : ItemData -> ItemData)
    (k : nat) (menu_index : Z) (s s' : NativeMenuWin) :
  changed_at g h k menu_index s s' ->
  (forall it, fType (g it) = fType it) ->
  forall j, IsSeparatorItemAt s' j = IsSeparatorItemAt s j.
Proof.
  intros (_ & _ & Hm) Hg j. rewrite !IsSeparatorItemAt_eq, Hm, item_at_alter_item.
  case_decide; [ | reflexivity].
  destruct (item_at (menu_ s) j) as [it|]; [ | reflexivity].
  cbn. by rewrite Hg.
Qed.

(** The three parts of a round of the walk. *)

Lemma SetMenuItemState_changed (s : NativeMenuWin) (k : nat) (menu_index : Z)
    (enabled checked : bool) :
  changed_at
    (fun it => if has_flag (fType it) MF_SEPARATOR then it
               else write_item (state_mii enabled checked) it)
    id k menu_index s (SetMenuItemState s menu_index enabled checked false).
Proof.
  rewrite SetMenuItemState_eq, IsSeparatorItemAt_eq.
  destruct (has_flag (from_option fType 0 (item_at (menu_ s) menu_index)) MF_SEPARATOR)
    eqn:Hsep.
  - eapply changed_at_ext; [ | | apply changed_at_refl]; [ | done].
    intros it Hit. rewrite Hit in Hsep. cbn in Hsep |- *. by rewrite Hsep.
  - split; [unfold same_config; cbn; tauto | ]. split.
    + cbn [items_ set_menu_]. symmetry. by apply alter_same.
    + cbn [menu_ set_menu_]. rewrite SetMenuItemInfo_alter_item.
      apply alter_item_ext. intros it Hit. rewrite Hit in Hsep.
      cbn in Hsep. by rewrite Hsep.
Qed.

Lemma SetMenuItemLabel_changed (s : NativeMenuWin) (k : nat) (menu_index : Z)
    (text : wstring) :
  is_Some (items_ s !! k) ->
  exists s',
    SetMenuItemLabel s menu_index (Z.of_nat k) text = Some s'
    /\ changed_at
         (fun it => if has_flag (fType it) MF_SEPARATOR then it
                    else write_item
                           (label_mii (formatted_label (model_ s) (Z.of_nat k) text)) it)
         (fun d => if IsSeparatorItemAt s menu_index then d
                   else set_label (formatted_label (model_ s) (Z.of_nat k) text) d)
         k menu_index s s'.
Proof.
  intros [d Hd]. destruct (IsSeparatorItemAt s menu_index) eqn:Hsep.
  - exists s. split; [unfold SetMenuItemLabel; by rewrite Hsep | ].
    eapply changed_at_ext; [ | | apply changed_at_refl]; [ | done].
    intros it Hit. rewrite IsSeparatorItemAt_eq, Hit in Hsep.
    cbn in Hsep |- *. by rewrite Hsep.
  - rewrite (SetMenuItemLabel_Some s menu_index (Z.of_nat k) text d)
      by (rewrite ?vector_at_of_nat; done).
    eexists. split; [reflexivity | ]. rewrite Nat2Z.id.
    split; [apply same_config_set | ]. split.
    + cbn [items_ set_menu_ set_items_]. by apply insert_as_alter.
    + cbn [menu_ set_menu_ set_items_]. rewrite SetMenuItemInfo_alter_item.
      apply alter_item_ext. intros it Hit.
      rewrite IsSeparatorItemAt_eq, Hit in Hsep. cbn in Hsep. by rewrite Hsep.
Qed.

Lemma submenu_update_changed (s : NativeMenuWin) (k : nat) (menu_index : Z)
    (sub : Menu2) :
  is_Some (items_ s !! k) ->
  exists items,
    vector_update (set_submenu (Some sub)) (items_ s) (Z.of_nat k) = Some items
    /\ changed_at id (set_submenu (Some sub)) k menu_index s (set_items_ items s).
Proof.
  intros [d Hd].
  rewrite (vector_update_Some _ _ _ d) by (by rewrite vector_at_of_nat).
  eexists. split; [reflexivity | ]. rewrite Nat2Z.id.
  split; [unfold same_config; cbn; tauto | ]. split.
  - cbn [items_ set_items_]. by apply insert_as_alter.
  - cbn [menu_ set_items_]. by rewrite alter_item_id.
Qed.

Lemma fType_state_mii (enabled checked : bool) (it : MENUITEM) :
  fType (write_item (state_mii enabled checked) it) = fType it.
Proof. reflexivity. Qed.


Lemma fType_os_item_sync (model : MenuModel) (k : Z) (it : MENUITEM) :
  fType (os_item_sync model k it) = fType it.
Proof.
  unfold os_item_sync. destruct (has_flag (fType it) MF_SEPARATOR); [reflexivity | ].
  destruct (IsItemDynamicAt model k); reflexivity.
Qed.

Lemma changed_at_lookup (g : MENUITEM -> MENUITEM) (h : ItemData -> ItemData)
    (k : nat) (menu_index : Z) (s s' : NativeMenuWin) :
  changed_at g h k menu_index s s' ->
  items_ s' !! k = h <$> items_ s !! k
  /\ forall j, j <> k -> items_ s' !! j = items_ s !! j.
Proof.
  intros (_ & Hi & _). rewrite Hi. split.
  - apply list_lookup_alter_eq.
  - intros j Hj. apply list_lookup_alter_ne. congruence.
Qed.

(** A round of the walk at index [k], for the entry [it] under the
    iterator. *)
Lemma UpdateStates_step_changed (it : ItemData) (k : nat) (s : NativeMenuWin)
    (r : option Menu2) :
  is_Some (items_ s !! k) ->
  stepped_submenu it = Some r ->
  exists s',
    UpdateStates_step Menu2_UpdateStates it (Z.of_nat k) s = Some s'
    /\ changed_at (os_item_sync (model_ s) (Z.of_nat k)) (reg_sync s k r) k
         (Z.of_nat k + first_item_index_ s) s s'.
Proof.
  intros Hk Hr. unfold UpdateStates_step.
  set (mi := Z.of_nat k + first_item_index_ s).
  set (sA := SetMenuItemState s mi _ _ false).
  pose proof (SetMenuItemState_changed s k mi
                (IsEnabledAt (model_ s) (Z.of_nat k))
                (IsItemCheckedAt (model_ s) (Z.of_nat k))) as HA.
  fold sA in HA.
  pose proof HA as (HcA & HiA & _).
  assert (HmA : model_ sA = model_ s) by apply HcA.
  assert (HsepA : forall j, IsSeparatorItemAt sA j = IsSeparatorItemAt s j).
  { eapply changed_at_IsSeparatorItemAt; [exact HA | ].
    intros x. cbv beta. destruct (has_flag (fType x) MF_SEPARATOR); reflexivity. }
  assert (HkA : is_Some (items_ sA !! k)).
  { destruct (changed_at_lookup _ _ _ _ _ _ HA) as [-> _].
    destruct Hk as [d ->]. by eexists. }
  rewrite HmA.
  assert (HB : exists sB,
             (if IsItemDynamicAt (model_ s) (Z.of_nat k)
              then SetMenuItemLabel sA mi (Z.of_nat k) (GetLabelAt (model_ s) (Z.of_nat k))
              else Some sA) = Some sB
             /\ changed_at (os_item_sync (model_ s) (Z.of_nat k)) (reg_sync s k None)
                  k mi s sB).
  { destruct (IsItemDynamicAt (model_ s) (Z.of_nat k)) eqn:Hdyn.
    - destruct (SetMenuItemLabel_changed sA k mi (GetLabelAt (model_ s) (Z.of_nat k)) HkA)
        as (sB & HsB & HchB).
      exists sB. split; [exact HsB | ].
      pose proof (changed_at_trans _ _ _ _ _ _ _ _ _ HA HchB) as Hch.
      eapply changed_at_ext; [ | | exact Hch].
      + intros x _. unfold os_item_sync, compose. rewrite Hdyn.
        destruct (has_flag (fType x) MF_SEPARATOR) eqn:Hx.
        * by rewrite Hx.
        * by rewrite fType_state_mii, Hx, HmA.
      + intros d _. unfold reg_sync, compose. fold mi.
        rewrite Hdyn, HsepA, HmA. cbn.
        by destruct (IsSeparatorItemAt s mi).
    - exists sA. split; [reflexivity | ].
      eapply changed_at_ext; [ | | exact HA].
      + intros x _. unfold os_item_sync. by rewrite Hdyn.
      + intros d _. unfold reg_sync. by rewrite Hdyn.
  }
  destruct HB as (sB & HsB & HchB). rewrite HsB. cbn [mbind option_bind].
  assert (HkB : is_Some (items_ sB !! k)).
  { destruct (changed_at_lookup _ _ _ _ _ _ HchB) as [-> _].
    destruct Hk as [d ->]. by eexists. }
  unfold stepped_submenu in Hr. destruct (submenu it) as [sub|].
  - destruct (Menu2_UpdateStates sub) as [sub'|]; [ | discriminate].
    injection Hr as <-. cbn [mbind option_bind].
    destruct (submenu_update_changed sB k mi sub' HkB) as (items & Hitems & HchC).
    rewrite Hitems. cbn [mbind option_bind].
    eexists. split; [reflexivity | ].
    pose proof (changed_at_trans _ _ _ _ _ _ _ _ _ HchB HchC) as Hch.
    eapply changed_at_ext; [ | | exact Hch]; done.
  - injection Hr as <-. exists sB. split; [reflexivity | exact HchB].
Qed.

Lemma NativeMenuWin_eq (s s' : NativeMenuWin) :
  same_config s s' -> items_ s' = items_ s -> menu_ s' = menu_ s -> s' = s.
Proof.
  destruct s, s'. unfold same_config. cbn.
  intros (-> & -> & -> & -> & -> & -> & -> & ->) -> ->. reflexivity.
Qed.

Lemma changed_at_same (g : MENUITEM -> MENUITEM) (h : ItemData -> ItemData)
    (k : nat) (menu_index : Z) (s s' : NativeMenuWin) :
  changed_at g h k menu_index s s' ->
  (forall it, item_at (menu_ s) menu_index = Some it -> g it = it) ->
  (forall d, items_ s !! k = Some d -> h d = d) ->
  s' = s.
Proof.
  intros Hch Hg Hh.
  apply (changed_at_ext g id h id) in Hch; [ | exact Hg | exact Hh].
  destruct Hch as (Hc & Hi & Hm). apply NativeMenuWin_eq; [exact Hc | | ].
  - rewrite Hi. by apply alter_same.
  - by rewrite Hm, alter_item_id.
Qed.

Lemma os_item_sync_idem (model : MenuModel) (k : Z) (it : MENUITEM) :
  os_item_sync model k (os_item_sync model k it) = os_item_sync model k it.
Proof.
  unfold os_item_sync at 1. rewrite fType_os_item_sync.
  destruct (has_flag (fType it) MF_SEPARATOR) eqn:Hsep; [reflexivity | ].
  unfold os_item_sync. rewrite Hsep.
  destruct (IsItemDynamicAt model k); reflexivity.
Qed.

(** A round of the walk changes nothing at an index that is in step. *)
Lemma UpdateStates_step_fixed (s : NativeMenuWin) (k : nat) (d : ItemData) :
  synced s k -> items_ s !! k = Some d ->
  UpdateStates_step Menu2_UpdateStates d (Z.of_nat k) s = Some s.
Proof.
  intros (Hos & Hreg) Hd. destruct (Hreg d Hd) as (Hlabel & Hsub).
  assert (Hr : stepped_submenu d = Some (submenu d)).
  { unfold stepped_submenu. destruct (submenu d) as [sub|] eqn:Hs; [ | reflexivity].
    by rewrite (Hsub sub eq_refl). }
  destruct (UpdateStates_step_changed d k s (submenu d)) as (s' & Hstep & Hch);
    [by eexists | exact Hr | ].
  rewrite Hstep. f_equal. eapply changed_at_same; [exact Hch | exact Hos | ].
  intros d' Hd'. assert (d' = d) as -> by congruence.
  unfold reg_sync.
  destruct (IsItemDynamicAt (model_ s) (Z.of_nat k)) eqn:Hdyn;
    destruct (IsSeparatorItemAt s (Z.of_nat k + first_item_index_ s)) eqn:Hsep;
    cbn [andb negb].
  - destruct d as [? [?|] ? ?]; reflexivity.
  - specialize (Hlabel eq_refl eq_refl).
    destruct d as [? [?|] ? ?]; cbn in *; by rewrite Hlabel.
  - destruct d as [? [?|] ? ?]; reflexivity.
  - destruct d as [? [?|] ? ?]; reflexivity.
Qed.

(** A round of the walk at index [k] leaves index [k] in step. *)
Lemma UpdateStates_step_synced (s s' : NativeMenuWin) (k : nat) (it : ItemData)
    (r : option Menu2) :
  items_ s !! k = Some it ->
  stepped_submenu it = Some r ->
  (forall sub, r = Some sub -> Menu2_UpdateStates sub = Some sub) ->
  changed_at (os_item_sync (model_ s) (Z.of_nat k)) (reg_sync s k r) k
    (Z.of_nat k + first_item_index_ s) s s' ->
  synced s' k.
Proof.
  intros Hit Hr Hfix Hch.
  pose proof (changed_at_IsSeparatorItemAt _ _ _ _ _ _ Hch
                (fType_os_item_sync (model_ s) (Z.of_nat k))) as Hsep.
  destruct (changed_at_lookup _ _ _ _ _ _ Hch) as [Hk _].
  destruct Hch as ((Hm & _ & _ & Hf & _) & _ & Hmenu).
  unfold synced. rewrite Hm, Hf. split.
  - intros it0. rewrite Hmenu, item_at_alter_item, decide_True by reflexivity.
    destruct (item_at (menu_ s) (Z.of_nat k + first_item_index_ s)) as [x|];
      [ | discriminate].
    intros [= <-]. apply os_item_sync_idem.
  - intros d. rewrite Hk, Hit. intros [= <-]. split.
    + intros Hdyn Hs. rewrite Hsep in Hs. unfold reg_sync. rewrite Hdyn, Hs.
      cbn [andb negb]. by destruct r.
    + intros sub. unfold reg_sync.
      destruct r as [sub'|].
      * cbn. intros [= <-]. by apply Hfix.
      * unfold stepped_submenu in Hr. destruct (submenu it) as [x|] eqn:Hx.
        { destruct (Menu2_UpdateStates x); discriminate. }
        destruct (IsItemDynamicAt (model_ s) (Z.of_nat k)
                  && negb (IsSeparatorItemAt s (Z.of_nat k + first_item_index_ s)));
          cbn; rewrite Hx; discriminate.
Qed.

(** A round of the walk at another index keeps index [k] in step. *)
Lemma UpdateStates_step_keeps (g : MENUITEM -> MENUITEM) (h : ItemData -> ItemData)
    (s s' : NativeMenuWin) (j k : nat) :
  changed_at g h j (Z.of_nat j + first_item_index_ s) s s' ->
  (forall it, fType (g it) = fType it) ->
  k <> j -> synced s k -> synced s' k.
Proof.
  intros Hch Hg Hkj (Hos & Hreg).
  pose proof (changed_at_IsSeparatorItemAt _ _ _ _ _ _ Hch Hg) as Hsep.
  destruct (changed_at_lookup _ _ _ _ _ _ Hch) as [_ Hother].
  destruct Hch as ((Hm & _ & _ & Hf & _) & _ & Hmenu).
  unfold synced. rewrite Hm, Hf, Hsep, Hother by exact Hkj. split.
  - intros it. rewrite Hmenu, item_at_alter_item, decide_False by lia. apply Hos.
  - exact Hreg.
Qed.

Lemma UpdateStates_walk_synced (its : list ItemData) :
  forall (j : nat) (s : NativeMenuWin),
    drop j (items_ s) = its ->
    (forall k, (k < j)%nat -> synced s k) ->
    Forall (fun it : ItemData =>
              forall sub, submenu it = Some sub ->
                exists w, UpdateStates (wrapper_ sub) = Some w
                          /\ UpdateStates w = Some w) its ->
    exists s',
      UpdateStates_walk Menu2_UpdateStates its (Z.of_nat j) s = Some s'
      /\ same_config s s'
      /\ length (items_ s') = length (items_ s)
      /\ forall k, (k < length (items_ s'))%nat -> synced s' k.
Proof.
  induction its as [|it rest IH]; intros j s Hdrop Hdone Hsubs.
  - exists s. split; [reflexivity | ]. split; [apply same_config_refl | ].
    split; [reflexivity | ]. intros k Hk. apply Hdone.
    apply drop_nil_inv in Hdrop. lia.
  - apply Forall_cons in Hsubs as [Hsub Hsubs].
    assert (Hit : items_ s !! j = Some it).
    { rewrite <- (Nat.add_0_r j), <- lookup_drop, Hdrop. reflexivity. }
    assert (Hr : exists r, stepped_submenu it = Some r
                           /\ forall sub, r = Some sub ->
                                          Menu2_UpdateStates sub = Some sub).
    { unfold stepped_submenu. destruct (submenu it) as [sub|].
      - destruct (Hsub sub eq_refl) as (w & Hw & Hww).
        exists (Some (mkMenu2 (m2_model_ sub) w)). unfold Menu2_UpdateStates at 1.
        rewrite Hw. split; [reflexivity | ].
        intros ? [= <-]. unfold Menu2_UpdateStates. cbn [wrapper_ m2_model_].
        by rewrite Hww.
      - exists None. split; [reflexivity | discriminate]. }
    destruct Hr as (r & Hr & Hfix).
    destruct (UpdateStates_step_changed it j s r) as (s1 & Hstep & Hch);
      [by eexists | exact Hr | ].
    cbn [UpdateStates_walk]. rewrite Hstep. cbn [mbind option_bind].
    pose proof Hch as (Hcfg & Hitems & _).
    replace (Z.of_nat j + 1) with (Z.of_nat (S j)) by lia.
    destruct (IH (S j) s1) as (s' & Hwalk & Hcfg' & Hlen' & Hall).
    + rewrite Hitems, drop_alter_lt by lia.
      rewrite (drop_S _ _ _ Hit) in Hdrop. congruence.
    + intros k Hk. destruct (decide (k = j)) as [->|Hkj].
      * eapply UpdateStates_step_synced; eauto.
      * eapply UpdateStates_step_keeps;
          [exact Hch | apply fType_os_item_sync | exact Hkj | apply Hdone; lia].
    + exact Hsubs.
    + exists s'. split; [exact Hwalk | ].
      split; [by eapply same_config_trans | ].
      split; [ | exact Hall].
      rewrite Hlen', Hitems. apply length_alter.
Qed.

Lemma UpdateStates_walk_fixed (its : list ItemData) :
  forall (j : nat) (s : NativeMenuWin),
    drop j (items_ s) = its ->
    (forall k, (k < length (items_ s))%nat -> synced s k) ->
    UpdateStates_walk Menu2_UpdateStates its (Z.of_nat j) s = Some s.
Proof.
  induction its as [|it rest IH]; intros j s Hdrop Hall; [reflexivity | ].
  assert (Hit : items_ s !! j = Some it).
  { rewrite <- (Nat.add_0_r j), <- lookup_drop, Hdrop. reflexivity. }
  cbn [UpdateStates_walk].
  rewrite UpdateStates_step_fixed;
    [ | apply Hall; by eapply lookup_lt_Some | exact Hit].
  cbn [mbind option_bind]. replace (Z.of_nat j + 1) with (Z.of_nat (S j)) by lia.
  apply IH; [ | exact Hall].
  rewrite (drop_S _ _ _ Hit) in Hdrop. congruence.
Qed.

(** [UpdateStates] always completes, changes the menu and the registry
    only, and leaves a state that a further [UpdateStates] does not
    change. *)
Lemma UpdateStates_fixed_point (self : NativeMenuWin) :
  exists s1,
    UpdateStates self = Some s1
    /\ UpdateStates s1 = Some s1
    /\ same_config self s1
    /\ length (items_ s1) = length (items_ self).
Proof.
  induction self as [self IH] using NativeMenuWin_induction.
  destruct (UpdateStates_walk_synced (items_ self) 0 self) as (s1 & Hwalk & Hcfg & Hlen & Hall).
  - reflexivity.
  - intros k Hk. lia.
  - eapply Forall_impl; [exact IH | ].
    intros it Hit sub Hsub. destruct (Hit sub Hsub) as (w & Hw & Hww & _).
    exists w. split; assumption.
  - exists s1. rewrite !UpdateStates_unfold.
    split; [exact Hwalk | ]. split; [ | split; assumption].
    apply (UpdateStates_walk_fixed (items_ s1) 0 s1); [reflexivity | exact Hall].
Qed.

(** C7.  [UpdateStates] called twice in a row, the model not changing in
    between, leaves the controller, with the OS items and the registry it
    holds, exactly as one call does: the second call changes nothing. *)
Theorem UpdateStates_idempotent (self : NativeMenuWin) :
  exists once,
    UpdateStates self = Some once
    /\ (once' ← UpdateStates self; UpdateStates once') = Some once.
Proof.
  destruct (UpdateStates_fixed_point self) as (s1 & H1 & H2 & _).
  exists s1. split; [exact H1 | ]. rewrite H1. exact H2.
Qed.

(** ** The modal loop *)

Lemma same_but_action_refl (s : NativeMenuWin) : same_but_action s s.
Proof. unfold same_but_action. tauto. Qed.

Lemma same_but_action_trans (s1 s2 s3 : NativeMenuWin) :
  same_but_action s1 s2 -> same_but_action s2 s3 -> same_but_action s1 s3.
Proof. unfold same_but_action. intuition congruence. Qed.

Lemma notify_listeners_objects (ls : list MenuListenerPtr) (p : Process) :
  objects (foldl (fun p l => notify (OnMenuOpened l) p) p ls) = objects p
  /\ open_native_menu_win_ (foldl (fun p l => notify (OnMenuOpened l) p) p ls)
     = open_native_menu_win_ p
  /\ pending_tasks (foldl (fun p l => notify (OnMenuOpened l) p) p ls)
     = pending_tasks p
  /\ notifications (foldl (fun p l => notify (OnMenuOpened l) p) p ls)
     = notifications p ++ map OnMenuOpened ls.
Proof.
  revert p. induction ls as [|l ls IH]; intros p; cbn [foldl map].
  - by rewrite app_nil_r.
  - destruct (IH (notify (OnMenuOpened l) p)) as (-> & -> & -> & ->).
    cbn. by rewrite <- app_assoc.
Qed.

(** The hook, run while [this] is the open controller. *)
Lemma MenuMessageHook_spec (msg : MSG) (live : HMENU) (p : Process)
    (this : NativeMenuWinPtr) (s : NativeMenuWin) (called : bool) :
  open_native_menu_win_ p = Some this ->
  objects p !! this = Some s ->
  listeners_called_ s = Some called ->
  exists p' s',
    MenuMessageHook msg live p = Some p'
    /\ open_native_menu_win_ p' = Some this
    /\ objects p' !! this = Some s'
    /\ is_Some (listeners_called_ s')
    /\ menu_action_ s' = action_step (menu_action_ s) (HookCall msg live)
    /\ same_but_action s s'.
Proof.
  intros Hopen Hs Hcalled. unfold MenuMessageHook.
  rewrite Hopen. cbn [mbind option_bind]. rewrite Hs. cbn [mbind option_bind].
  rewrite Hcalled. cbn [mbind option_bind].
  set (sp := if negb called then _ else _).
  assert (Hsp : same_but_action s sp.1 /\ menu_action_ sp.1 = menu_action_ s
                /\ is_Some (listeners_called_ sp.1)
                /\ open_native_menu_win_ sp.2 = Some this).
  { unfold sp. destruct called; cbn [negb fst snd].
    - split; [apply same_but_action_refl | ]. split; [reflexivity | ].
      split; [by eexists | exact Hopen].
    - split; [unfold same_but_action; cbn; tauto | ]. split; [reflexivity | ].
      split; [by eexists | ].
      by destruct (notify_listeners_objects (listeners_ s) p) as (_ & -> & _). }
  destruct sp as [s1 p1]. cbn [fst snd] in Hsp.
  destruct Hsp as (Hsame & Hact & Hc1 & Hopen1).
  cbn [action_step].
  destruct (message msg =? WM_KEYDOWN).
  - destruct (GetHighlightedMenuItemInfo live false false) as [[found hp] hs].
    destruct (key_action msg hp hs) as [action|].
    + eexists _, _. split; [reflexivity | ].
      split; [exact Hopen1 | ]. split; [apply lookup_insert_eq | ].
      split; [exact Hc1 | ]. split; [reflexivity | ].
      eapply same_but_action_trans; [exact Hsame | ].
      unfold same_but_action. cbn. tauto.
    + eexists _, _. split; [reflexivity | ].
      split; [exact Hopen1 | ]. split; [apply lookup_insert_eq | ].
      split; [exact Hc1 | ]. split; [exact Hact | exact Hsame].
  - eexists _, _. split; [reflexivity | ].
    split; [exact Hopen1 | ]. split; [apply lookup_insert_eq | ].
    split; [exact Hc1 | ]. split; [exact Hact | exact Hsame].
Qed.

(** A window message changes the task queue and the notifications only. *)
Lemma ProcessWindowMessage_objects (host : MenuHostWindow) (message : UINT)
    (w_param : WPARAM) (l_param : LPARAM) (l_result : Z) (p : Process)
    (r : bool * Z * Process) :
  ProcessWindowMessage host message w_param l_param l_result p = Some r ->
  objects r.2 = objects p /\ open_native_menu_win_ r.2 = open_native_menu_win_ p.
Proof.
  unfold ProcessWindowMessage, OnMenuCommand, OnMenuSelect.
  destruct (message =? WM_MENUCOMMAND).
  { destruct (GetNativeMenuWinFromHMENU (HMENU_of_LPARAM l_param));
      [ | discriminate]. by intros [= <-]. }
  destruct (message =? WM_MENUSELECT).
  { destruct (HMENU_of_LPARAM l_param) as [m|]; [ | by intros [= <-]].
    destruct (0 <=? _); [ | by intros [= <-]].
    destruct (GetNativeMenuWinFromHMENU (Some m)); [ | discriminate].
    by intros [= <-]. }
  destruct (message =? WM_MEASUREITEM); [by intros [= <-] | ].
  destruct (message =? WM_DRAWITEM); [by intros [= <-] | ].
  destruct (message =? WM_EXITMENULOOP); by intros [= <-].
Qed.

Lemma MenuHostWindowProc_objects (host : option MenuHostWindow) (message : UINT)
    (w_param : WPARAM) (l_param : LPARAM) (p p' : Process) (l_result : Z) :
  MenuHostWindowProc host message w_param l_param p = Some (l_result, p') ->
  objects p' = objects p /\ open_native_menu_win_ p' = open_native_menu_win_ p.
Proof.
  unfold MenuHostWindowProc. destruct host as [host|]; [ | by intros [= _ <-]].
  destruct (ProcessWindowMessage host message w_param l_param 0 p)
    as [[[handled r] p1]|] eqn:Hp; [ | discriminate].
  apply ProcessWindowMessage_objects in Hp. cbn [snd] in Hp.
  cbn [mbind option_bind]. destruct handled; by intros [= _ <-].
Qed.

Lemma MenuHostWindowProc_total (host : option MenuHostWindow) (message : UINT)
    (w_param : WPARAM) (l_param : LPARAM) (p : Process) :
  dispatchable (WindowMessage message w_param l_param) = true ->
  is_Some (MenuHostWindowProc host message w_param l_param p).
Proof.
  unfold dispatchable, MenuHostWindowProc, ProcessWindowMessage, OnMenuCommand,
    OnMenuSelect.
  destruct host as [host|]; [ | by eexists].
  destruct (message =? WM_MENUCOMMAND) eqn:Hcmd; cbn [orb].
  - destruct (GetNativeMenuWinFromHMENU (HMENU_of_LPARAM l_param)); [ | discriminate].
    by eexists.
  - destruct (message =? WM_MENUSELECT) eqn:Hsel.
    + destruct (HMENU_of_LPARAM l_param) as [m|]; [ | by eexists].
      destruct (GetNativeMenuWinFromHMENU (Some m)); [ | discriminate].
      intros _. destruct (0 <=? _); by eexists.
    + intros _. repeat case_match; by eexists.
Qed.

(** One event of the modal loop, [this] being the open controller. *)
Lemma loop_step_spec (host : option MenuHostWindow) (e : LoopEvent) (p : Process)
    (this : NativeMenuWinPtr) (s : NativeMenuWin) :
  open_native_menu_win_ p = Some this ->
  objects p !! this = Some s ->
  is_Some (listeners_called_ s) ->
  (dispatchable e = true -> is_Some (loop_step host e p))
  /\ forall p',
       loop_step host e p = Some p' ->
       open_native_menu_win_ p' = Some this
       /\ exists s',
            objects p' !! this = Some s'
            /\ is_Some (listeners_called_ s')
            /\ menu_action_ s' = action_step (menu_action_ s) e
            /\ same_but_action s s'.
Proof.
  intros Hopen Hs [called Hcalled]. destruct e as [msg live | message w_param l_param].
  - destruct (MenuMessageHook_spec msg live p this s called Hopen Hs Hcalled)
      as (p1 & s1 & Hhook & Hopen1 & Hs1 & Hc1 & Hact & Hsame).
    cbn [loop_step]. rewrite Hhook. split; [by eexists | ].
    intros p' [= <-]. split; [exact Hopen1 | ]. exists s1. tauto.
  - cbn [loop_step]. split.
    + intros Hd.
      destruct (MenuHostWindowProc_total host message w_param l_param p Hd)
        as [[l_result p1] Hp1].
      rewrite Hp1. by eexists.
    + intros p' Hstep.
      destruct (MenuHostWindowProc host message w_param l_param p)
        as [[l_result p1]|] eqn:Hp1; [ | discriminate].
      injection Hstep as <-.
      destruct (MenuHostWindowProc_objects _ _ _ _ _ _ _ Hp1) as [Hobj Hop].
      cbn [snd]. rewrite Hop, Hobj. split; [exact Hopen | ].
      exists s. split; [exact Hs | ]. split; [by eexists | ].
      split; [reflexivity | apply same_but_action_refl].
Qed.

Lemma modal_loop_spec (host : option MenuHostWindow) (events : list LoopEvent) :
  forall (p : Process) (this : NativeMenuWinPtr) (s : NativeMenuWin),
    open_native_menu_win_ p = Some this ->
    objects p !! this = Some s ->
    is_Some (listeners_called_ s) ->
    (forallb dispatchable events = true ->
     is_Some (modal_loop host events p))
    /\ forall p',
         modal_loop host events p = Some p' ->
         open_native_menu_win_ p' = Some this
         /\ exists s',
              objects p' !! this = Some s'
              /\ menu_action_ s' = foldl action_step (menu_action_ s) events
              /\ same_but_action s s'.
Proof.
  induction events as [|e events IH]; intros p this s Hopen Hs Hcalled.
  - cbn [modal_loop foldl]. split; [by eexists | ].
    intros p' [= <-]. split; [exact Hopen | ].
    exists s. split; [exact Hs | ]. split; [reflexivity | apply same_but_action_refl].
  - destruct (loop_step_spec host e p this s Hopen Hs Hcalled) as [Htotal Hstep].
    cbn [modal_loop forallb foldl]. split.
    + intros [He Hevents]%andb_prop. destruct (Htotal He) as [p1 Hp1].
      rewrite Hp1. cbn [mbind option_bind].
      destruct (Hstep p1 Hp1) as (Hopen1 & s1 & Hs1 & Hc1 & _).
      by apply (IH p1 this s1).
    + intros p' Hrun. destruct (loop_step host e p) as [p1|] eqn:Hp1; [ | discriminate].
      cbn [mbind option_bind] in Hrun.
      destruct (Hstep p1 eq_refl) as (Hopen1 & s1 & Hs1 & Hc1 & Hact1 & Hsame1).
      destruct (IH p1 this s1 Hopen1 Hs1 Hc1) as [_ Hrest].
      destruct (Hrest p' Hrun) as (Hopen' & s' & Hs' & Hact' & Hsame').
      split; [exact Hopen' | ]. exists s'. split; [exact Hs' | ].
      split; [by rewrite Hact', Hact1 | by eapply same_but_action_trans].
Qed.

Lemma RunMenuAt_enter_spec (this : NativeMenuWinPtr) (alignment : Z) (p : Process)
    (self : NativeMenuWin) :
  objects p !! this = Some self ->
  exists s1,
    UpdateStates (CreateHostWindow this self) = Some s1
    /\ same_config (CreateHostWindow this self) s1
    /\ RunMenuAt_enter this alignment p
       = Some (store this
                 (set_listeners_called_ (Some false)
                    (set_menu_action_ MENU_ACTION_NONE s1))
                 (set_open_native_menu_win_ (Some this) p)).
Proof.
  intros Hself.
  destruct (UpdateStates_fixed_point (CreateHostWindow this self))
    as (s1 & Hs1 & _ & Hcfg & _).
  exists s1. split; [exact Hs1 | ]. split; [exact Hcfg | ].
  unfold RunMenuAt_enter. rewrite Hself. cbn [mbind option_bind].
  rewrite Hs1. reflexivity.
Qed.

Lemma CreateHostWindow_config (this : NativeMenuWinPtr) (self : NativeMenuWin) :
  model_ (CreateHostWindow this self) = model_ self
  /\ owner_draw_ (CreateHostWindow this self) = owner_draw_ self
  /\ is_Some (host_window_ (CreateHostWindow this self)).
Proof.
  unfold CreateHostWindow. destruct (host_window_ self) eqn:Hhost; cbn.
  - rewrite Hhost. split; [ | split]; [reflexivity | reflexivity | by eexists].
  - split; [ | split]; [reflexivity | reflexivity | by eexists].
Qed.

(** [RunMenuAt] on the controller [self] at [this]: it completes when the
    OS delivers dispatchable events, and on return the open-instance slot
    is null and the controller holds the navigation the hook resolved. *)
Lemma RunMenuAt_spec (this : NativeMenuWinPtr) (point : Z * Z) (alignment : Z)
    (events : list LoopEvent) (p : Process) (self : NativeMenuWin) :
  objects p !! this = Some self ->
  (forallb dispatchable events = true ->
   is_Some (RunMenuAt this point alignment events p))
  /\ forall p',
       RunMenuAt this point alignment events p = Some p' ->
       open_native_menu_win_ p' = None
       /\ exists s',
            objects p' !! this = Some s'
            /\ menu_action_ s' = action_resolved events
            /\ owner_draw_ s' = owner_draw_ self
            /\ model_ s' = model_ self.
Proof.
  intros Hself.
  destruct (RunMenuAt_enter_spec this alignment p self Hself)
    as (s1 & _ & Hcfg & Henter).
  destruct (CreateHostWindow_config this self) as (Hm0 & Ho0 & _).
  destruct Hcfg as (Hm1 & Ho1 & _).
  unfold RunMenuAt. rewrite Henter. cbn [mbind option_bind].
  set (s_in := set_listeners_called_ (Some false) (set_menu_action_ MENU_ACTION_NONE s1)).
  set (p_in := store this s_in (set_open_native_menu_win_ (Some this) p)).
  assert (Hlook : objects p_in !! this = Some s_in) by apply lookup_insert_eq.
  rewrite Hlook. cbn [mbind option_bind].
  unfold TrackPopupMenuEx.
  destruct (modal_loop_spec (host_window_ s_in) events p_in this s_in)
    as [Htotal Hrun]; [reflexivity | exact Hlook | by eexists | ].
  split.
  - intros Hd. destruct (Htotal Hd) as [p1 Hp1]. rewrite Hp1. by eexists.
  - intros p' Hp'.
    destruct (modal_loop (host_window_ s_in) events p_in) as [p1|] eqn:Hp1;
      [ | discriminate].
    injection Hp' as <-.
    destruct (Hrun p1 eq_refl) as (_ & s' & Hs' & Hact & Hsame).
    split; [reflexivity | ]. exists s'. split; [exact Hs' | ].
    split; [exact Hact | ].
    destruct Hsame as (Hm & _ & Ho & _).
    split; [rewrite Ho; cbn; congruence | rewrite Hm; cbn; congruence].
Qed.

(** ** C8: the open-instance slot and the navigation action *)

(** C8.  For a controller [self] at [this]: when [RunMenuAt] calls into the
    modal loop, [menu_action_] is none and [open_native_menu_win_] is
    [this]; [RunMenuAt] returns whenever the events delivered in the loop
    can be dispatched; when it has returned, [open_native_menu_win_] is
    null and [GetMenuAction] is the navigation resolved by the hook during
    that run. *)
Theorem RunMenuAt_open_instance_and_action (this : NativeMenuWinPtr) (point : Z * Z)
    (alignment : Z) (events : list LoopEvent) (p : Process) (self : NativeMenuWin) :
  objects p !! this = Some self ->
  (exists p_in s_in,
     RunMenuAt_enter this alignment p = Some p_in
     /\ open_native_menu_win_ p_in = Some this
     /\ objects p_in !! this = Some s_in
     /\ menu_action_ s_in = MENU_ACTION_NONE)
  /\ (forallb dispatchable events = true ->
      is_Some (RunMenuAt this point alignment events p))
  /\ forall p',
       RunMenuAt this point alignment events p = Some p' ->
       open_native_menu_win_ p' = None
       /\ exists s',
            objects p' !! this = Some s'
            /\ GetMenuAction s' = action_resolved events.
Proof.
  intros Hself. split; [ | split].
  - destruct (RunMenuAt_enter_spec this alignment p self Hself) as (s1 & _ & _ & Henter).
    eexists _, _. split; [exact Henter | ]. split; [reflexivity | ].
    split; [apply lookup_insert_eq | reflexivity].
  - apply (RunMenuAt_spec this point alignment events p self Hself).
  - intros p' Hp'.
    destruct (proj2 (RunMenuAt_spec this point alignment events p self Hself) p' Hp')
      as (Hopen & s' & Hs' & Hact & _).
    split; [exact Hopen | ]. exists s'. split; [exact Hs' | exact Hact].
Qed.

(** ** C5: RunMenuAt while a menu is open *)

(** C5, amended.  [RunMenuAt] makes no check of the open-instance slot:
    called while the slot is set, it does what it does when the slot is
    null.  It enters the modal loop with the slot overwritten by this
    controller, returns whenever the events delivered can be dispatched,
    and leaves the slot null. *)
Theorem RunMenuAt_ignores_open_instance (this : NativeMenuWinPtr) (point : Z * Z)
    (alignment : Z) (events : list LoopEvent) (p : Process)
    (slot : option NativeMenuWinPtr) :
  RunMenuAt this point alignment events (set_open_native_menu_win_ slot p)
  = RunMenuAt this point alignment events (set_open_native_menu_win_ None p)
  /\ (forall p_in,
        RunMenuAt_enter this alignment (set_open_native_menu_win_ slot p) = Some p_in ->
        open_native_menu_win_ p_in = Some this)
  /\ (is_Some (objects p !! this) ->
      forallb dispatchable events = true ->
      exists p',
        RunMenuAt this point alignment events (set_open_native_menu_win_ slot p)
        = Some p'
        /\ open_native_menu_win_ p' = None).
Proof.
  split; [reflexivity | ]. split.
  - unfold RunMenuAt_enter. cbn [objects set_open_native_menu_win_].
    intros p_in. destruct (objects p !! this) as [self|]; [ | discriminate].
    cbn [mbind option_bind].
    destruct (UpdateStates (CreateHostWindow this self)); [ | discriminate].
    by intros [= <-].
  - intros [self Hself] Hd.
    destruct (RunMenuAt_spec this point alignment events
                (set_open_native_menu_win_ slot p) self Hself) as [Htotal Hret].
    destruct (Htotal Hd) as [p' Hp']. exists p'. split; [exact Hp' | ].
    by destruct (Hret p' Hp').
Qed.

(** C5, as stated, fails: with the controller at [[1]] registered as open,
    [RunMenuAt] on the controller at [[2]] is not rejected.  It runs the
    modal loop -- the listener is told the menu opened and the hook ends
    the menu on the right arrow key -- and returns with the slot null. *)
Lemma RunMenuAt_nested_not_rejected :
  open_native_menu_win_ nested_process = Some open_controller_ptr
  /\ (p' ← RunMenuAt second_controller_ptr (0, 0) 0 right_key_events nested_process;
      Some (open_native_menu_win_ p', notifications p'))
     = Some (None, [OnMenuOpened 7; EndMenu]).
Proof. split; [reflexivity | vm_compute; reflexivity]. Qed.

Lemma RunMenuAt_ignores_open_instance_witness :
  exists p',
    RunMenuAt second_controller_ptr (0, 0) 0 right_key_events
      (set_open_native_menu_win_ (Some open_controller_ptr) nested_process)
    = Some p'
    /\ open_native_menu_win_ p' = None.
Proof.
  apply (RunMenuAt_ignores_open_instance second_controller_ptr (0, 0) 0
           right_key_events nested_process (Some open_controller_ptr)).
  - eexists. vm_compute. reflexivity.
  - reflexivity.
Defined.

Lemma RunMenuAt_open_instance_and_action_witness :
  (exists p_in s_in,
     RunMenuAt_enter second_controller_ptr 0 nested_process = Some p_in
     /\ open_native_menu_win_ p_in = Some second_controller_ptr
     /\ objects p_in !! second_controller_ptr = Some s_in
     /\ menu_action_ s_in = MENU_ACTION_NONE)
  /\ is_Some (RunMenuAt second_controller_ptr (0, 0) 0 right_key_events nested_process)
  /\ forall p',
       RunMenuAt second_controller_ptr (0, 0) 0 right_key_events nested_process
       = Some p' ->
       open_native_menu_win_ p' = None
       /\ exists s',
            objects p' !! second_controller_ptr = Some s'
            /\ GetMenuAction s' = action_resolved right_key_events.
Proof.
  destruct (RunMenuAt_open_instance_and_action second_controller_ptr (0, 0) 0
              right_key_events nested_process second_controller)
    as (Henter & Htotal & Hreturn).
  - vm_compute. reflexivity.
  - split; [exact Henter | ]. split; [apply Htotal; reflexivity | exact Hreturn].
Defined.

(** ** C6: the owner-draw flag *)

Lemma UpdateMenuItemInfoForString_config (self self' : NativeMenuWin)
    (mii mii' : MENUITEMINFO) (i : Z) (text : wstring) :
  UpdateMenuItemInfoForString self mii i text = Some (self', mii') ->
  same_config self self' /\ menu_ self' = menu_ self.
Proof.
  destruct (vector_at (items_ self) i) as [d|] eqn:Hd.
  - rewrite (UpdateMenuItemInfoForString_Some self mii i text d Hd).
    intros [= <- _]. split; [unfold same_config; cbn; tauto | reflexivity].
  - by rewrite (UpdateMenuItemInfoForString_None self mii i text Hd).
Qed.

Lemma AddSeparatorItemAt_config (self self' : NativeMenuWin) (menu_index k : Z) :
  AddSeparatorItemAt self menu_index k = Some self' -> same_config self self'.
Proof.
  unfold AddSeparatorItemAt.
  destruct (vector_insert (items_ self) k new_ItemData); [ | discriminate].
  intros [= <-]. unfold same_config. cbn. tauto.
Qed.

Lemma AddMenuItemAt_config (new_Menu2 : Z -> option Menu2) (this : NativeMenuWinPtr)
    (self self' : NativeMenuWin) (menu_index k : Z) :
  AddMenuItemAt new_Menu2 this self menu_index k = Some self' ->
  same_config self self'.
Proof.
  unfold AddMenuItemAt.
  match goal with
  | |- (?pre ≫= _) = _ -> _ => destruct pre as [[item_data mii]|]; [ | discriminate]
  end.
  cbn [mbind option_bind].
  match goal with
  | |- (?ins ≫= _) = _ -> _ => destruct ins as [items|]; [ | discriminate]
  end.
  cbn [mbind option_bind].
  match goal with
  | |- (?upd ≫= _) = _ -> _ => destruct upd as [[s1 mii1]|] eqn:Hupd; [ | discriminate]
  end.
  cbn [mbind option_bind]. intros [= <-].
  apply UpdateMenuItemInfoForString_config in Hupd as [Hcfg _].
  eapply same_config_trans; [ | eapply same_config_trans; [exact Hcfg | ]];
    unfold same_config; cbn; tauto.
Qed.

Lemma Rebuild_loop_config (new_Menu2 : Z -> option Menu2) (this : NativeMenuWinPtr)
    (n : nat) :
  forall (menu_index : Z) (self self' : NativeMenuWin),
    Rebuild_loop new_Menu2 this n menu_index self = Some self' ->
    same_config self self'.
Proof.
  induction n as [|n IH]; intros menu_index self self'; cbn [Rebuild_loop].
  - intros [= <-]. apply same_config_refl.
  - match goal with
    | |- (?step ≫= _) = _ -> _ => destruct step as [s1|] eqn:Hstep; [ | discriminate]
    end.
    cbn [mbind option_bind]. intros Hloop. apply IH in Hloop.
    eapply same_config_trans; [ | exact Hloop].
    case_decide.
    + by eapply AddSeparatorItemAt_config.
    + by eapply AddMenuItemAt_config.
Qed.

Lemma Rebuild_owner_draw (need : bool) (this : NativeMenuWinPtr)
    (self self' : NativeMenuWin) :
  Rebuild need this self = Some self' ->
  owner_draw_ self' = HasIcons (model_ self) || owner_draw_ self.
Proof.
  intros Hloop. Rebuild_to_loop Hloop.
  apply Rebuild_loop_config in Hloop as (_ & -> & _).
  unfold ResetNativeMenu. destruct (IsWindow (system_menu_for_ self)); reflexivity.
Qed.

Lemma do_call_owner_draw (need : bool) (this : NativeMenuWinPtr) (c : Call)
    (p p' : Process) (self : NativeMenuWin) :
  objects p !! this = Some self ->
  owner_draw_ self = true ->
  do_call need this c p = Some p' ->
  exists self', objects p' !! this = Some self' /\ owner_draw_ self' = true.
Proof.
  intros Hself Hdraw. destruct c as [ | | point alignment events | new_state];
    cbn [do_call].
  - rewrite Hself. cbn [mbind option_bind].
    destruct (Rebuild need this self) as [s1|] eqn:Hre; [ | discriminate].
    intros [= <-]. exists s1. split; [apply lookup_insert_eq | ].
    rewrite (Rebuild_owner_draw _ _ _ _ Hre), Hdraw. apply orb_true_r.
  - rewrite Hself. cbn [mbind option_bind].
    destruct (UpdateStates_fixed_point self) as (s1 & -> & _ & (_ & Ho & _) & _).
    intros [= <-]. exists s1. split; [apply lookup_insert_eq | congruence].
  - intros Hrun.
    destruct (proj2 (RunMenuAt_spec this point alignment events p self Hself) p' Hrun)
      as (_ & s' & Hs' & _ & Ho & _).
    exists s'. split; [exact Hs' | congruence].
  - rewrite Hself. intros [= <-]. eexists. split; [apply lookup_insert_eq | exact Hdraw].
Qed.

(** C6.  [owner_draw_] is initialised by the constructor from the font
    override (and only for a controller that wraps no system menu);
    [Rebuild] raises it whenever the model reports icons and otherwise
    keeps it; and once it is true, no run of [Rebuild], [UpdateStates] and
    [RunMenuAt] calls, the model changing freely in between, leaves it
    false. *)
Theorem owner_draw_is_sticky (need : bool) (this : NativeMenuWinPtr) :
  (forall model system_menu_for,
     owner_draw_ (NativeMenuWin_ctor need model system_menu_for)
     = need && is_NULL system_menu_for)
  /\ (forall self self',
        Rebuild need this self = Some self' ->
        (HasIcons (model_ self) = true -> owner_draw_ self' = true)
        /\ (HasIcons (model_ self) = false -> owner_draw_ self' = owner_draw_ self))
  /\ forall (calls : list Call) (p p' : Process) (self : NativeMenuWin),
       objects p !! this = Some self ->
       owner_draw_ self = true ->
       do_calls need this calls p = Some p' ->
       exists self', objects p' !! this = Some self' /\ owner_draw_ self' = true.
Proof.
  split; [reflexivity | ]. split.
  - intros self self' Hre. rewrite (Rebuild_owner_draw _ _ _ _ Hre).
    split; intros ->; reflexivity.
  - induction calls as [|c calls IH]; intros p p' self Hself Hdraw; cbn [do_calls].
    + intros [= <-]. exists self. split; assumption.
    + destruct (do_call need this c p) as [p1|] eqn:Hcall; [ | discriminate].
      cbn [mbind option_bind].
      destruct (do_call_owner_draw need this c p p1 self Hself Hdraw Hcall)
        as (s1 & Hs1 & Hdraw1).
      by apply (IH p1 p' s1).
Qed.

Lemma owner_draw_is_sticky_witness :
  (HasIcons icon_model = true ->
   owner_draw_ (default icon_controller
                  (Rebuild true open_controller_ptr
                     (NativeMenuWin_ctor false icon_model None))) = true)
  /\ exists self',
       objects (default icon_process
                  (do_calls true open_controller_ptr icon_calls icon_process))
         !! open_controller_ptr = Some self'
       /\ owner_draw_ self' = true.
Proof.
  destruct (owner_draw_is_sticky true open_controller_ptr) as (_ & Hraise & Hkeep).
  split.
  - apply (Hraise (NativeMenuWin_ctor false icon_model None)). vm_compute. reflexivity.
  - apply (Hkeep icon_calls icon_process _ icon_controller).
    + vm_compute. reflexivity.
    + reflexivity.
    + vm_compute. reflexivity.
Defined.

(** ** C2: the closed notification comes after the command *)

Lemma RunAllPending_spec (p : Process) :
  notifications (RunAllPending p)
  = notifications p ++ map task_notification (pending_tasks p)
  /\ pending_tasks (RunAllPending p) = [].
Proof.
  unfold RunAllPending.
  assert (Hgen : forall ts q,
             notifications (foldl (fun p t => run_task t p) q ts)
             = notifications q ++ map task_notification ts
             /\ pending_tasks (foldl (fun p t => run_task t p) q ts)
                = pending_tasks q).
  { induction ts as [|[host] ts IH]; intros q; cbn [foldl map].
    - by rewrite app_nil_r.
    - destruct (IH (run_task (OnMenuClosed_task host) q)) as [-> ->].
      cbn. by rewrite <- app_assoc. }
  destruct (Hgen (pending_tasks p) (set_pending_tasks [] p)) as [-> ->].
  split; reflexivity.
Qed.

Lemma existsb_MenuClosed_opened (ls : list MenuListenerPtr) :
  existsb is_MenuClosed (map OnMenuOpened ls) = false.
Proof. induction ls as [|l ls IH]; [reflexivity | exact IH]. Qed.

(** Closes a case in which the event was handled and left [inline] in the
    notifications and [posted] in the queue. *)
Ltac handled_with inline posted :=
  intros [= <-]; exists inline, posted; cbn; rewrite ?app_nil_r;
  repeat split; reflexivity.

Ltac handled_quietly := handled_with (@nil Notification) (@nil Task).

(** An event of the modal loop makes no [MenuClosed] call inline; it adds
    notifications and tasks behind those that are there. *)
Lemma loop_step_notifications (host : option MenuHostWindow) (e : LoopEvent)
    (p p' : Process) :
  loop_step host e p = Some p' ->
  exists inline posted,
    notifications p' = notifications p ++ inline
    /\ existsb is_MenuClosed inline = false
    /\ pending_tasks p' = pending_tasks p ++ posted.
Proof.
  destruct e as [msg live | message w_param l_param]; cbn [loop_step].
  - unfold MenuMessageHook.
    destruct (open_native_menu_win_ p) as [this_ptr|]; [ | discriminate].
    cbn [mbind option_bind].
    destruct (objects p !! this_ptr) as [this|]; [ | discriminate].
    cbn [mbind option_bind].
    destruct (listeners_called_ this) as [called|]; [ | discriminate].
    cbn [mbind option_bind].
    set (sp := if negb called then _ else _).
    assert (Hsp : exists ls, notifications sp.2 = notifications p ++ map OnMenuOpened ls
                             /\ pending_tasks sp.2 = pending_tasks p).
    { unfold sp. destruct called; cbn [negb snd].
      - exists []. by rewrite app_nil_r.
      - exists (listeners_ this).
        by destruct (notify_listeners_objects (listeners_ this) p) as (_ & _ & -> & ->). }
    destruct sp as [s1 p1]. cbn [snd] in Hsp. destruct Hsp as (ls & Hn & Ht).
    assert (Hquiet : forall q,
               notifications q = notifications p1 -> pending_tasks q = pending_tasks p1 ->
               exists inline posted,
                 notifications q = notifications p ++ inline
                 /\ existsb is_MenuClosed inline = false
                 /\ pending_tasks q = pending_tasks p ++ posted).
    { intros q Hqn Hqt. exists (map OnMenuOpened ls), [].
      rewrite Hqn, Hqt, Hn, Ht, app_nil_r.
      split; [reflexivity | ]. split; [apply existsb_MenuClosed_opened | reflexivity]. }
    destruct (message msg =? WM_KEYDOWN).
    + destruct (GetHighlightedMenuItemInfo live false false) as [[found hp] hs].
      destruct (key_action msg hp hs).
      * intros [= <-]. exists (map OnMenuOpened ls ++ [EndMenu]), [].
        cbn. rewrite Hn, Ht, <- app_assoc, app_nil_r. split; [reflexivity | ].
        split; [ | reflexivity].
        by rewrite existsb_app, existsb_MenuClosed_opened.
      * intros [= <-]. by apply Hquiet.
    + intros [= <-]. by apply Hquiet.
  - unfold MenuHostWindowProc. destruct host as [host|]; [ | handled_quietly].
    unfold ProcessWindowMessage, OnMenuCommand, OnMenuSelect.
    destruct (message =? WM_MENUCOMMAND).
    { destruct (GetNativeMenuWinFromHMENU (HMENU_of_LPARAM l_param)) as [c|];
        [ | discriminate].
      handled_with [ActivatedAt c (int_of_WPARAM w_param)] (@nil Task). }
    destruct (message =? WM_MENUSELECT).
    { destruct (HMENU_of_LPARAM l_param) as [m|]; [ | handled_quietly].
      destruct (0 <=? _); [ | handled_quietly].
      destruct (GetNativeMenuWinFromHMENU (Some m)) as [c|]; [ | discriminate].
      handled_with
        [HighlightChangedTo c (GetMenuItemIndexFromWPARAM (Some m) (LOWORD w_param))]
        (@nil Task). }
    destruct (message =? WM_MEASUREITEM); [handled_quietly | ].
    destruct (message =? WM_DRAWITEM); [handled_quietly | ].
    destruct (message =? WM_EXITMENULOOP);
      [handled_with (@nil Notification) [OnMenuClosed_task host] | handled_quietly].
Qed.

Lemma modal_loop_notifications (host : option MenuHostWindow)
    (events : list LoopEvent) :
  forall p p' : Process,
    modal_loop host events p = Some p' ->
    exists inline posted,
      notifications p' = notifications p ++ inline
      /\ existsb is_MenuClosed inline = false
      /\ pending_tasks p' = pending_tasks p ++ posted.
Proof.
  induction events as [|e events IH]; intros p p'; cbn [modal_loop].
  - intros [= <-]. exists [], []. rewrite !app_nil_r. repeat split; reflexivity.
  - destruct (loop_step host e p) as [p1|] eqn:Hstep; [ | discriminate].
    cbn [mbind option_bind]. intros Hrest.
    destruct (loop_step_notifications _ _ _ _ Hstep) as (in1 & po1 & Hn1 & Hc1 & Ht1).
    destruct (IH _ _ Hrest) as (in2 & po2 & Hn2 & Hc2 & Ht2).
    exists (in1 ++ in2), (po1 ++ po2).
    rewrite Hn2, Hn1, Ht2, Ht1, !app_assoc. split; [reflexivity | ].
    split; [ | reflexivity]. by rewrite existsb_app, Hc1, Hc2.
Qed.

(** C2.  The exit handler notifies nothing inline: it posts the closing as
    a task.  So when the OS delivers WM_EXITMENULOOP and then WM_MENUCOMMAND
    within one call of the modal loop, the notifications made when the loop
    returns end with [ActivatedAt], and [MenuClosed] follows once the
    message loop runs its queue.  More generally, whatever the events of
    the loop, no [MenuClosed] is made before the loop returns, and the
    queue adds its notifications behind all of those made in the loop. *)
Theorem MenuClosed_follows_ActivatedAt (host : MenuHostWindow) (p : Process)
    (tracked : HMENU) (flags : UINT) (x y : Z) :
  (forall w_exit l_exit w_cmd menu receiver,
     GetNativeMenuWinFromHMENU menu = Some receiver ->
     exists p1,
       TrackPopupMenuEx tracked flags x y (Some host)
         [WindowMessage WM_EXITMENULOOP w_exit l_exit;
          WindowMessage WM_MENUCOMMAND w_cmd (lparam_HMENU menu)] p = Some p1
       /\ notifications p1
          = notifications p ++ [ActivatedAt receiver (int_of_WPARAM w_cmd)]
       /\ pending_tasks p1 = pending_tasks p ++ [OnMenuClosed_task host]
       /\ notifications (RunAllPending p1)
          = notifications p ++ [ActivatedAt receiver (int_of_WPARAM w_cmd)]
            ++ map task_notification (pending_tasks p)
            ++ [MenuClosed (parent_ host)])
  /\ (forall w_exit l_exit l_result,
        exists p1,
          ProcessWindowMessage host WM_EXITMENULOOP w_exit l_exit l_result p
          = Some (true, l_result, p1)
          /\ notifications p1 = notifications p
          /\ pending_tasks p1 = pending_tasks p ++ [OnMenuClosed_task host])
  /\ forall events p1,
       TrackPopupMenuEx tracked flags x y (Some host) events p = Some p1 ->
       exists inline,
         notifications p1 = notifications p ++ inline
         /\ existsb is_MenuClosed inline = false
         /\ notifications (RunAllPending p1)
            = notifications p ++ inline ++ map task_notification (pending_tasks p1).
Proof.
  split; [ | split].
  - intros w_exit l_exit w_cmd menu receiver Hreceiver.
    exists (notify (ActivatedAt receiver (int_of_WPARAM w_cmd))
              (PostTask (OnMenuClosed_task host) p)).
    split.
    + destruct menu as [[style data items]|]; cbn in Hreceiver; [ | discriminate].
      subst data. reflexivity.
    + split; [reflexivity | ]. split; [reflexivity | ].
      destruct (RunAllPending_spec
                  (notify (ActivatedAt receiver (int_of_WPARAM w_cmd))
                     (PostTask (OnMenuClosed_task host) p))) as [-> _].
      cbn [notifications pending_tasks notify PostTask set_pending_tasks].
      rewrite map_app, <- !app_assoc. reflexivity.
  - intros w_exit l_exit l_result. eexists. split; [reflexivity | ].
    split; reflexivity.
  - intros events p1 Hrun.
    destruct (modal_loop_notifications _ _ _ _ Hrun)
      as (inline & posted & Hn & Hc & _).
    exists inline. split; [exact Hn | ]. split; [exact Hc | ].
    destruct (RunAllPending_spec p1) as [-> _]. by rewrite Hn, <- app_assoc.
Qed.

Lemma MenuClosed_follows_ActivatedAt_witness :
  exists p1,
    TrackPopupMenuEx ex_built_menu TPM_RECURSE 0 0 (Some ex_host)
      [WindowMessage WM_EXITMENULOOP 0 (lparam_other 0);
       WindowMessage WM_MENUCOMMAND 0 (lparam_HMENU ex_command_menu)] empty_process
    = Some p1
    /\ notifications p1
       = notifications empty_process ++ [ActivatedAt [1; 2] (int_of_WPARAM 0)]
    /\ pending_tasks p1 = pending_tasks empty_process ++ [OnMenuClosed_task ex_host]
    /\ notifications (RunAllPending p1)
       = notifications empty_process ++ [ActivatedAt [1; 2] (int_of_WPARAM 0)]
         ++ map task_notification (pending_tasks empty_process)
         ++ [MenuClosed (parent_ ex_host)].
Proof.
  apply (proj1 (MenuClosed_follows_ActivatedAt ex_host empty_process
                  ex_built_menu TPM_RECURSE 0 0)).
  reflexivity.
Defined.

Lemma GetMenuItemIndexFromWPARAM_resolves_witness :
  GetMenuItemIndexFromWPARAM ex_command_menu 7 = 0
  /\ GetMenuItemIndexFromWPARAM ex_built_menu 2 = 2.
Proof.
  split.
  - apply (proj1 (GetMenuItemIndexFromWPARAM_resolves ex_command_menu 7)).
    + vm_compute. reflexivity.
    + intros j Hj. lia.
  - apply (proj2 (GetMenuItemIndexFromWPARAM_resolves ex_built_menu 2)).
    + vm_compute. discriminate.
    + intros k.
      destruct (Z.eq_dec k 0) as [->|H0]; [vm_compute; discriminate | ].
      destruct (Z.eq_dec k 1) as [->|H1]; [vm_compute; discriminate | ].
      destruct (Z.eq_dec k 2) as [->|H2]; [vm_compute; discriminate | ].
      rewrite item_at_lookup. destruct (Z.ltb_spec k 0); [discriminate | ].
      assert (length (items_of ex_built_menu) = 3%nat) as Hlen
        by (vm_compute; reflexivity).
      rewrite (proj2 (lookup_ge_None _ _)); [discriminate | lia].
    + vm_compute. split; [discriminate | reflexivity].
Defined.

(** ** The spec's scenarios, by evaluation *)

(** Command "A" with id 1, a separator, Submenu "B" with one child: after
    [Rebuild] the registry has length 3, entry 1 is a separator
    placeholder, and entry 2 owns a controller for B's submenu model. *)
Example Rebuild_scenario :
  length (items_ ex_rebuilt) = 3%nat
  /\ items_ ex_rebuilt !! 1%nat = Some new_ItemData
  /\ (m2_model_ <$> (items_ ex_rebuilt !! 2%nat ≫= submenu)) = Some ex_submenu_model
  /\ map (fun it : MENUITEM => (fType it, wID it, dwTypeData it))
       (items_of ex_built_menu)
     = [(MFT_STRING, 1, Some (L "A")); (MFT_SEPARATOR, 0, None);
        (MFT_STRING, 0, Some (L "B"))].
Proof. repeat split; vm_compute; reflexivity. Qed.

(** The fragility the spec notes: the position 1 of a highlighted item is
    taken for the command id 1 of the item at position 0. *)
Example GetMenuItemIndexFromWPARAM_position_taken_for_id :
  GetMenuItemIndexFromWPARAM ex_built_menu 1 = 0.
Proof. vm_compute. reflexivity. Qed.

(** The right arrow key with nothing highlighted resolves to the next
    menu, whatever action an earlier run left in the controller. *)
Example RunMenuAt_resolves_next :
  action_resolved right_key_events = MENU_ACTION_NEXT
  /\ (p' ← RunMenuAt second_controller_ptr (0, 0) 0 right_key_events
             (store second_controller_ptr
                (set_menu_action_ MENU_ACTION_PREVIOUS second_controller)
                nested_process);
      s ← objects p' !! second_controller_ptr;
      Some (GetMenuAction s)) = Some MENU_ACTION_NEXT.
Proof. split; vm_compute; reflexivity. Qed.

(** [UpdateStates] pushes the model's state: once the model disables and
    checks "A", the OS item is disabled and checked. *)
Example UpdateStates_pushes_state :
  (s ← UpdateStates
         (set_model_
            (list_model false
               [mkModelItem TYPE_COMMAND 1 (L "A") false None true false None])
            ex_rebuilt);
   fState <$> item_at (menu_ s) 0) = Some (Z.lor MFS_DISABLED MFS_CHECKED).
Proof. vm_compute. reflexivity. Qed.

(** * Further properties of the code *)

(** ** Listeners *)

Lemma erase_first_absent (listener : MenuListenerPtr) (ls : list MenuListenerPtr) :
  listener ∉ ls -> erase_first listener ls = ls.
Proof.
  induction ls as [|x ls IH]; intros Hnot; [reflexivity | ].
  apply not_elem_of_cons in Hnot as [Hx Hls]. cbn [erase_first].
  destruct (Z.eqb_spec x listener) as [->|_]; [done | ]. by rewrite IH.
Qed.

Lemma erase_first_middle (listener : MenuListenerPtr) (pre post : list MenuListenerPtr) :
  listener ∉ pre -> erase_first listener (pre ++ listener :: post) = pre ++ post.
Proof.
  induction pre as [|x pre IH]; intros Hnot; cbn [erase_first app].
  - by rewrite Z.eqb_refl.
  - apply not_elem_of_cons in Hnot as [Hx Hpre].
    destruct (Z.eqb_spec x listener) as [->|_]; [done | ]. by rewrite IH.
Qed.

Lemma set_listeners_same (self : NativeMenuWin) :
  set_listeners_ (listeners_ self) self = self.
Proof. by destruct self. Qed.

(** X1.  [RemoveMenuListener] erases the first registration of the listener
    and nothing else: a listener that is not registered leaves the
    controller as it is; of a listener registered several times the later
    registrations stay, in place; and removing a listener right after
    adding it restores the controller, provided it was not registered
    before. *)
Theorem RemoveMenuListener_erases_first_registration (self : NativeMenuWin)
    (listener : MenuListenerPtr) :
  (listener ∉ listeners_ self -> RemoveMenuListener self listener = self)
  /\ (forall pre post,
        listeners_ self = pre ++ listener :: post -> listener ∉ pre ->
        RemoveMenuListener self listener = set_listeners_ (pre ++ post) self)
  /\ (listener ∉ listeners_ self ->
      RemoveMenuListener (AddMenuListener self listener) listener = self).
Proof.
  unfold RemoveMenuListener. split; [ | split].
  - intros Hnot. rewrite erase_first_absent by exact Hnot. apply set_listeners_same.
  - intros pre post -> Hnot. by rewrite erase_first_middle.
  - intros Hnot. cbn [AddMenuListener listeners_ set_listeners_].
    rewrite erase_first_middle, app_nil_r by exact Hnot. by destruct self.
Qed.

(** ** The highlighted item and the keyboard hook *)

(** Induction over a menu and the submenus its items open. *)
Lemma MENU_induction (P : MENU -> Prop) :
  (forall menu,
     Forall (fun it : MENUITEM => forall sub, hSubMenu it = Some sub -> P sub)
       (menu_items menu) ->
     P menu) ->
  forall menu, P menu.
Proof.
  intros Hstep. fix IH 1. intros menu. apply Hstep.
  destruct menu as [? ? items]. cbn [menu_items].
  revert items. fix IHitems 1. intros [|it items].
  - constructor.
  - constructor; [ | apply IHitems].
    intros sub Hsub. destruct it as [? ? ? [s|] ? ?]; [ | discriminate].
    injection Hsub as <-. apply IH.
Qed.

(** What [GetHighlightedMenuItemInfo] finds, by the highlighted items from
    the menu downwards. *)
Lemma GetHighlightedMenuItemInfo_rec_chain (menu : MENU) :
  forall has_parent has_submenu : bool,
    GetHighlightedMenuItemInfo_rec menu has_parent has_submenu
    = (negb (bool_decide (highlight_chain menu = [])),
       has_parent || (2 <=? length (highlight_chain menu))%nat,
       has_submenu || from_option opens_submenu false (last (highlight_chain menu))).
Proof.
  induction menu as [menu IH] using MENU_induction. intros hp hs.
  destruct menu as [style data items].
  cbn [GetHighlightedMenuItemInfo_rec highlight_chain menu_items] in *.
  induction items as [|it items IHitems].
  - cbn. by rewrite !orb_false_r.
  - apply Forall_cons in IH as [Hit Hitems]. specialize (IHitems Hitems).
    unfold is_highlighted, opens_submenu in *.
    destruct (has_flag (menu_state it) MF_HILITE) eqn:Hhi; [ | exact IHitems].
    destruct (has_flag (menu_state it) MF_POPUP) eqn:Hpop.
    + destruct (hSubMenu it) as [sub|] eqn:Hsub.
      * rewrite (Hit sub eq_refl hp hs).
        destruct (highlight_chain sub) as [|x chain] eqn:Hchain.
        -- cbn. by rewrite Hpop, orb_false_r, orb_true_r.
        -- cbn [bool_decide negb]. rewrite bool_decide_eq_false_2 by discriminate.
           cbn [negb length]. rewrite orb_true_r.
           f_equal.
      * cbn. by rewrite Hpop, orb_false_r, orb_true_r.
    + cbn. by rewrite Hpop, !orb_false_r.
Qed.

Lemma key_action_navigation (msg : MSG) (live : HMENU) :
  (if message msg =? WM_KEYDOWN then
     let '(_, has_parent, has_submenu) := GetHighlightedMenuItemInfo live false false in
     key_action msg has_parent has_submenu
   else None) = navigation_asked msg live.
Proof.
  unfold navigation_asked, key_action, highlight_chain_of, GetHighlightedMenuItemInfo.
  destruct (message msg =? WM_KEYDOWN); [ | reflexivity]. cbn [negb].
  destruct live as [m|]; [ | reflexivity].
  rewrite GetHighlightedMenuItemInfo_rec_chain. reflexivity.
Qed.

Lemma set_called_action_same (s : NativeMenuWin) (called : bool) :
  listeners_called_ s = Some called ->
  set_listeners_called_ (Some called) (set_menu_action_ (menu_action_ s) s) = s.
Proof. destruct s. cbn. by intros ->. Qed.

(** The hook, run while [this] is the open controller: everything it
    does. *)
Lemma MenuMessageHook_exact (msg : MSG) (live : HMENU) (p : Process)
    (this : NativeMenuWinPtr) (s : NativeMenuWin) (called : bool) :
  open_native_menu_win_ p = Some this ->
  objects p !! this = Some s ->
  listeners_called_ s = Some called ->
  exists p',
    MenuMessageHook msg live p = Some p'
    /\ open_native_menu_win_ p' = Some this
    /\ objects p'
       = <[this := set_listeners_called_ (Some true)
                     (set_menu_action_
                        (default (menu_action_ s) (navigation_asked msg live)) s)]>
           (objects p)
    /\ pending_tasks p' = pending_tasks p
    /\ notifications p'
       = notifications p
         ++ (if called then [] else map OnMenuOpened (listeners_ s))
         ++ match navigation_asked msg live with Some _ => [EndMenu] | None => [] end.
Proof.
  intros Hopen Hs Hcalled. unfold MenuMessageHook.
  rewrite Hopen. cbn [mbind option_bind]. rewrite Hs. cbn [mbind option_bind].
  rewrite Hcalled. cbn [mbind option_bind].
  rewrite <- key_action_navigation.
  set (sp := if negb called then _ else _).
  assert (Hsp : sp.1 = set_listeners_called_ (Some true) s
                /\ objects sp.2 = objects p
                /\ open_native_menu_win_ sp.2 = Some this
                /\ pending_tasks sp.2 = pending_tasks p
                /\ notifications sp.2
                   = notifications p
                     ++ (if called then [] else map OnMenuOpened (listeners_ s))).
  { unfold sp. destruct called; cbn [negb fst snd].
    - rewrite app_nil_r. destruct s; cbn in *. by rewrite Hcalled.
    - destruct (notify_listeners_objects (listeners_ s) p) as (-> & -> & -> & ->).
      done. }
  destruct sp as [s1 p1]. cbn [fst snd] in Hsp.
  destruct Hsp as (-> & Hobj & Hopen1 & Htasks & Hnotes).
  assert (Hplain : forall action,
             set_listeners_called_ (Some true) (set_menu_action_ action s)
             = set_menu_action_ action (set_listeners_called_ (Some true) s))
    by reflexivity.
  destruct (message msg =? WM_KEYDOWN).
  - destruct (GetHighlightedMenuItemInfo live false false) as [[found hp] hs].
    destruct (key_action msg hp hs) as [action|]; cbn [default from_option].
    + eexists. split; [reflexivity | ].
      cbn [notify store set_objects open_native_menu_win_ objects pending_tasks
             notifications].
      rewrite Hobj, Hnotes, Hplain, <- app_assoc. done.
    + eexists. split; [reflexivity | ].
      cbn [store set_objects open_native_menu_win_ objects pending_tasks notifications].
      rewrite Hobj, Hnotes, app_nil_r.
      replace (set_menu_action_ (menu_action_ s) s) with s by (by destruct s). done.
  - cbn [default from_option]. eexists. split; [reflexivity | ].
    cbn [store set_objects open_native_menu_win_ objects pending_tasks notifications].
    rewrite Hobj, Hnotes, app_nil_r.
    replace (set_menu_action_ (menu_action_ s) s) with s by (by destruct s). done.
Qed.

(** X3.  [GetHighlightedMenuItemInfo] answers whether the menu has a
    highlighted item; it raises [has_parent] exactly when the highlight
    continues into a submenu, and [has_submenu] exactly when the last
    highlighted item on the way down opens a submenu.  It never clears a
    flag, and a menu without highlighted item, like the null handle, gives
    false and leaves both flags alone. *)
Theorem GetHighlightedMenuItemInfo_follows_highlight (menu : HMENU)
    (has_parent has_submenu : bool) :
  let chain := highlight_chain_of menu in
  GetHighlightedMenuItemInfo menu has_parent has_submenu
  = (negb (bool_decide (chain = [])),
     has_parent || (2 <=? length chain)%nat,
     has_submenu || from_option opens_submenu false (last chain)).
Proof.
  destruct menu as [m|]; cbn [highlight_chain_of GetHighlightedMenuItemInfo].
  - apply GetHighlightedMenuItemInfo_rec_chain.
  - cbn. by rewrite !orb_false_r.
Qed.

(** X4.  The keyboard hook, run for the open controller.  A message other
    than a key press, and a key other than the left and right arrows,
    leaves [menu_action_] alone and does not end the menu.  The left arrow
    key records MENU_ACTION_PREVIOUS and calls [EndMenu] unless the
    highlight is inside a submenu; the right arrow key records
    MENU_ACTION_NEXT and calls [EndMenu] unless the highlight is inside a
    submenu or on an item that opens one.  The listeners are told that the
    menu opened on the first run of the hook only, before [EndMenu]. *)
Theorem MenuMessageHook_navigates (msg : MSG) (live : HMENU) (p : Process)
    (this : NativeMenuWinPtr) (s : NativeMenuWin) (called : bool) :
  open_native_menu_win_ p = Some this ->
  objects p !! this = Some s ->
  listeners_called_ s = Some called ->
  exists p' s',
    MenuMessageHook msg live p = Some p'
    /\ objects p' !! this = Some s'
    /\ GetMenuAction s' = default (GetMenuAction s) (navigation_asked msg live)
    /\ listeners_called_ s' = Some true
    /\ notifications p'
       = notifications p
         ++ (if called then [] else map OnMenuOpened (listeners_ s))
         ++ match navigation_asked msg live with Some _ => [EndMenu] | None => [] end.
Proof.
  intros Hopen Hs Hcalled.
  destruct (MenuMessageHook_exact msg live p this s called Hopen Hs Hcalled)
    as (p' & Hhook & _ & Hobj & _ & Hnotes).
  eexists p', _. split; [exact Hhook | ].
  split; [rewrite Hobj; apply lookup_insert_eq | ].
  split; [reflexivity | ]. split; [reflexivity | exact Hnotes].
Qed.

(** ** The modal loop, event by event *)

Lemma action_step_navigation (action : MenuAction) (msg : MSG) (live : HMENU) :
  action_step action (HookCall msg live) = default action (navigation_asked msg live).
Proof.
  rewrite <- key_action_navigation. cbn [action_step].
  destruct (message msg =? WM_KEYDOWN); [ | reflexivity].
  by destruct (GetHighlightedMenuItemInfo live false false) as [[found hp] hs].
Qed.

Lemma opened_listeners_map (ls : list MenuListenerPtr) :
  opened_listeners (map OnMenuOpened ls) = ls.
Proof. induction ls as [|l ls IH]; [reflexivity | ]. cbn. by f_equal. Qed.

Lemma posted_tasks_app (host : option MenuHostWindow) (es1 es2 : list LoopEvent) :
  posted_tasks host (es1 ++ es2) = posted_tasks host es1 ++ posted_tasks host es2.
Proof. destruct host; [apply flat_map_app | reflexivity]. Qed.

(** A window message leaves the controllers and the open-instance slot
    alone; it adds at most one notification, which is no [OnMenuOpened],
    and the task of WM_EXITMENULOOP. *)
Lemma MenuHostWindowProc_exact (host : option MenuHostWindow) (message : UINT)
    (w_param : WPARAM) (l_param : LPARAM) (p p' : Process) (l_result : Z) :
  MenuHostWindowProc host message w_param l_param p = Some (l_result, p') ->
  objects p' = objects p
  /\ open_native_menu_win_ p' = open_native_menu_win_ p
  /\ pending_tasks p'
     = pending_tasks p ++ posted_tasks host [WindowMessage message w_param l_param]
  /\ exists added,
       notifications p' = notifications p ++ added
       /\ opened_listeners added = []
       /\ EndMenu_calls added = 0%nat.
Proof.
  unfold MenuHostWindowProc, posted_tasks.
  destruct host as [host|].
  2:{ intros [= _ <-]. rewrite app_nil_r. repeat split. exists [].
      by rewrite app_nil_r. }
  cbn [flat_map]. rewrite app_nil_r.
  unfold ProcessWindowMessage, OnMenuCommand, OnMenuSelect.
  assert (Hquiet : forall q : Process,
             q = p ->
             objects q = objects p
             /\ open_native_menu_win_ q = open_native_menu_win_ p
             /\ pending_tasks q = pending_tasks p ++ []
             /\ exists added,
                  notifications q = notifications p ++ added
                  /\ opened_listeners added = []
                  /\ EndMenu_calls added = 0%nat).
  { intros q ->. rewrite app_nil_r. repeat split. exists []. by rewrite app_nil_r. }
  assert (Hone : forall n : Notification,
             opened_listeners [n] = [] -> EndMenu_calls [n] = 0%nat ->
             objects (notify n p) = objects p
             /\ open_native_menu_win_ (notify n p) = open_native_menu_win_ p
             /\ pending_tasks (notify n p) = pending_tasks p ++ []
             /\ exists added,
                  notifications (notify n p) = notifications p ++ added
                  /\ opened_listeners added = []
                  /\ EndMenu_calls added = 0%nat).
  { intros n Hn1 Hn2. rewrite app_nil_r. repeat split. by exists [n]. }
  destruct (Z.eqb_spec message WM_MENUCOMMAND) as [->|Hcmd].
  { destruct (GetNativeMenuWinFromHMENU (HMENU_of_LPARAM l_param)) as [c|];
      [ | discriminate].
    cbn. intros [= _ <-]. by apply Hone. }
  destruct (Z.eqb_spec message WM_MENUSELECT) as [->|Hsel].
  { destruct (HMENU_of_LPARAM l_param) as [m|]; [ | cbn; intros [= _ <-]; by apply Hquiet].
    destruct (0 <=? _); [ | cbn; intros [= _ <-]; by apply Hquiet].
    destruct (GetNativeMenuWinFromHMENU (Some m)) as [c|]; [ | discriminate].
    cbn. intros [= _ <-]. by apply Hone. }
  destruct (Z.eqb_spec message WM_MEASUREITEM) as [->|Hmeasure];
    [cbn; intros [= _ <-]; by apply Hquiet | ].
  destruct (Z.eqb_spec message WM_DRAWITEM) as [->|Hdraw];
    [cbn; intros [= _ <-]; by apply Hquiet | ].
  destruct (Z.eqb_spec message WM_EXITMENULOOP) as [->|Hexit].
  - cbn. intros [= _ <-]. repeat split. exists []. by rewrite app_nil_r.
  - cbn. intros [= _ <-]. by apply Hquiet.
Qed.

(** One event of the modal loop, [this] being the open controller:
    everything it does. *)
Lemma loop_step_exact (host : option MenuHostWindow) (e : LoopEvent) (p p' : Process)
    (this : NativeMenuWinPtr) (s : NativeMenuWin) (called : bool) :
  open_native_menu_win_ p = Some this ->
  objects p !! this = Some s ->
  listeners_called_ s = Some called ->
  loop_step host e p = Some p' ->
  open_native_menu_win_ p' = Some this
  /\ objects p'
     = <[this := set_listeners_called_ (Some (called || is_HookCall e))
                   (set_menu_action_ (action_step (menu_action_ s) e) s)]>
         (objects p)
  /\ pending_tasks p' = pending_tasks p ++ posted_tasks host [e]
  /\ exists added,
       notifications p' = notifications p ++ added
       /\ opened_listeners added
          = (if is_HookCall e && negb called then listeners_ s else []).
Proof.
  intros Hopen Hs Hcalled.
  destruct e as [msg live | message w_param l_param]; cbn [loop_step is_HookCall].
  - destruct (MenuMessageHook_exact msg live p this s called Hopen Hs Hcalled)
      as (p1 & -> & Hopen1 & Hobj & Htasks & Hnotes).
    intros [= <-]. rewrite action_step_navigation, orb_true_r.
    split; [exact Hopen1 | ]. split; [exact Hobj | ].
    split; [destruct host; cbn; by rewrite app_nil_r | ].
    eexists. split; [exact Hnotes | ].
    unfold opened_listeners. rewrite omap_app. fold (opened_listeners).
    assert (Hend : omap (fun n => match n with OnMenuOpened l => Some l | _ => None end)
                     match navigation_asked msg live with
                     | Some _ => [EndMenu]
                     | None => []
                     end = []) by (by destruct (navigation_asked msg live)).
    rewrite Hend, app_nil_r.
    destruct called; [reflexivity | apply opened_listeners_map].
  - destruct (MenuHostWindowProc host message w_param l_param p)
      as [[l_result p1]|] eqn:Hproc; [ | discriminate].
    intros [= <-].
    destruct (MenuHostWindowProc_exact _ _ _ _ _ _ _ Hproc)
      as (Hobj & Hopen1 & Htasks & added & Hnotes & Hopened & _).
    cbn [snd action_step andb]. rewrite orb_false_r.
    rewrite (set_called_action_same s called Hcalled).
    split; [congruence | ]. split; [by rewrite Hobj, insert_id | ].
    split; [exact Htasks | ]. by exists added.
Qed.

Lemma modal_loop_exact (host : option MenuHostWindow) (events : list LoopEvent) :
  forall (p p' : Process) (this : NativeMenuWinPtr) (s : NativeMenuWin) (called : bool),
    open_native_menu_win_ p = Some this ->
    objects p !! this = Some s ->
    listeners_called_ s = Some called ->
    modal_loop host events p = Some p' ->
    open_native_menu_win_ p' = Some this
    /\ objects p'
       = <[this := set_listeners_called_ (Some (called || hook_called events))
                     (set_menu_action_ (foldl action_step (menu_action_ s) events) s)]>
           (objects p)
    /\ pending_tasks p' = pending_tasks p ++ posted_tasks host events
    /\ exists added,
         notifications p' = notifications p ++ added
         /\ opened_listeners added
            = (if hook_called events && negb called then listeners_ s else []).
Proof.
  induction events as [|e events IH]; intros p p' this s called Hopen Hs Hcalled;
    cbn [modal_loop].
  - intros [= <-]. cbn [hook_called existsb foldl andb]. rewrite orb_false_r.
    rewrite (set_called_action_same s called Hcalled).
    split; [exact Hopen | ]. split; [by rewrite insert_id | ].
    split; [destruct host; cbn; by rewrite app_nil_r | ].
    exists []. by rewrite app_nil_r.
  - destruct (loop_step host e p) as [p1|] eqn:Hstep; [ | discriminate].
    cbn [mbind option_bind]. intros Hrest.
    destruct (loop_step_exact host e p p1 this s called Hopen Hs Hcalled Hstep)
      as (Hopen1 & Hobj1 & Htasks1 & added1 & Hnotes1 & Hopened1).
    set (s1 := set_listeners_called_ (Some (called || is_HookCall e))
                 (set_menu_action_ (action_step (menu_action_ s) e) s)) in *.
    assert (Hs1 : objects p1 !! this = Some s1)
      by (rewrite Hobj1; apply lookup_insert_eq).
    destruct (IH p1 p' this s1 (called || is_HookCall e) Hopen1 Hs1 eq_refl Hrest)
      as (Hopen' & Hobj' & Htasks' & added2 & Hnotes' & Hopened').
    split; [exact Hopen' | ]. split; [ | split].
    + rewrite Hobj', Hobj1, insert_insert_eq. f_equal.
      cbn [hook_called existsb foldl]. unfold s1. cbn.
      by rewrite orb_assoc.
    + rewrite Htasks', Htasks1, <- app_assoc.
      by rewrite <- posted_tasks_app.
    + exists (added1 ++ added2). split; [by rewrite Hnotes', Hnotes1, app_assoc | ].
      unfold opened_listeners in *. rewrite omap_app, Hopened1, Hopened'.
      cbn [hook_called existsb]. fold (hook_called events).
      replace (listeners_ s1) with (listeners_ s) by reflexivity.
      destruct (is_HookCall e), called, (hook_called events); cbn;
        by rewrite ?app_nil_r.
Qed.

(** ** RunMenuAt, in full *)

(** The host window [RunMenuAt] runs the loop with: the one the controller
    has, or a new one whose parent is the controller. *)
Lemma CreateHostWindow_host (this : NativeMenuWinPtr) (self : NativeMenuWin) :
  host_window_ (CreateHostWindow this self)
  = Some (default (mkMenuHostWindow (Some (mkWINDOW None)) this) (host_window_ self))
  /\ listeners_ (CreateHostWindow this self) = listeners_ self.
Proof.
  unfold CreateHostWindow. destruct (host_window_ self) as [h|] eqn:Hh; cbn.
  - by rewrite Hh.
  - done.
Qed.

(** [RunMenuAt] on the controller [self] at [this]: everything it leaves
    behind. *)
Lemma RunMenuAt_exact (this : NativeMenuWinPtr) (point : Z * Z) (alignment : Z)
    (events : list LoopEvent) (p p' : Process) (self : NativeMenuWin) :
  objects p !! this = Some self ->
  RunMenuAt this point alignment events p = Some p' ->
  exists s1,
    UpdateStates (CreateHostWindow this self) = Some s1
    /\ open_native_menu_win_ p' = None
    /\ objects p'
       = <[this := set_listeners_called_ (Some (hook_called events))
                     (set_menu_action_ (action_resolved events) s1)]>
           (objects p)
    /\ pending_tasks p'
       = pending_tasks p
         ++ posted_tasks (host_window_ (CreateHostWindow this self)) events
    /\ exists added,
         notifications p' = notifications p ++ added
         /\ opened_listeners added
            = (if hook_called events then listeners_ self else []).
Proof.
  intros Hself.
  destruct (RunMenuAt_enter_spec this alignment p self Hself)
    as (s1 & Hs1 & Hcfg & Henter).
  unfold RunMenuAt. rewrite Henter. cbn [mbind option_bind].
  set (s_in := set_listeners_called_ (Some false) (set_menu_action_ MENU_ACTION_NONE s1)).
  set (p_in := store this s_in (set_open_native_menu_win_ (Some this) p)).
  assert (Hlook : objects p_in !! this = Some s_in) by apply lookup_insert_eq.
  rewrite Hlook. cbn [mbind option_bind]. unfold TrackPopupMenuEx.
  destruct (modal_loop (host_window_ s_in) events p_in) as [p1|] eqn:Hloop;
    [ | discriminate].
  cbn [mbind option_bind]. intros [= <-].
  destruct (modal_loop_exact (host_window_ s_in) events p_in p1 this s_in false
              eq_refl Hlook eq_refl Hloop)
    as (_ & Hobj & Htasks & added & Hnotes & Hopened).
  destruct Hcfg as (_ & _ & _ & _ & _ & Hlisteners & _ & Hhost).
  exists s1. split; [exact Hs1 | ]. split; [reflexivity | ].
  cbn [set_open_native_menu_win_ objects pending_tasks notifications].
  split; [ | split].
  - rewrite Hobj. unfold p_in. cbn [store set_objects objects set_open_native_menu_win_].
    by rewrite insert_insert_eq.
  - rewrite Htasks. unfold p_in. cbn. by rewrite Hhost.
  - exists added. split; [exact Hnotes | ].
    rewrite Hopened, andb_true_r. cbn [listeners_ s_in set_listeners_called_ set_menu_action_].
    rewrite Hlisteners. by destruct (CreateHostWindow_host this self) as [_ ->].
Qed.

(** X2.  During one [RunMenuAt] every registered listener is told that the
    menu opened exactly once, in the order of registration, if the OS ran
    the message hook at all during the modal loop; otherwise no listener is
    told. *)
Theorem RunMenuAt_opens_listeners_once (this : NativeMenuWinPtr) (point : Z * Z)
    (alignment : Z) (events : list LoopEvent) (p p' : Process) (self : NativeMenuWin) :
  objects p !! this = Some self ->
  RunMenuAt this point alignment events p = Some p' ->
  exists added,
    notifications p' = notifications p ++ added
    /\ opened_listeners added = (if hook_called events then listeners_ self else []).
Proof.
  intros Hself Hrun.
  destruct (RunMenuAt_exact this point alignment events p p' self Hself Hrun)
    as (_ & _ & _ & _ & _ & Hadded).
  exact Hadded.
Qed.

(** X15.  What [RunMenuAt] does to the controllers.  Of the controller it
    is called on it changes what [UpdateStates] changes, the navigation
    action (the one resolved during the run), the flag that the listeners
    were called (set iff the hook ran), and the host window, which is
    created on the first run and kept from then on.  Every other controller
    is left as it is. *)
Theorem RunMenuAt_changes_controller (this : NativeMenuWinPtr) (point : Z * Z)
    (alignment : Z) (events : list LoopEvent) (p p' : Process) (self : NativeMenuWin) :
  objects p !! this = Some self ->
  RunMenuAt this point alignment events p = Some p' ->
  exists s1,
    UpdateStates (CreateHostWindow this self) = Some s1
    /\ objects p' !! this
       = Some (set_listeners_called_ (Some (hook_called events))
                 (set_menu_action_ (action_resolved events) s1))
    /\ host_window_ s1
       = Some (default (mkMenuHostWindow (Some (mkWINDOW None)) this)
                 (host_window_ self))
    /\ forall other, other <> this -> objects p' !! other = objects p !! other.
Proof.
  intros Hself Hrun.
  destruct (RunMenuAt_exact this point alignment events p p' self Hself Hrun)
    as (s1 & Hs1 & _ & Hobj & _).
  exists s1. split; [exact Hs1 | ]. split; [rewrite Hobj; apply lookup_insert_eq | ].
  split.
  - destruct (UpdateStates_fixed_point (CreateHostWindow this self))
      as (s1' & Hs1' & _ & Hcfg & _).
    assert (s1' = s1) as -> by congruence.
    destruct Hcfg as (_ & _ & _ & _ & _ & _ & _ & ->).
    apply CreateHostWindow_host.
  - intros other Hother. rewrite Hobj. by apply lookup_insert_ne.
Qed.

(** X16.  Each WM_EXITMENULOOP delivered during [RunMenuAt] posts one task,
    and nothing else posts a task.  On a controller whose host window, if
    it has one, was created for it, every such task calls [MenuClosed] on
    the model of this controller when the message loop runs it, behind the
    notifications of the tasks that were waiting before. *)
Theorem RunMenuAt_posts_MenuClosed (this : NativeMenuWinPtr) (point : Z * Z)
    (alignment : Z) (events : list LoopEvent) (p p' : Process) (self : NativeMenuWin) :
  objects p !! this = Some self ->
  (forall host, host_window_ self = Some host -> parent_ host = this) ->
  RunMenuAt this point alignment events p = Some p' ->
  exists host,
    parent_ host = this
    /\ pending_tasks p' = pending_tasks p ++ posted_tasks (Some host) events
    /\ notifications (RunAllPending p')
       = notifications p' ++ map task_notification (pending_tasks p)
         ++ map (fun _ => MenuClosed this) (posted_tasks (Some host) events).
Proof.
  intros Hself Hparent Hrun.
  destruct (RunMenuAt_exact this point alignment events p p' self Hself Hrun)
    as (_ & _ & _ & _ & Htasks & _).
  destruct (CreateHostWindow_host this self) as [Hhost _]. rewrite Hhost in Htasks.
  set (host := default (mkMenuHostWindow (Some (mkWINDOW None)) this)
                 (host_window_ self)) in *.
  assert (Hp : parent_ host = this).
  { unfold host. destruct (host_window_ self) as [h|]; [by apply Hparent | reflexivity]. }
  exists host. split; [exact Hp | ]. split; [exact Htasks | ].
  destruct (RunAllPending_spec p') as [-> _]. rewrite Htasks, map_app.
  f_equal. f_equal. clear Htasks Hrun.
  cbn [posted_tasks]. induction events as [|e events IH]; [reflexivity | ].
  cbn [flat_map]. rewrite !map_app, IH. f_equal.
  destruct e as [msg live | message w_param l_param]; [reflexivity | ].
  destruct (message =? WM_EXITMENULOOP); [cbn; by rewrite Hp | reflexivity].
Qed.

(** ** Rebuild, once more *)

(** [Rebuild] reads of the controller its model, the window whose system
    menu it wraps and the owner-draw flag, and passes the members it does
    not assign through. *)
Lemma Rebuild_depends_on_config (need : bool) (this : NativeMenuWinPtr)
    (s1 s2 : NativeMenuWin) :
  model_ s1 = model_ s2 ->
  HasIcons (model_ s1) || owner_draw_ s1 = HasIcons (model_ s2) || owner_draw_ s2 ->
  system_menu_for_ s1 = system_menu_for_ s2 ->
  menu_action_ s1 = menu_action_ s2 ->
  listeners_ s1 = listeners_ s2 ->
  listeners_called_ s1 = listeners_called_ s2 ->
  host_window_ s1 = host_window_ s2 ->
  Rebuild need this s1 = Rebuild need this s2.
Proof.
  destruct s1 as [m1 menu1 od1 w1 f1 a1 i1 l1 c1 h1],
           s2 as [m2 menu2 od2 w2 f2 a2 i2 l2 c2 h2].
  cbn [model_ owner_draw_ system_menu_for_ menu_action_ listeners_ listeners_called_
         host_window_].
  intros -> Hod -> -> -> -> ->.
  unfold Rebuild, Rebuild_with, ResetNativeMenu.
  cbn [model_ owner_draw_ system_menu_for_ menu_action_ listeners_ listeners_called_
         host_window_ menu_ items_ first_item_index_].
  destruct (IsWindow w2);
    cbn [set_menu_ set_items_ set_owner_draw_ set_first_item_index_ GetNativeMenu
           model_ owner_draw_ system_menu_for_ menu_action_ listeners_
           listeners_called_ host_window_ menu_ items_ first_item_index_];
    rewrite Hod; reflexivity.
Qed.

(** X5.  [Rebuild] starts afresh: its result does not depend on the native
    menu, the registry and the first item index the controller had, so that
    rebuilding an already rebuilt controller, the model not having changed,
    gives the same controller again -- no item is added twice.  The
    listeners, the navigation action and the host window pass through a
    rebuild unchanged. *)
Theorem Rebuild_starts_afresh (need : bool) (this : NativeMenuWinPtr)
    (self : NativeMenuWin) :
  (forall menu items first,
     Rebuild need this (set_first_item_index_ first (set_menu_ menu (set_items_ items self)))
     = Rebuild need this self)
  /\ (forall once,
        Rebuild need this self = Some once ->
        listeners_ once = listeners_ self
        /\ listeners_called_ once = listeners_called_ self
        /\ GetMenuAction once = GetMenuAction self
        /\ host_window_ once = host_window_ self)
  /\ forall once,
       Rebuild need this self = Some once -> Rebuild need this once = Some once.
Proof.
  split; [ | split].
  - intros menu items first. by apply Rebuild_depends_on_config.
  - intros once Hre. Rebuild_to_loop Hre.
    apply Rebuild_loop_config in Hre as (_ & _ & _ & _ & Ha & Hl & Hc & Hh).
    unfold GetMenuAction. rewrite Ha, Hl, Hc, Hh.
    unfold ResetNativeMenu. by destruct (IsWindow (system_menu_for_ self)).
  - intros once Hre. rewrite <- Hre.
    pose proof (Rebuild_owner_draw _ _ _ _ Hre) as Hod.
    Rebuild_to_loop Hre.
    apply Rebuild_loop_config in Hre as (Hm & _ & Hw & _ & Ha & Hl & Hc & Hh).
    assert (Hreset : forall s : NativeMenuWin,
               model_ (ResetNativeMenu this s) = model_ s
               /\ system_menu_for_ (ResetNativeMenu this s) = system_menu_for_ s
               /\ menu_action_ (ResetNativeMenu this s) = menu_action_ s
               /\ listeners_ (ResetNativeMenu this s) = listeners_ s
               /\ listeners_called_ (ResetNativeMenu this s) = listeners_called_ s
               /\ host_window_ (ResetNativeMenu this s) = host_window_ s).
    { intros s. unfold ResetNativeMenu. by destruct (IsWindow (system_menu_for_ s)). }
    destruct (Hreset self) as (Hr1 & Hr2 & Hr3 & Hr4 & Hr5 & Hr6).
    cbn [model_ system_menu_for_ menu_action_ listeners_ listeners_called_ host_window_
           set_first_item_index_ set_owner_draw_ set_items_] in Hm, Hw, Ha, Hl, Hc, Hh.
    apply Rebuild_depends_on_config; try congruence.
    rewrite Hod. replace (model_ once) with (model_ self) by congruence.
    by destruct (HasIcons (model_ self)).
Qed.

(** ** The OS menu after Rebuild *)

(** [AddMenuItemAt] at a valid insertion index: the registry entry and the
    OS item it adds. *)
Lemma AddMenuItemAt_item (new_Menu2 : Z -> option Menu2) (this : NativeMenuWinPtr)
    (self : NativeMenuWin) (menu_index k : Z) (sub : option Menu2) :
  0 <= k <= Z.of_nat (length (items_ self)) ->
  GetTypeAt (model_ self) k <> TYPE_SEPARATOR ->
  built_submenu new_Menu2 (model_ self) k = Some sub ->
  exists mii,
    AddMenuItemAt new_Menu2 this self menu_index k
    = Some (set_menu_ (snd (InsertMenuItem (menu_ self) menu_index mii))
              (set_items_
                 (take (Z.to_nat k) (items_ self)
                  ++ built_entry this (model_ self) k sub
                  :: drop (Z.to_nat k) (items_ self)) self))
    /\ write_item mii item_zero
       = built_item this (owner_draw_ self) (model_ self) k sub.
Proof.
  intros Hk Hsep Hsub. unfold AddMenuItemAt, built_item, built_entry.
  destruct (decide (GetTypeAt (model_ self) k = TYPE_SEPARATOR)) as [Hc|_];
    [contradiction | ].
  unfold built_submenu in Hsub.
  destruct (decide (GetTypeAt (model_ self) k = TYPE_SUBMENU)) as [Ht|Ht];
    [destruct (new_Menu2 k) as [s|]; [ | discriminate] | ];
    injection Hsub as <-; cbn [mbind option_bind];
    rewrite vector_insert_Some by exact Hk; cbn [mbind option_bind];
    (erewrite UpdateMenuItemInfoForString_Some
       by (cbn [items_ set_items_]; apply vector_at_inserted; exact Hk));
    cbn [mbind option_bind items_ set_items_ model_ menu_ set_menu_];
    eexists; (split; [rewrite insert_inserted by lia; reflexivity | ]).
  - rewrite decide_False by congruence.
    destruct (owner_draw_ self); reflexivity.
  - destruct (owner_draw_ self), (decide (GetTypeAt (model_ self) k = TYPE_RADIO));
      reflexivity.
Qed.

(** One round of the loop of [Rebuild] that completes, at the end of the
    registry. *)
Lemma Rebuild_step_item (new_Menu2 : Z -> option Menu2) (this : NativeMenuWinPtr)
    (self s1 : NativeMenuWin) (menu_index k : Z) :
  k = Z.of_nat (length (items_ self)) ->
  (if decide (GetTypeAt (model_ self) k = TYPE_SEPARATOR)
   then AddSeparatorItemAt self menu_index k
   else AddMenuItemAt new_Menu2 this self menu_index k) = Some s1 ->
  exists sub mii,
    built_submenu new_Menu2 (model_ self) k = Some sub
    /\ s1 = set_menu_ (snd (InsertMenuItem (menu_ self) menu_index mii))
              (set_items_ (items_ self ++ [built_entry this (model_ self) k sub]) self)
    /\ write_item mii item_zero
       = built_item this (owner_draw_ self) (model_ self) k sub.
Proof.
  intros Hk. destruct (decide (GetTypeAt (model_ self) k = TYPE_SEPARATOR)) as [Ht|Ht].
  - intros Hstep. exists None. eexists. split; [ | split].
    + unfold built_submenu. by rewrite decide_False by congruence.
    + subst k. unfold AddSeparatorItemAt in Hstep. rewrite vector_insert_end in Hstep.
      injection Hstep as <-. unfold built_entry. by rewrite decide_True.
    + unfold built_item. by rewrite decide_True.
  - intros Hstep.
    assert (Hsub : is_Some (built_submenu new_Menu2 (model_ self) k)).
    { unfold built_submenu. case_decide as Hty; [ | by eexists].
      destruct (new_Menu2 k) as [s|] eqn:Hs; [by eexists | ].
      unfold AddMenuItemAt in Hstep. rewrite decide_True, Hs in Hstep by exact Hty.
      discriminate. }
    destruct Hsub as [sub Hsub].
    destruct (AddMenuItemAt_item new_Menu2 this self menu_index k sub)
      as (mii & Hadd & Hitem); [lia | exact Ht | exact Hsub | ].
    exists sub, mii. split; [exact Hsub | ]. split; [ | exact Hitem].
    rewrite Hadd in Hstep. injection Hstep as <-. subst k.
    by rewrite Nat2Z.id, firstn_all, drop_all.
Qed.

(** The loop of [Rebuild], when it completes: the entries it appends to
    the registry and the items it inserts into the OS menu. *)
Lemma Rebuild_loop_items (new_Menu2 : Z -> option Menu2) (this : NativeMenuWinPtr)
    (n : nat) :
  forall self self' : NativeMenuWin,
    let len := Z.of_nat (length (items_ self)) in
    Rebuild_loop new_Menu2 this n (first_item_index_ self + len) self = Some self' ->
    exists ds ms,
      same_config self self'
      /\ items_ self' = items_ self ++ ds
      /\ length ds = n /\ length ms = n
      /\ menu_ self' = insert_all (menu_ self) (first_item_index_ self + len) ms
      /\ forall j : nat, (j < n)%nat ->
           exists sub,
             built_submenu new_Menu2 (model_ self) (len + Z.of_nat j) = Some sub
             /\ ds !! j = Some (built_entry this (model_ self) (len + Z.of_nat j) sub)
             /\ (fun mii => write_item mii item_zero) <$> ms !! j
                = Some (built_item this (owner_draw_ self) (model_ self)
                          (len + Z.of_nat j) sub).
Proof.
  induction n as [|n IH]; intros self self' len.
  - cbn [Rebuild_loop]. intros [= <-]. exists [], [].
    split; [apply same_config_refl | ]. rewrite app_nil_r.
    repeat split; try reflexivity. intros; lia.
  - cbn [Rebuild_loop].
    replace (first_item_index_ self + len - first_item_index_ self) with len by lia.
    match goal with
    | |- (?step ≫= _) = _ -> _ => destruct step as [s1|] eqn:Hstep; [ | discriminate]
    end.
    cbn [mbind option_bind]. intros Hloop.
    destruct (Rebuild_step_item new_Menu2 this self s1 (first_item_index_ self + len)
                len eq_refl Hstep) as (sub & mii & Hsub & -> & Hitem).
    set (s1 := set_menu_ _ _) in *.
    assert (Hitems : items_ s1 = items_ self ++ [built_entry this (model_ self) len sub])
      by reflexivity.
    assert (Hlen1 : Z.of_nat (length (items_ s1)) = len + 1).
    { rewrite Hitems, length_app. cbn. unfold len. lia. }
    replace (first_item_index_ self + len + 1)
      with (first_item_index_ s1 + Z.of_nat (length (items_ s1))) in Hloop
      by (rewrite Hlen1; cbn; lia).
    destruct (IH s1 self' Hloop) as (ds & ms & Hcfg & Hit' & Hlds & Hlms & Hmenu & Hentries).
    replace (first_item_index_ s1) with (first_item_index_ self) in * by reflexivity.
    replace (model_ s1) with (model_ self) in * by reflexivity.
    replace (owner_draw_ s1) with (owner_draw_ self) in * by reflexivity.
    rewrite Hlen1 in *.
    exists (built_entry this (model_ self) len sub :: ds), (mii :: ms).
    split; [eapply same_config_trans; [apply same_config_set | exact Hcfg] | ].
    split; [rewrite Hit', Hitems, <- app_assoc; reflexivity | ].
    split; [cbn; lia | ]. split; [cbn; lia | ]. split.
    + rewrite Hmenu. cbn [insert_all].
      replace (first_item_index_ self + len + 1)
        with (first_item_index_ self + (len + 1)) by lia.
      reflexivity.
    + intros [|j] Hj.
      * exists sub. rewrite Z.add_0_r. cbn. by rewrite Hitem.
      * destruct (Hentries j) as (sub' & Hsub' & Hds & Hms); [lia | ].
        exists sub'.
        replace (len + Z.of_nat (S j)) with (len + 1 + Z.of_nat j) by lia.
        split; [exact Hsub' | ]. split; [exact Hds | exact Hms].
Qed.

(** [Rebuild], when it completes: the members it assigns, the registry and
    the items inserted into the menu that [ResetNativeMenu] leaves. *)
Lemma Rebuild_items (need : bool) (this : NativeMenuWinPtr) (self self' : NativeMenuWin) :
  Rebuild need this self = Some self' ->
  let model := model_ self in
  let menu0 := menu_ (ResetNativeMenu this self) in
  exists ms,
    model_ self' = model
    /\ owner_draw_ self' = HasIcons model || owner_draw_ self
    /\ first_item_index_ self' = GetFirstItemIndex model menu0
    /\ length (items_ self') = Z.to_nat (GetItemCount model)
    /\ length ms = Z.to_nat (GetItemCount model)
    /\ menu_ self' = insert_all menu0 (first_item_index_ self') ms
    /\ forall j : nat, (j < Z.to_nat (GetItemCount model))%nat ->
         exists sub,
           built_submenu
             (fun i => sub_model ← GetSubmenuModelAt model i;
                       Menu2_ctor need sub_model (child_ptr this i))
             model (Z.of_nat j) = Some sub
           /\ items_ self' !! j = Some (built_entry this model (Z.of_nat j) sub)
           /\ (fun mii => write_item mii item_zero) <$> ms !! j
              = Some (built_item this (owner_draw_ self') model (Z.of_nat j) sub).
Proof.
  intros Hre model menu0. Rebuild_to_loop Hre.
  set (self1 := set_first_item_index_ _ _) in Hre.
  assert (H1 : model_ self1 = model
               /\ items_ self1 = []
               /\ first_item_index_ self1 = GetFirstItemIndex model menu0
               /\ menu_ self1 = menu0
               /\ owner_draw_ self1 = HasIcons model || owner_draw_ self).
  { unfold self1, menu0, model, ResetNativeMenu.
    destruct (IsWindow (system_menu_for_ self)); cbn; done. }
  destruct H1 as (Hm1 & Hi1 & Hf1 & Hmenu1 & Hod1).
  replace (first_item_index_ self1)
    with (first_item_index_ self1 + Z.of_nat (length (items_ self1))) in Hre
    by (rewrite Hi1; cbn; lia).
  destruct (Rebuild_loop_items _ this _ self1 self' Hre)
    as (ds & ms & Hcfg & Hitems & Hlds & Hlms & Hmenu & Hentries).
  rewrite Hi1 in *. cbn [length app] in *. rewrite Z.add_0_r in *.
  rewrite Hm1, Hmenu1, Hod1 in *.
  destruct Hcfg as (Hc1 & Hc2 & _ & Hc4 & _).
  exists ms.
  split; [congruence | ]. split; [congruence | ]. split; [congruence | ].
  split; [by rewrite Hitems | ]. split; [exact Hlms | ].
  split; [by rewrite Hmenu, Hc4 | ].
  intros j Hj. destruct (Hentries j Hj) as (sub & Hsub & Hds & Hms).
  exists sub. rewrite Z.add_0_l in *. rewrite Hitems, Hc2, Hod1.
  split; [exact Hsub | ]. split; assumption.
Qed.

(** A controller that [Rebuild] built has its item positions within
    [int]: the sums of a model index and [first_item_index_] that
    [UpdateStates] forms afterwards do not overflow. *)
Lemma Rebuild_positions_fit (need : bool) (this : NativeMenuWinPtr)
    (self self' : NativeMenuWin) :
  Rebuild need this self = Some self' ->
  is_int (first_item_index_ self') = true
  /\ forall k, (k < length (items_ self'))%nat ->
       is_int (Z.of_nat k + first_item_index_ self') = true.
Proof.
  intros Hre. pose proof (Rebuild_bound_fits _ _ _ _ Hre) as Hfit.
  destruct (Rebuild_items need this self self' Hre) as (ms & _ & _ & Hf & Hlen & _).
  rewrite Hf, Hlen. unfold loop_bound_fits in Hfit.
  apply andb_prop in Hfit as [Hfit Hsum]. apply andb_prop in Hfit as [Hfirst Hcount].
  split; [exact Hfirst | ].
  intros k Hk. unfold is_int, INT_MIN, INT_MAX in *. lia.
Qed.

Lemma built_item_entry (this : NativeMenuWinPtr) (owner_draw : bool) (model : MenuModel)
    (i : Z) (sub : option Menu2) :
  built_item this owner_draw model i (submenu (built_entry this model i sub))
  = built_item this owner_draw model i sub.
Proof. unfold built_item, built_entry. by case_decide. Qed.

(** The layout of the OS menu after [Rebuild]: the new items stand between
    the first first_item_index_ items of the menu that [ResetNativeMenu]
    leaves and the rest of them. *)
Lemma Rebuild_menu_layout (need : bool) (this : NativeMenuWinPtr)
    (self self' : NativeMenuWin) (style : UINT) (data : option NativeMenuWinPtr)
    (its0 : list MENUITEM) :
  let model := model_ self in
  let first := Z.to_nat (first_item_index_ self') in
  Rebuild need this self = Some self' ->
  menu_ (ResetNativeMenu this self) = Some (mkMENU style data its0) ->
  0 <= first_item_index_ self' <= Z.of_nat (length its0) ->
  exists news,
    menu_ self' = Some (mkMENU style data (take first its0 ++ news ++ drop first its0))
    /\ length news = Z.to_nat (GetItemCount model)
    /\ forall i, 0 <= i < GetItemCount model ->
         exists d,
           vector_at (items_ self') i = Some d
           /\ news !! Z.to_nat i
              = Some (built_item this (owner_draw_ self') model i (submenu d)).
Proof.
  intros model first Hre Hmenu0 Hfirst.
  destruct (Rebuild_items need this self self' Hre)
    as (ms & _ & _ & _ & Hlen & Hlms & Hmenu & Hentries).
  fold model in Hlen, Hlms, Hentries. rewrite Hmenu0 in Hmenu.
  exists (map (fun mii => write_item mii item_zero) ms). split; [ | split].
  - rewrite Hmenu. rewrite <- (take_drop first its0) at 1.
    replace (first_item_index_ self') with (Z.of_nat (length (take first its0)))
      by (rewrite length_take; lia).
    apply insert_all_layout.
  - by rewrite length_map.
  - intros i Hi. destruct (Hentries (Z.to_nat i)) as (sub & _ & Hd & Hms); [lia | ].
    rewrite Z2Nat.id in Hd, Hms by lia.
    exists (built_entry this model i sub). split.
    + apply vector_at_Some. split; [lia | exact Hd].
    + rewrite list_lookup_fmap, Hms. by rewrite built_item_entry.
Qed.

(** X6.  The OS menu after [Rebuild], for a first item index that lies
    within the menu [ResetNativeMenu] leaves (a new, empty menu, or the
    window menu).  The menu has one more item per model item.  The item for
    model index [i] is at position first_item_index_ + i: a separator
    without item data for a separator, and else an item whose data points to
    the registry entry, whose text is the stored label read up to its first
    NUL (the OS is handed the [c_str()] of the label), whose id is the
    command id (0 for a submenu item), whose submenu is the native menu of
    the entry's submenu, and whose type is owner-drawn iff the controller
    draws its items, with the radio mark iff the model item is a radio
    item.  The state flags of a new item are clear: whatever the model
    says, the item is enabled and unchecked until [UpdateStates] runs.  The
    items the menu had stay in their order, those from first_item_index_ on
    behind the new ones. *)
Theorem Rebuild_menu_mirrors_model (need : bool) (this : NativeMenuWinPtr)
    (self self' : NativeMenuWin) :
  let model := model_ self in
  let menu0 := menu_ (ResetNativeMenu this self) in
  let first := first_item_index_ self' in
  let count := Z.max 0 (GetItemCount model) in
  Rebuild need this self = Some self' ->
  0 <= first <= GetMenuItemCount menu0 ->
  GetMenuItemCount (menu_ self') = GetMenuItemCount menu0 + count
  /\ (forall j, 0 <= j < first -> item_at (menu_ self') j = item_at menu0 j)
  /\ (forall j, first <= j -> item_at (menu_ self') (j + count) = item_at menu0 j)
  /\ forall i, 0 <= i < GetItemCount model ->
       exists d,
         vector_at (items_ self') i = Some d
         /\ item_at (menu_ self') (first + i)
            = Some (built_item this (owner_draw_ self') model i (submenu d)).
Proof.
  intros model menu0 first count Hre Hfirst.
  destruct menu0 as [[style data its0]|] eqn:Hmenu0; [ | cbn in Hfirst; lia].
  cbn [GetMenuItemCount menu_items] in Hfirst |- *.
  destruct (Rebuild_menu_layout need this self self' style data its0 Hre Hmenu0 Hfirst)
    as (news & -> & Hnews & Hitems).
  fold model in Hnews, Hitems. subst first count.
  cbn [GetMenuItemCount item_at menu_items].
  assert (Hpre : length (take (Z.to_nat (first_item_index_ self')) its0)
                 = Z.to_nat (first_item_index_ self'))
    by (rewrite length_take; lia).
  split; [ | split; [ | split]].
  - rewrite !length_app, length_take, length_drop. lia.
  - intros j Hj. destruct (Z.ltb_spec j 0); [lia | ].
    rewrite lookup_app_l by lia. by rewrite lookup_take_lt by lia.
  - intros j Hj.
    destruct (Z.ltb_spec (j + Z.max 0 (GetItemCount model)) 0); [lia | ].
    destruct (Z.ltb_spec j 0); [lia | ].
    rewrite lookup_app_r by lia. rewrite lookup_app_r by lia.
    rewrite lookup_drop. f_equal. lia.
  - intros i Hi. destruct (Hitems i Hi) as (d & Hd & Hitem).
    exists d. split; [exact Hd | ].
    destruct (Z.ltb_spec (first_item_index_ self' + i) 0); [lia | ].
    rewrite lookup_app_r by lia. rewrite lookup_app_l by lia.
    rewrite <- Hitem. f_equal. lia.
Qed.

(** ** From the OS menu back to the controller *)

Lemma insert_all_dwMenuData (ms : list MENUITEMINFO) :
  forall (menu : HMENU) (start : Z),
    GetMenuInfo_dwMenuData (insert_all menu start ms) = GetMenuInfo_dwMenuData menu.
Proof.
  induction ms as [|mii ms IH]; intros menu start; cbn [insert_all]; [reflexivity | ].
  rewrite IH. by destruct menu.
Qed.

(** The native menu of a rebuilt controller that wraps no window menu
    carries the address of the controller. *)
Lemma Rebuild_names_controller (need : bool) (this : NativeMenuWinPtr)
    (self self' : NativeMenuWin) :
  system_menu_for_ self = None ->
  Rebuild need this self = Some self' ->
  GetNativeMenuWinFromHMENU (menu_ self') = Some this.
Proof.
  intros Hsys Hre.
  destruct (Rebuild_items need this self self' Hre) as (ms & _ & _ & _ & _ & _ & -> & _).
  unfold GetNativeMenuWinFromHMENU. rewrite insert_all_dwMenuData.
  unfold ResetNativeMenu. by rewrite Hsys.
Qed.

(** The submenu in a registry entry of a rebuilt controller: its model is
    the submenu model of the item, and its wrapper was rebuilt at the
    address of the child. *)
Lemma Rebuild_submenu_entry (need : bool) (this : NativeMenuWinPtr)
    (self self' : NativeMenuWin) (i : Z) (d : ItemData) (sub : Menu2) :
  Rebuild need this self = Some self' ->
  vector_at (items_ self') i = Some d ->
  submenu d = Some sub ->
  GetTypeAt (model_ self) i = TYPE_SUBMENU
  /\ GetSubmenuModelAt (model_ self) i = Some (m2_model_ sub)
  /\ Rebuild need (child_ptr this i) (CreateWrapper need (m2_model_ sub))
     = Some (wrapper_ sub).
Proof.
  intros Hre Hd Hsub.
  destruct (Rebuild_items need this self self' Hre)
    as (ms & _ & _ & _ & Hlen & _ & _ & Hentries).
  apply vector_at_Some_range in Hd as Hrange.
  destruct (Hentries (Z.to_nat i)) as (sub' & Hbuilt & Hentry & _); [lia | ].
  rewrite Z2Nat.id in Hbuilt, Hentry by lia.
  apply vector_at_Some in Hd as [_ Hd]. rewrite Hentry in Hd. injection Hd as <-.
  unfold built_entry in Hsub. unfold built_submenu in Hbuilt.
  destruct (decide (GetTypeAt (model_ self) i = TYPE_SEPARATOR)); [discriminate | ].
  cbn [submenu] in Hsub. subst sub'.
  destruct (decide (GetTypeAt (model_ self) i = TYPE_SUBMENU)) as [Ht|];
    [ | discriminate].
  split; [exact Ht | ].
  destruct (GetSubmenuModelAt (model_ self) i) as [sm|]; [ | discriminate].
  cbn [mbind option_bind fmap option_fmap option_map] in Hbuilt.
  rewrite Menu2_ctor_unfold in Hbuilt.
  match type of Hbuilt with
  | Some <$> (?re ≫= _) = _ => destruct re as [wrapper|] eqn:Hwrapper; [ | discriminate]
  end.
  cbn in Hbuilt. injection Hbuilt as <-. cbn [m2_model_ wrapper_].
  split; [reflexivity | exact Hwrapper].
Qed.

(** X7.  From the OS menu back to the controller.  The native menu that
    [Rebuild] builds for a controller wrapping no window menu carries the
    controller's address: [GetNativeMenuWinFromHMENU] finds the controller,
    and a WM_MENUCOMMAND for that menu activates the position in the model
    of that controller.  The same holds one level down: the controller in a
    registry entry for a submenu item is built for the submenu model of
    that item, and its native menu carries the address of this child
    controller -- so that a command in a submenu goes to the model of the
    submenu. *)
Theorem Rebuild_menu_finds_controller (need : bool) (this : NativeMenuWinPtr)
    (self self' : NativeMenuWin) :
  system_menu_for_ self = None ->
  Rebuild need this self = Some self' ->
  GetNativeMenuWinFromHMENU (GetNativeMenu self') = Some this
  /\ (forall host w_param l_result p,
        ProcessWindowMessage host WM_MENUCOMMAND w_param
          (lparam_HMENU (GetNativeMenu self')) l_result p
        = Some (true, 0, notify (ActivatedAt this (int_of_WPARAM w_param)) p))
  /\ forall i d sub,
       vector_at (items_ self') i = Some d ->
       submenu d = Some sub ->
       GetSubmenuModelAt (model_ self) i = Some (m2_model_ sub)
       /\ model_ (wrapper_ sub) = m2_model_ sub
       /\ GetNativeMenuWinFromHMENU (Menu2_GetNativeMenu sub) = Some (child_ptr this i).
Proof.
  intros Hsys Hre.
  pose proof (Rebuild_names_controller need this self self' Hsys Hre) as Hname.
  split; [exact Hname | ]. split.
  - intros host w_param l_result p. unfold ProcessWindowMessage, OnMenuCommand.
    rewrite Z.eqb_refl. cbn [HMENU_of_LPARAM]. unfold GetNativeMenu.
    by rewrite Hname.
  - intros i d sub Hd Hsub.
    destruct (Rebuild_submenu_entry need this self self' i d sub Hre Hd Hsub)
      as (_ & Hmodel & Hwrapper).
    split; [exact Hmodel | ].
    destruct (Rebuild_items _ _ _ _ Hwrapper) as (_ & Hm & _).
    split; [exact Hm | ].
    by apply (Rebuild_names_controller need (child_ptr this i)
                (CreateWrapper need (m2_model_ sub))).
Qed.

(** ** What UpdateStates writes *)

Lemma GetMenuItemCount_alter_item (g : MENUITEM -> MENUITEM) (menu : HMENU) (i : Z) :
  GetMenuItemCount (alter_item g menu i) = GetMenuItemCount menu.
Proof.
  destruct menu as [m|]; [ | reflexivity]. cbn.
  destruct (i <? 0); [reflexivity | ]. by rewrite length_alter.
Qed.

Lemma Menu2_UpdateStates_total (sub : Menu2) : is_Some (Menu2_UpdateStates sub).
Proof.
  unfold Menu2_UpdateStates.
  destruct (UpdateStates_fixed_point (wrapper_ sub)) as (w & -> & _). by eexists.
Qed.

Lemma stepped_submenu_total (it : ItemData) :
  exists r, stepped_submenu it = Some r /\ r = submenu it ≫= Menu2_UpdateStates.
Proof.
  unfold stepped_submenu. destruct (submenu it) as [sub|]; [ | by exists None].
  destruct (Menu2_UpdateStates_total sub) as [sub' Hsub']. exists (Some sub').
  cbn [mbind option_bind]. by rewrite Hsub'.
Qed.

Lemma reg_sync_updated (s : NativeMenuWin) (k : nat) (r : option Menu2) (d : ItemData) :
  r = submenu d ≫= Menu2_UpdateStates ->
  entry_updated s k d (reg_sync s k r d).
Proof.
  intros Hr. unfold entry_updated, reg_sync.
  assert (Hnone : r = None -> submenu d = None).
  { intros ->. destruct (submenu d) as [sub|]; [ | reflexivity].
    cbn [mbind option_bind] in Hr.
    destruct (Menu2_UpdateStates_total sub) as [? Hsub]. congruence. }
  destruct (IsItemDynamicAt (model_ s) (Z.of_nat k)
            && negb (IsSeparatorItemAt s (Z.of_nat k + first_item_index_ s)));
    destruct r as [sub|]; cbn; (split; [reflexivity | ]);
    (split; [reflexivity | ]); (split; [reflexivity | ]);
    first [exact Hr | by rewrite <- Hr, Hnone].
Qed.

(** The walk of [UpdateStates] from index [j] on: the OS items and the
    registry entries it leaves. *)
Lemma UpdateStates_walk_effect (its : list ItemData) :
  forall (j : nat) (s : NativeMenuWin),
    drop j (items_ s) = its ->
    exists s',
      UpdateStates_walk Menu2_UpdateStates its (Z.of_nat j) s = Some s'
      /\ same_config s s'
      /\ length (items_ s') = length (items_ s)
      /\ (forall x, IsSeparatorItemAt s' x = IsSeparatorItemAt s x)
      /\ GetMenuItemCount (menu_ s') = GetMenuItemCount (menu_ s)
      /\ (forall x,
            item_at (menu_ s') x
            = if decide (Z.of_nat j + first_item_index_ s <= x
                         < Z.of_nat (length (items_ s)) + first_item_index_ s)
              then os_item_sync (model_ s) (x - first_item_index_ s)
                     <$> item_at (menu_ s) x
              else item_at (menu_ s) x)
      /\ forall k d,
           items_ s !! k = Some d ->
           exists d',
             items_ s' !! k = Some d'
             /\ if decide (j <= k)%nat then entry_updated s k d d' else d' = d.
Proof.
  induction its as [|it rest IH]; intros j s Hdrop.
  - exists s. split; [reflexivity | ]. split; [apply same_config_refl | ].
    split; [reflexivity | ]. split; [reflexivity | ]. split; [reflexivity | ].
    apply drop_nil_inv in Hdrop. split.
    + intros x. case_decide; [lia | reflexivity].
    + intros k d Hd. exists d. split; [exact Hd | ].
      apply lookup_lt_Some in Hd. case_decide; [lia | reflexivity].
  - assert (Hit : items_ s !! j = Some it).
    { rewrite <- (Nat.add_0_r j), <- lookup_drop, Hdrop. reflexivity. }
    pose proof (lookup_lt_Some _ _ _ Hit) as Hj.
    destruct (stepped_submenu_total it) as (r & Hr & Hrsub).
    destruct (UpdateStates_step_changed it j s r) as (s1 & Hstep & Hch);
      [by eexists | exact Hr | ].
    cbn [UpdateStates_walk]. rewrite Hstep. cbn [mbind option_bind].
    pose proof (changed_at_IsSeparatorItemAt _ _ _ _ _ _ Hch
                  (fType_os_item_sync (model_ s) (Z.of_nat j))) as Hsep1.
    pose proof Hch as (Hcfg & Hitems & Hmenu).
    pose proof Hcfg as (Hm1 & _ & _ & Hf1 & _).
    replace (Z.of_nat j + 1) with (Z.of_nat (S j)) by lia.
    destruct (IH (S j) s1) as (s' & Hwalk & Hcfg' & Hlen' & Hsep' & Hcount & Hos & Hreg).
    { rewrite Hitems, drop_alter_lt by lia.
      rewrite (drop_S _ _ _ Hit) in Hdrop. congruence. }
    assert (Hlen1 : length (items_ s1) = length (items_ s))
      by (rewrite Hitems; apply length_alter).
    exists s'. split; [exact Hwalk | ].
    split; [by eapply same_config_trans | ].
    split; [congruence | ]. split; [intros x; by rewrite Hsep', Hsep1 | ].
    split; [by rewrite Hcount, Hmenu, GetMenuItemCount_alter_item | ]. split.
    + intros x. rewrite Hos, Hm1, Hf1, Hlen1, Hmenu, item_at_alter_item.
      repeat case_decide; try lia; try reflexivity.
      * subst x. replace (Z.of_nat j + first_item_index_ s - first_item_index_ s)
          with (Z.of_nat j) by lia. reflexivity.
    + intros k d Hd. destruct (changed_at_lookup _ _ _ _ _ _ Hch) as [Hk Hother].
      destruct (decide (k = j)) as [->|Hkj].
      * assert (d = it) as -> by congruence.
        destruct (Hreg j (reg_sync s j r it)) as (d' & Hd' & Hsame).
        { by rewrite Hk, Hit. }
        exists d'. split; [exact Hd' | ].
        rewrite decide_False in Hsame by lia. rewrite decide_True by lia.
        subst d'. by apply reg_sync_updated.
      * destruct (Hreg k d) as (d' & Hd' & Hupd).
        { by rewrite Hother. }
        exists d'. split; [exact Hd' | ].
        destruct (decide (S j <= k)%nat), (decide (j <= k)%nat); try lia;
          [ | exact Hupd].
        unfold entry_updated in *. by rewrite Hm1, Hf1, Hsep1 in Hupd.
Qed.

Lemma os_item_sync_fields (model : MenuModel) (k : Z) (it : MENUITEM) :
  let it' := os_item_sync model k it in
  fType it' = fType it /\ wID it' = wID it /\ hSubMenu it' = hSubMenu it
  /\ dwItemData it' = dwItemData it
  /\ if has_flag (fType it) MF_SEPARATOR then it' = it
     else fState it' = item_state (IsEnabledAt model k) (IsItemCheckedAt model k) false
          /\ dwTypeData it'
             = if IsItemDynamicAt model k
               then Some (c_str (formatted_label model k (GetLabelAt model k)))
               else dwTypeData it.
Proof.
  unfold os_item_sync. destruct (has_flag (fType it) MF_SEPARATOR); [done | ].
  destruct (IsItemDynamicAt model k), (IsEnabledAt model k), (IsItemCheckedAt model k);
    done.
Qed.

(** X9.  [UpdateStates] always completes.  In the OS menu it writes the
    items at the positions first_item_index_, ..., first_item_index_ +
    size of the registry - 1 that are no separators: the state of such an
    item becomes the model's -- enabled or disabled, with the check mark iff
    checked, never the default mark --, and its text becomes the stored
    label, read up to its first NUL, iff the model calls the item dynamic
    (the OS is handed the [c_str()] of the label).  Type, id, submenu and item
    data of every item, the separators and the items outside those
    positions (the window's own items of a system menu) are left as they
    are, and no item is added or removed.  In the registry the stored text
    of a dynamic item that is no separator is replaced; no entry is added,
    removed or moved, and the controller of a submenu is replaced by its
    own update (the walk is depth-first). *)
Theorem UpdateStates_writes_model_state (self : NativeMenuWin) :
  let model := model_ self in
  let first := first_item_index_ self in
  let size := Z.of_nat (length (items_ self)) in
  exists self',
    UpdateStates self = Some self'
    /\ GetMenuItemCount (menu_ self') = GetMenuItemCount (menu_ self)
    /\ (forall x it,
          item_at (menu_ self) x = Some it ->
          exists it',
            item_at (menu_ self') x = Some it'
            /\ fType it' = fType it /\ wID it' = wID it
            /\ hSubMenu it' = hSubMenu it /\ dwItemData it' = dwItemData it
            /\ if bool_decide (first <= x < first + size)
                  && negb (has_flag (fType it) MF_SEPARATOR)
               then fState it'
                    = item_state (IsEnabledAt model (x - first))
                        (IsItemCheckedAt model (x - first)) false
                    /\ dwTypeData it'
                       = (if IsItemDynamicAt model (x - first)
                          then Some (c_str (formatted_label model (x - first)
                                              (GetLabelAt model (x - first))))
                          else dwTypeData it)
               else it' = it)
    /\ length (items_ self') = length (items_ self)
    /\ forall k d,
         items_ self !! k = Some d ->
         exists d', items_ self' !! k = Some d' /\ entry_updated self k d d'.
Proof.
  intros model first size.
  destruct (UpdateStates_walk_effect (items_ self) 0 self eq_refl)
    as (s' & Hwalk & _ & Hlen & _ & Hcount & Hos & Hreg).
  exists s'. rewrite UpdateStates_unfold.
  split; [exact Hwalk | ]. split; [exact Hcount | ]. split; [ | split; [exact Hlen | ]].
  - intros x it Hit. rewrite Hos, Hit. fold first size model.
    case_decide as Hx.
    + pose proof (os_item_sync_fields model (x - first) it) as (H1 & H2 & H3 & H4 & H5).
      eexists. split; [reflexivity | ].
      rewrite bool_decide_eq_true_2 by lia. cbn [andb].
      destruct (has_flag (fType it) MF_SEPARATOR); cbn [negb]; tauto.
    + exists it. rewrite bool_decide_eq_false_2 by lia. cbn [andb]. tauto.
  - intros k d Hd. destruct (Hreg k d Hd) as (d' & Hd' & Hupd).
    exists d'. split; [exact Hd' | ]. by rewrite decide_True in Hupd by lia.
Qed.

(** ** Writing one item *)

Lemma set_menu_same (self : NativeMenuWin) : set_menu_ (menu_ self) self = self.
Proof. by destruct self. Qed.

(** X10.  The edge cases of [SetMenuItemLabel].  At a separator position it
    changes nothing, whatever the model index.  At a position that is no
    separator it indexes the registry without a check: a model index outside
    the registry is undefined behaviour.  The registry entry is written
    before the OS is asked: at a position where the menu has no item the OS
    menu stays as it is, yet the entry holds the new text. *)
Theorem SetMenuItemLabel_edge_cases (self : NativeMenuWin) (menu_index model_index : Z)
    (text : wstring) :
  (IsSeparatorItemAt self menu_index = true ->
   SetMenuItemLabel self menu_index model_index text = Some self)
  /\ (IsSeparatorItemAt self menu_index = false ->
      vector_at (items_ self) model_index = None ->
      SetMenuItemLabel self menu_index model_index text = None)
  /\ forall d,
       item_at (menu_ self) menu_index = None ->
       vector_at (items_ self) model_index = Some d ->
       SetMenuItemLabel self menu_index model_index text
       = Some (set_items_
                 (<[Z.to_nat model_index
                    := set_label (formatted_label (model_ self) model_index text) d]>
                    (items_ self)) self).
Proof.
  split; [ | split].
  - intros Hsep. unfold SetMenuItemLabel. by rewrite Hsep.
  - intros Hsep Hnone. unfold SetMenuItemLabel. rewrite Hsep.
    by rewrite (UpdateMenuItemInfoForString_None self mii_zero model_index text Hnone).
  - intros d Hitem Hd.
    assert (Hsep : IsSeparatorItemAt self menu_index = false)
      by (by rewrite IsSeparatorItemAt_eq, Hitem).
    rewrite (SetMenuItemLabel_Some self menu_index model_index text d Hd Hsep).
    rewrite SetMenuItemInfo_alter_item, (alter_item_ext _ id), alter_item_id.
    + by destruct self.
    + intros it. rewrite Hitem. discriminate.
Qed.

(** X11.  [SetMenuItemState] writes the state of one item and nothing else.
    A separator, and a position without item, are left alone.  Otherwise
    the item keeps its type, id, submenu, data and text, and its new state
    tells the three arguments apart: the disabled bits are clear iff
    [enabled], the check mark is set iff [checked], the default mark iff
    [is_default]. *)
Theorem SetMenuItemState_writes_state (self : NativeMenuWin) (menu_index : Z)
    (enabled checked is_default : bool) :
  let self' := SetMenuItemState self menu_index enabled checked is_default in
  same_config self self'
  /\ items_ self' = items_ self
  /\ (forall x, x <> menu_index -> item_at (menu_ self') x = item_at (menu_ self) x)
  /\ (item_at (menu_ self) menu_index = None -> self' = self)
  /\ forall it,
       item_at (menu_ self) menu_index = Some it ->
       if has_flag (fType it) MF_SEPARATOR then self' = self
       else
         let state := item_state enabled checked is_default in
         item_at (menu_ self') menu_index
         = Some (mkMENUITEM (fType it) state (wID it) (hSubMenu it) (dwItemData it)
                   (dwTypeData it))
         /\ (Z.land state MFS_DISABLED =? 0) = enabled
         /\ has_flag state MFS_CHECKED = checked
         /\ has_flag state MFS_DEFAULT = is_default.
Proof.
  intros self'.
  assert (Hdef : self'
                 = if IsSeparatorItemAt self menu_index then self
                   else set_menu_
                          (alter_item
                             (write_item
                                (set_fState (item_state enabled checked is_default)
                                   (set_fMask MIIM_STATE mii_zero)))
                             (menu_ self) menu_index) self).
  { unfold self', SetMenuItemState. by rewrite SetMenuItemInfo_alter_item. }
  rewrite Hdef, IsSeparatorItemAt_eq. clear Hdef self'.
  destruct (item_at (menu_ self) menu_index) as [it|] eqn:Hit; cbn [from_option].
  - destruct (has_flag (fType it) MF_SEPARATOR) eqn:Hsep.
    + split; [apply same_config_refl | ]. split; [reflexivity | ].
      split; [reflexivity | ]. split; [discriminate | ].
      intros ? [= <-]. by rewrite Hsep.
    + split; [unfold same_config; cbn; tauto | ]. split; [reflexivity | ].
      cbn [menu_ set_menu_]. split; [ | split; [discriminate | ]].
      * intros x Hx. by rewrite item_at_alter_item, decide_False.
      * intros ? [= <-]. rewrite Hsep.
        rewrite item_at_alter_item, decide_True, Hit by reflexivity.
        split; [by destruct it, enabled, checked, is_default | ].
        by destruct enabled, checked, is_default.
  - change (has_flag 0 MF_SEPARATOR) with false. cbv iota.
    rewrite (alter_item_ext _ id), alter_item_id, set_menu_same.
    + split; [apply same_config_refl | ]. split; [reflexivity | ].
      split; [reflexivity | ]. split; [reflexivity | discriminate].
    + intros it. rewrite Hit. discriminate.
Qed.

(** ** Owner-drawn items *)

Lemma wstring_find_absent (s : wstring) (c : wchar_t) :
  c ∉ s -> wstring_find s c = None.
Proof.
  induction s as [|x s IH]; intros Hnot; [reflexivity | ].
  apply not_elem_of_cons in Hnot as [Hx Hs]. cbn [wstring_find].
  destruct (Z.eqb_spec x c) as [->|_]; [done | ]. by rewrite IH.
Qed.

Lemma wstring_find_first (pre post : wstring) (c : wchar_t) :
  c ∉ pre -> wstring_find (pre ++ c :: post) c = Some (length pre).
Proof.
  induction pre as [|x pre IH]; intros Hnot; cbn [wstring_find app length].
  - by rewrite Z.eqb_refl.
  - apply not_elem_of_cons in Hnot as [Hx Hpre].
    destruct (Z.eqb_spec x c) as [->|_]; [done | ]. by rewrite IH.
Qed.

Lemma wstring_find_Some (s : wstring) (c : wchar_t) (pos : nat) :
  wstring_find s c = Some pos ->
  (c ∉ take pos s) /\ exists rest, drop pos s = c :: rest.
Proof.
  revert pos. induction s as [|x s IH]; intros pos; cbn [wstring_find]; [discriminate | ].
  destruct (Z.eqb_spec x c) as [->|Hx].
  - intros [= <-]. split; [apply not_elem_of_nil | by eexists].
  - destruct (wstring_find s c) as [n|]; [ | discriminate].
    intros [= <-]. destruct (IH n eq_refl) as [Hnot Hrest].
    split; [ | exact Hrest]. cbn [take]. apply not_elem_of_cons. split; [congruence | done].
Qed.

(** The text of a registry entry as the drawing handler splits it: the
    label part and the accelerator part. *)
Lemma formatted_label_split (model : MenuModel) (i : Z) (text : wstring) :
  9 ∉ text ->
  let stored := formatted_label model i text in
  match (if decide (GetTypeAt model i <> TYPE_SUBMENU) then GetAcceleratorAt model i
         else None) with
  | Some accelerator =>
      wstring_find stored 9 = Some (length text)
      /\ take (length text) stored = text
      /\ drop (length text) stored = tab ++ GetShortcutText accelerator
  | None => wstring_find stored 9 = None /\ stored = text
  end.
Proof.
  intros Htab. unfold formatted_label. cbv zeta.
  destruct (decide (GetTypeAt model i <> TYPE_SUBMENU)).
  - destruct (GetAcceleratorAt model i) as [accelerator|].
    + split; [by apply wstring_find_first | ].
      by rewrite take_app_length, drop_app_length.
    + split; [by apply wstring_find_absent | reflexivity].
  - split; [by apply wstring_find_absent | reflexivity].
Qed.

Section OwnerDrawProperties.

Variable font : Font.
Variable GetSystemMetrics : Z -> Z.
Variable GetSysColor : Z -> COLORREF.
Variable underline_mnemonics : bool.
Variable GetIconAt : NativeMenuWinPtr -> Z -> option SkBitmap.

(** The colours the handler paints an item in. *)
Lemma OnDrawItem_spec (w_param : UINT) (dis : DRAWITEMSTRUCT) :
  let dc := dis_hDC dis in
  let rcItem := dis_rcItem dis in
  let selected := has_flag (dis_itemState dis) ODS_SELECTED in
  let disabled := has_flag (dis_itemState dis) ODS_DISABLED in
  let bk := GetSysColor (if selected then COLOR_HIGHLIGHT else COLOR_MENU) in
  let fg :=
    GetSysColor (if selected then COLOR_HIGHLIGHTTEXT
                 else if disabled then COLOR_GRAYTEXT else COLOR_MENUTEXT) in
  let under (f : HGDIOBJ) (calls : list GdiCall) := map (fun c => (c, (bk, fg, f))) calls in
  OnDrawItem font GetSysColor underline_mnemonics GetIconAt w_param dis
  = match dis_itemData dis with
    | Some data =>
        controller ← native_menu_win data;
        index ← model_index data;
        let '(label', accel) :=
          match wstring_find (label data) 9 with
          | Some tab_pos => (take tab_pos (label data), drop tab_pos (label data))
          | None => (label data, [])
          end in
        Some (mkDRAWITEMSTRUCT (dis_itemState dis)
                (mkDC (dc_bk_color dc) (dc_text_color dc) (dc_font dc)
                   (dc_painted dc
                    ++ under (dc_font dc) [FillRect rcItem bk]
                    ++ under (GetNativeFont font)
                         (DrawTextEx label' (label_rect rcItem)
                            (Z.lor (label_format underline_mnemonics) DT_LEFT)
                          :: match accel with
                             | [] => []
                             | _ => [DrawTextEx accel (label_rect rcItem)
                                       (Z.lor (label_format underline_mnemonics)
                                          DT_RIGHT)]
                             end)
                    ++ under (dc_font dc)
                         match GetIconAt controller index with
                         | Some icon =>
                             [drawToHDC icon (rc_left rcItem + kItemLeftMargin)
                                (rc_top rcItem
                                 + Z.quot (rc_bottom rcItem - rc_top rcItem
                                           - bm_height icon) 2)]
                         | None => []
                         end))
                rcItem (dis_itemData dis))
    | None =>
        let rc :=
          set_rc_top (rc_top rcItem + Z.quot (rc_bottom rcItem - rc_top rcItem) 3)
            rcItem in
        Some (mkDRAWITEMSTRUCT (dis_itemState dis)
                (mkDC (dc_bk_color dc) (dc_text_color dc) (dc_font dc)
                   (dc_painted dc ++ under (dc_font dc) [DrawEdge rc EDGE_ETCHED BF_TOP]))
                rc (dis_itemData dis))
    end.
Proof.
  cbv zeta. unfold OnDrawItem.
  destruct dis as [itemState [bk0 fg0 font0 painted0] rcItem [data|]];
    cbn [dis_hDC dis_itemState dis_rcItem dis_itemData].
  - destruct (has_flag itemState ODS_SELECTED), (has_flag itemState ODS_DISABLED);
      cbn [SetBkColor SetTextColor SelectObject GetBkColor paint dc_bk_color
             dc_text_color dc_font dc_painted];
      destruct (wstring_find (label data) 9) as [pos|];
      (destruct (native_menu_win data) as [controller|]; cbn [mbind option_bind];
       [ | by repeat case_match]);
      (destruct (model_index data) as [index|]; cbn [mbind option_bind];
       [ | by repeat case_match]);
      destruct (GetIconAt controller index) as [icon|];
      repeat case_match; cbn [map paint dc_bk_color dc_text_color dc_font dc_painted
                                SetBkColor SetTextColor];
      rewrite <- ?app_assoc; reflexivity.
  - destruct (has_flag itemState ODS_SELECTED), (has_flag itemState ODS_DISABLED);
      reflexivity.
Qed.

(** X12.  The drawing handler undoes what [UpdateMenuItemInfoForString] put
    together.  For an entry whose stored text was made from a text without
    tab, the handler draws that text, left-aligned, and then -- exactly when
    the item is no submenu item and has an accelerator -- the tab and the
    shortcut text, right-aligned, into the same rectangle; it draws no
    other text.  The entry must have its controller and model index
    assigned, as every entry made by [AddMenuItemAt] has. *)
Theorem OnDrawItem_draws_label_and_accelerator (w_param : UINT) (dis : DRAWITEMSTRUCT)
    (data : ItemData) (model : MenuModel) (i : Z) (text : wstring) :
  dis_itemData dis = Some data ->
  label data = formatted_label model i text ->
  9 ∉ text ->
  is_Some (native_menu_win data) ->
  is_Some (model_index data) ->
  exists dis' painted,
    OnDrawItem font GetSysColor underline_mnemonics GetIconAt w_param dis = Some dis'
    /\ dc_painted (dis_hDC dis') = dc_painted (dis_hDC dis) ++ painted
    /\ drawn_texts painted
       = (text, Z.lor (label_format underline_mnemonics) DT_LEFT)
         :: match (if decide (GetTypeAt model i <> TYPE_SUBMENU)
                   then GetAcceleratorAt model i else None) with
            | Some accelerator =>
                [(tab ++ GetShortcutText accelerator,
                  Z.lor (label_format underline_mnemonics) DT_RIGHT)]
            | None => []
            end.
Proof.
  intros Hdata Hlabel Htab [controller Hc] [index Hi].
  rewrite OnDrawItem_spec, Hdata, Hc, Hi. cbn [mbind option_bind].
  pose proof (formatted_label_split model i text Htab) as Hsplit. cbv zeta in Hsplit.
  rewrite Hlabel.
  destruct (if decide (GetTypeAt model i <> TYPE_SUBMENU) then GetAcceleratorAt model i
            else None) as [accelerator|].
  - destruct Hsplit as (-> & -> & ->).
    eexists _, _. split; [reflexivity | ]. cbn [dis_hDC dc_painted].
    split; [reflexivity | ].
    unfold drawn_texts. rewrite !omap_app. cbn [tab app map omap fst].
    by destruct (GetIconAt controller index).
  - destruct Hsplit as (-> & ->).
    eexists _, _. split; [reflexivity | ]. cbn [dis_hDC dc_painted].
    split; [reflexivity | ].
    unfold drawn_texts. rewrite !omap_app. cbn [app map omap fst].
    by destruct (GetIconAt controller index).
Qed.

(** X13.  The drawing handler leaves the device context as it found it:
    background colour, text colour and font are those before the call, and
    what was painted before is still there, the new painting behind it.
    Everything it paints, it paints on the highlight colours if the item is
    selected (also when it is disabled), and else on the menu colour, with
    gray text if the item is disabled.  It completes for a separator (null
    item data), and for an entry whose controller and model index are
    assigned; for an entry without them it reads a member that was never
    assigned. *)
Theorem OnDrawItem_restores_device_context (w_param : UINT) (dis : DRAWITEMSTRUCT) :
  let selected := has_flag (dis_itemState dis) ODS_SELECTED in
  let disabled := has_flag (dis_itemState dis) ODS_DISABLED in
  let bk := GetSysColor (if selected then COLOR_HIGHLIGHT else COLOR_MENU) in
  let fg :=
    GetSysColor (if selected then COLOR_HIGHLIGHTTEXT
                 else if disabled then COLOR_GRAYTEXT else COLOR_MENUTEXT) in
  (is_Some (OnDrawItem font GetSysColor underline_mnemonics GetIconAt w_param dis)
   <-> match dis_itemData dis with
       | Some data => is_Some (native_menu_win data) /\ is_Some (model_index data)
       | None => True
       end)
  /\ forall dis',
       OnDrawItem font GetSysColor underline_mnemonics GetIconAt w_param dis = Some dis' ->
       dc_bk_color (dis_hDC dis') = dc_bk_color (dis_hDC dis)
       /\ dc_text_color (dis_hDC dis') = dc_text_color (dis_hDC dis)
       /\ dc_font (dis_hDC dis') = dc_font (dis_hDC dis)
       /\ dis_itemState dis' = dis_itemState dis
       /\ dis_itemData dis' = dis_itemData dis
       /\ exists painted,
            dc_painted (dis_hDC dis') = dc_painted (dis_hDC dis) ++ painted
            /\ Forall (fun c => fst (snd c) = (bk, fg)) painted.
Proof.
  cbv zeta. rewrite OnDrawItem_spec. cbv zeta.
  assert (Hmap : forall bk fg (f : HGDIOBJ) (calls : list GdiCall),
             Forall (fun c : GdiCall * (COLORREF * COLORREF * HGDIOBJ) =>
                       fst (snd c) = (bk, fg))
               (map (fun c => (c, (bk, fg, f))) calls)).
  { intros bk fg f calls. apply Forall_forall. intros c Hc.
    apply list_elem_of_fmap in Hc as (x & -> & _). reflexivity. }
  destruct (dis_itemData dis) as [data|].
  - destruct (native_menu_win data) as [controller|]; cbn [mbind option_bind].
    2:{ split; [split; [intros [? [=]] | intros [[? [=]] _]] | discriminate]. }
    destruct (model_index data) as [index|]; cbn [mbind option_bind].
    2:{ split; [split; [intros [? [=]] | intros [_ [? [=]]]] | discriminate]. }
    destruct (wstring_find (label data) 9) as [pos|].
    + split; [split; [intros _; split; by eexists | intros _; by eexists] | ].
      intros dis' [= <-]. cbn [dis_hDC dis_itemState dis_itemData dc_bk_color
                                 dc_text_color dc_font dc_painted].
      repeat (split; [reflexivity | ]). eexists. split; [reflexivity | ].
      repeat first [apply Hmap | apply Forall_nil_2 | apply Forall_app_2
                   | apply Forall_cons_2; [reflexivity | ]].
    + split; [split; [intros _; split; by eexists | intros _; by eexists] | ].
      intros dis' [= <-]. cbn [dis_hDC dis_itemState dis_itemData dc_bk_color
                                 dc_text_color dc_font dc_painted].
      repeat (split; [reflexivity | ]). eexists. split; [reflexivity | ].
      repeat first [apply Hmap | apply Forall_nil_2 | apply Forall_app_2
                   | apply Forall_cons_2; [reflexivity | ]].
  - split; [split; [done | intros _; by eexists] | ].
    intros dis' [= <-]. cbn [dis_hDC dis_itemState dis_itemData dc_bk_color
                               dc_text_color dc_font dc_painted].
    repeat (split; [reflexivity | ]). eexists. split; [reflexivity | ].
    repeat first [apply Hmap | apply Forall_nil_2 | apply Forall_app_2
                 | apply Forall_cons_2; [reflexivity | ]].
Qed.

(** X14.  Measuring and drawing agree.  If the rectangle the OS hands to
    the drawing handler is as wide as the measured width plus the width of
    the check mark, which the measuring handler had taken off, and as high
    as the measured height, then the rectangle the label is drawn into is
    as wide as the stored text measures in the default font, plus the room
    for the sub-menu arrow if the entry has a submenu, plus the width of a
    blank if the stored text holds a tab; and it ends the bottom margin
    above the font height.  (The widths are taken to fit a [UINT].)  A
    separator measures zero wide, whatever the font. *)
Theorem OnMeasureItem_fits_label_rect (w_param : WPARAM) (m : MEASUREITEMSTRUCT)
    (data : ItemData) (rcItem : RECT) :
  let m' := OnMeasureItem font GetSystemMetrics w_param m in
  let text_width := GetStringWidth font (label data) in
  let arrow := match submenu data with Some _ => kArrowWidth | None => 0 end in
  let blank :=
    match wstring_find (label data) 9 with
    | Some _ => GetStringWidth font (L " ")
    | None => 0
    end in
  (mis_itemData m = None -> mis_itemWidth m' = 0)
  /\ (mis_itemData m = Some data ->
      GetSystemMetrics SM_CXMENUCHECK
      <= text_width + kIconWidth + kItemLeftMargin + kItemRightMargin ->
      0 <= blank ->
      text_width + kIconWidth + kItemLeftMargin + kItemRightMargin
      - GetSystemMetrics SM_CXMENUCHECK + arrow + blank < 2 ^ 32 ->
      0 <= GetHeight font + kItemBottomMargin + kItemTopMargin < 2 ^ 32 ->
      rc_right rcItem - rc_left rcItem
      = mis_itemWidth m' + GetSystemMetrics SM_CXMENUCHECK ->
      rc_bottom rcItem - rc_top rcItem = mis_itemHeight m' ->
      rc_right (label_rect rcItem) - rc_left (label_rect rcItem)
      = text_width + arrow + blank
      /\ rc_bottom (label_rect rcItem) - rc_top (label_rect rcItem)
         = GetHeight font + kItemBottomMargin).
Proof.
  cbv zeta. unfold OnMeasureItem. split.
  - by intros ->.
  - intros -> Hcheck Hblank Hfit Hheight Hwidth Hhigh.
    cbn [mis_itemWidth mis_itemHeight] in Hwidth, Hhigh.
    unfold label_rect, UINT_of_int, kIconWidth, kItemLeftMargin, kItemRightMargin,
      kArrowWidth, kItemTopMargin, kItemBottomMargin in *.
    cbn [rc_left rc_right rc_top rc_bottom set_rc_left set_rc_right set_rc_top].
    rewrite (Z.mod_small (GetHeight font + 4 + 3)) in Hhigh by lia.
    split; [ | lia].
    destruct (submenu data) as [sub|], (wstring_find (label data) 9) as [pos|];
      cbn [is_NULL negb] in Hwidth; cbv beta iota in Hfit, Hblank |- *;
      rewrite (Z.mod_small (GetStringWidth font (label data) + 23 + 4 + 10
                            - GetSystemMetrics SM_CXMENUCHECK)) in Hwidth by lia;
      rewrite ?(Z.mod_small (_ + 10)) in Hwidth by lia;
      rewrite ?(Z.mod_small (_ + GetStringWidth font (L " "))) in Hwidth by lia;
      lia.
Qed.

End OwnerDrawProperties.

(** ** Selection messages *)

Lemma LOWORD_range (w : WPARAM) : 0 <= LOWORD w < 65536.
Proof.
  unfold LOWORD. change 65535 with (Z.ones 16). rewrite Z.land_ones by lia.
  apply Z.mod_pos_bound. lia.
Qed.

Lemma find_command_id_Some (menu : HMENU) (w : WPARAM) (n : nat) :
  forall i k,
    find_command_id menu w n i = Some k ->
    i <= k < i + Z.of_nat n /\ from_option wID 0 (item_at menu k) = w.
Proof.
  induction n as [|n IH]; intros i k; cbn [find_command_id]; [discriminate | ].
  rewrite GetMenuItemInfo_wID.
  destruct (Z.eqb_spec (from_option wID 0 (item_at menu i)) w) as [Heq|Hne].
  - intros [= <-]. split; [lia | exact Heq].
  - intros Hfind. apply IH in Hfind. split; [lia | tauto].
Qed.

(** X17.  WM_MENUSELECT.  With a null menu handle (the menu is closing)
    the handler does nothing.  With a menu that carries a controller it
    always calls [HighlightChangedTo] on the model of that controller: the
    position it passes is never negative, and is either the position of an
    item of the menu whose id is the low word of [w_param], or that low
    word itself -- which is passed on unchecked, also when it is beyond
    the last item. *)
Theorem WM_MENUSELECT_notifies_position (host : MenuHostWindow) (w_param : WPARAM)
    (l_result : Z) (p : Process) :
  ProcessWindowMessage host WM_MENUSELECT w_param (lparam_HMENU None) l_result p
  = Some (true, 0, p)
  /\ forall m receiver,
       GetNativeMenuWinFromHMENU (Some m) = Some receiver ->
       let position := GetMenuItemIndexFromWPARAM (Some m) (LOWORD w_param) in
       ProcessWindowMessage host WM_MENUSELECT w_param (lparam_HMENU (Some m)) l_result p
       = Some (true, 0, notify (HighlightChangedTo receiver position) p)
       /\ 0 <= position
       /\ ((position < GetMenuItemCount (Some m)
            /\ wID <$> item_at (Some m) position = Some (LOWORD w_param))
           \/ position = LOWORD w_param).
Proof.
  split; [reflexivity | ]. intros m receiver Hreceiver position.
  pose proof (LOWORD_range w_param) as Hlow.
  assert (Hpos : 0 <= position
                 /\ ((position < GetMenuItemCount (Some m)
                      /\ wID <$> item_at (Some m) position = Some (LOWORD w_param))
                     \/ position = LOWORD w_param)).
  { unfold position, GetMenuItemIndexFromWPARAM.
    destruct (find_command_id (Some m) (LOWORD w_param)
                (Z.to_nat (GetMenuItemCount (Some m))) 0) as [k|] eqn:Hfind.
    - apply find_command_id_Some in Hfind as [Hk Hid].
      split; [lia | ]. left. split; [lia | ].
      destruct (item_at_in_range (Some m) k) as [it Hit]; [lia | ].
      rewrite Hit in *. cbn in *. congruence.
    - unfold int_of_WPARAM. rewrite Z.mod_small by lia. split; [lia | ]. right. lia. }
  split; [ | exact Hpos].
  unfold ProcessWindowMessage, OnMenuSelect.
  change (WM_MENUSELECT =? WM_MENUCOMMAND) with false. rewrite Z.eqb_refl.
  cbn [HMENU_of_LPARAM]. fold position.
  destruct (Z.leb_spec 0 position); [ | lia]. by rewrite Hreceiver.
Qed.

(** X8.  Highlighting a command.  For a rebuilt controller that wraps no
    window menu and inserts from position 0, a WM_MENUSELECT that carries
    the command id of the model item [i] in its low word tells the model
    that position [i] is highlighted -- provided the item is neither a
    separator nor a submenu item, its id is a non-zero 16-bit value, and no
    item before it writes the same id into the menu.  (A separator and a
    submenu item have the id 0 in the menu.) *)
Theorem WM_MENUSELECT_highlights_command (need : bool) (this : NativeMenuWinPtr)
    (self self' : NativeMenuWin) (i : Z) (host : MenuHostWindow) (w_param : WPARAM)
    (l_result : Z) (p : Process) :
  let model := model_ self in
  system_menu_for_ self = None ->
  Rebuild need this self = Some self' ->
  first_item_index_ self' = 0 ->
  0 <= i < GetItemCount model ->
  GetTypeAt model i <> TYPE_SEPARATOR ->
  GetTypeAt model i <> TYPE_SUBMENU ->
  0 < GetCommandIdAt model i < 65536 ->
  LOWORD w_param = GetCommandIdAt model i ->
  (forall j, 0 <= j < i ->
     GetTypeAt model j = TYPE_SEPARATOR \/ GetTypeAt model j = TYPE_SUBMENU
     \/ UINT_of_int (GetCommandIdAt model j) <> GetCommandIdAt model i) ->
  GetMenuItemIndexFromWPARAM (GetNativeMenu self') (GetCommandIdAt model i) = i
  /\ ProcessWindowMessage host WM_MENUSELECT w_param
       (lparam_HMENU (GetNativeMenu self')) l_result p
     = Some (true, 0, notify (HighlightChangedTo this i) p).
Proof.
  intros model Hsys Hre Hfirst Hi Hsep Hsub Hid Hlow Hbefore.
  pose proof (Rebuild_names_controller need this self self' Hsys Hre) as Hname.
  assert (Hmenu0 : menu_ (ResetNativeMenu this self)
                   = SetMenuInfo CreatePopupMenu MNS_NOTIFYBYPOS (Some this))
    by (unfold ResetNativeMenu; by rewrite Hsys).
  destruct (Rebuild_menu_layout need this self self' MNS_NOTIFYBYPOS (Some this) []
              Hre Hmenu0) as (news & Hmenu & Hnews & Hitems).
  { rewrite Hfirst. cbn. lia. }
  fold model in Hnews, Hitems. rewrite take_nil, drop_nil, app_nil_r in Hmenu.
  cbn [app] in Hmenu.
  assert (Hcount : GetMenuItemCount (menu_ self') = 0 + Z.max 0 (GetItemCount model))
    by (rewrite Hmenu; cbn; lia).
  assert (Hwid : forall j, 0 <= j < GetItemCount model ->
             from_option wID 0 (item_at (menu_ self') j)
             = if decide (GetTypeAt model j = TYPE_SEPARATOR) then 0
               else if decide (GetTypeAt model j = TYPE_SUBMENU) then 0
                    else UINT_of_int (GetCommandIdAt model j)).
  { intros j Hj. destruct (Hitems j Hj) as (d & _ & Hit).
    rewrite Hmenu. cbn [item_at menu_items].
    destruct (Z.ltb_spec j 0); [lia | ]. rewrite Hit. unfold built_item. cbv zeta.
    by repeat case_decide. }
  assert (Hresolve : GetMenuItemIndexFromWPARAM (GetNativeMenu self')
                       (GetCommandIdAt model i) = i).
  { unfold GetMenuItemIndexFromWPARAM, GetNativeMenu.
    rewrite (find_command_id_found _ _ _ 0 i); [reflexivity | lia | | ].
    - rewrite (Hwid i Hi), !decide_False by assumption.
      unfold UINT_of_int. apply Z.mod_small. lia.
    - intros j Hj. rewrite (Hwid j) by lia.
      destruct (Hbefore j Hj) as [Ht | [Ht | Hne]].
      + rewrite decide_True by exact Ht. lia.
      + case_decide; [lia | ]. rewrite decide_True by exact Ht. lia.
      + repeat case_decide; lia. }
  split; [exact Hresolve | ].
  unfold ProcessWindowMessage, OnMenuSelect.
  change (WM_MENUSELECT =? WM_MENUCOMMAND) with false. rewrite Z.eqb_refl.
  cbn [HMENU_of_LPARAM]. rewrite Hlow, Hresolve.
  unfold GetNativeMenu in *.
  destruct (menu_ self') as [m|] eqn:Hm; [ | discriminate].
  destruct (Z.leb_spec 0 i); [ | lia]. by rewrite Hname.
Qed.

(** ** Submenu controllers *)

(** X18.  Owner-drawing is decided menu by menu.  The controller that
    [Rebuild] creates for a submenu item draws its items itself iff the
    model of the submenu reports icons or the font override applies; the
    icons of the parent's model and the parent's own flag do not carry
    over to it. *)
Theorem Rebuild_submenu_owner_draw (need : bool) (this : NativeMenuWinPtr)
    (self self' : NativeMenuWin) (i : Z) (d : ItemData) (sub : Menu2) :
  Rebuild need this self = Some self' ->
  vector_at (items_ self') i = Some d ->
  submenu d = Some sub ->
  owner_draw_ (wrapper_ sub) = HasIcons (m2_model_ sub) || need.
Proof.
  intros Hre Hd Hsub.
  destruct (Rebuild_submenu_entry need this self self' i d sub Hre Hd Hsub)
    as (_ & _ & Hwrapper).
  rewrite (Rebuild_owner_draw _ _ _ _ Hwrapper).
  cbn [CreateWrapper NativeMenuWin_ctor model_ owner_draw_ is_NULL].
  by rewrite andb_true_r.
Qed.

(** ** The further properties at concrete inputs *)

Lemma RemoveMenuListener_erases_first_registration_witness :
  RemoveMenuListener listener_controller 9 = listener_controller
  /\ RemoveMenuListener listener_controller 7
     = set_listeners_ ([] ++ [8; 7]) listener_controller
  /\ RemoveMenuListener listener_controller 8
     = set_listeners_ ([7] ++ [7]) listener_controller
  /\ RemoveMenuListener (AddMenuListener listener_controller 9) 9 = listener_controller.
Proof.
  assert (H9 : 9 ∉ listeners_ listener_controller).
  { vm_compute. intros H. repeat (apply elem_of_cons in H as [H|H]; [discriminate | ]).
    by apply elem_of_nil in H. }
  split; [ | split; [ | split]].
  - apply (proj1 (RemoveMenuListener_erases_first_registration listener_controller 9)).
    exact H9.
  - apply (proj1 (proj2 (RemoveMenuListener_erases_first_registration
                           listener_controller 7))).
    + reflexivity.
    + apply not_elem_of_nil.
  - apply (proj1 (proj2 (RemoveMenuListener_erases_first_registration
                           listener_controller 8))).
    + reflexivity.
    + intros H. apply list_elem_of_singleton in H. discriminate.
  - apply (proj2 (proj2 (RemoveMenuListener_erases_first_registration
                           listener_controller 9))).
    exact H9.
Defined.

Lemma RunMenuAt_opens_listeners_once_witness :
  exists added,
    notifications exit_run = notifications nested_process ++ added
    /\ opened_listeners added
       = (if hook_called exit_events then listeners_ second_controller else []).
Proof.
  apply (RunMenuAt_opens_listeners_once second_controller_ptr (0, 0) 0 exit_events
           nested_process exit_run second_controller).
  - vm_compute. reflexivity.
  - vm_compute. reflexivity.
Defined.

Lemma MenuMessageHook_navigates_witness :
  exists p' s',
    MenuMessageHook (mkMSG WM_KEYDOWN VK_RIGHT) (menu_ second_controller) entered_process
    = Some p'
    /\ objects p' !! second_controller_ptr = Some s'
    /\ GetMenuAction s'
       = default (GetMenuAction entered_controller)
           (navigation_asked (mkMSG WM_KEYDOWN VK_RIGHT) (menu_ second_controller))
    /\ listeners_called_ s' = Some true
    /\ notifications p'
       = notifications entered_process
         ++ (if false then [] else map OnMenuOpened (listeners_ entered_controller))
         ++ match navigation_asked (mkMSG WM_KEYDOWN VK_RIGHT) (menu_ second_controller)
            with
            | Some _ => [EndMenu]
            | None => []
            end.
Proof.
  apply (MenuMessageHook_navigates (mkMSG WM_KEYDOWN VK_RIGHT) (menu_ second_controller)
           entered_process second_controller_ptr entered_controller false).
  - vm_compute. reflexivity.
  - vm_compute. reflexivity.
  - vm_compute. reflexivity.
Defined.

Lemma Rebuild_starts_afresh_witness :
  Rebuild false open_controller_ptr ex_rebuilt = Some ex_rebuilt.
Proof.
  apply (proj2 (proj2 (Rebuild_starts_afresh false open_controller_ptr ex_controller))).
  vm_compute. reflexivity.
Defined.

Lemma Rebuild_menu_mirrors_model_witness :
  GetMenuItemCount (menu_ ex_system_rebuilt)
  = GetMenuItemCount (menu_ (ResetNativeMenu open_controller_ptr ex_system_controller))
    + Z.max 0 (GetItemCount (model_ ex_system_controller))
  /\ (forall j, 0 <= j < first_item_index_ ex_system_rebuilt ->
        item_at (menu_ ex_system_rebuilt) j
        = item_at (menu_ (ResetNativeMenu open_controller_ptr ex_system_controller)) j)
  /\ (forall j, first_item_index_ ex_system_rebuilt <= j ->
        item_at (menu_ ex_system_rebuilt)
          (j + Z.max 0 (GetItemCount (model_ ex_system_controller)))
        = item_at (menu_ (ResetNativeMenu open_controller_ptr ex_system_controller)) j)
  /\ forall i, 0 <= i < GetItemCount (model_ ex_system_controller) ->
       exists d,
         vector_at (items_ ex_system_rebuilt) i = Some d
         /\ item_at (menu_ ex_system_rebuilt) (first_item_index_ ex_system_rebuilt + i)
            = Some (built_item open_controller_ptr (owner_draw_ ex_system_rebuilt)
                      (model_ ex_system_controller) i (submenu d)).
Proof.
  apply (Rebuild_menu_mirrors_model false open_controller_ptr ex_system_controller
           ex_system_rebuilt).
  - vm_compute. reflexivity.
  - vm_compute. split; intros H; discriminate H.
Defined.

Lemma Rebuild_menu_finds_controller_witness :
  GetNativeMenuWinFromHMENU (GetNativeMenu ex_rebuilt) = Some open_controller_ptr
  /\ (forall host w_param l_result p,
        ProcessWindowMessage host WM_MENUCOMMAND w_param
          (lparam_HMENU (GetNativeMenu ex_rebuilt)) l_result p
        = Some (true, 0,
                notify (ActivatedAt open_controller_ptr (int_of_WPARAM w_param)) p))
  /\ forall i d sub,
       vector_at (items_ ex_rebuilt) i = Some d ->
       submenu d = Some sub ->
       GetSubmenuModelAt (model_ ex_controller) i = Some (m2_model_ sub)
       /\ model_ (wrapper_ sub) = m2_model_ sub
       /\ GetNativeMenuWinFromHMENU (Menu2_GetNativeMenu sub)
          = Some (child_ptr open_controller_ptr i).
Proof.
  apply (Rebuild_menu_finds_controller false open_controller_ptr ex_controller
           ex_rebuilt).
  - reflexivity.
  - vm_compute. reflexivity.
Defined.

Lemma WM_MENUSELECT_highlights_command_witness :
  GetMenuItemIndexFromWPARAM (GetNativeMenu edit_rebuilt)
    (GetCommandIdAt (model_ edit_controller) 2) = 2
  /\ ProcessWindowMessage ex_host WM_MENUSELECT 8388614
       (lparam_HMENU (GetNativeMenu edit_rebuilt)) 0 empty_process
     = Some (true, 0, notify (HighlightChangedTo open_controller_ptr 2) empty_process).
Proof.
  apply (WM_MENUSELECT_highlights_command false open_controller_ptr edit_controller
           edit_rebuilt 2 ex_host 8388614 0 empty_process).
  - reflexivity.
  - vm_compute. reflexivity.
  - vm_compute. reflexivity.
  - vm_compute. split; [intros H; discriminate H | reflexivity].
  - vm_compute. discriminate.
  - vm_compute. discriminate.
  - vm_compute. split; reflexivity.
  - vm_compute. reflexivity.
  - intros j Hj. assert (j = 0 \/ j = 1) as [-> | ->] by lia.
    + right. right. vm_compute. discriminate.
    + left. vm_compute. reflexivity.
Defined.

Lemma UpdateStates_writes_model_state_witness :
  exists self',
    UpdateStates ex_rebuilt = Some self'
    /\ GetMenuItemCount (menu_ self') = GetMenuItemCount (menu_ ex_rebuilt)
    /\ length (items_ self') = length (items_ ex_rebuilt).
Proof.
  destruct (UpdateStates_writes_model_state ex_rebuilt) as (s' & H1 & H2 & _ & H4 & _).
  exists s'. split; [exact H1 | ]. split; [exact H2 | exact H4].
Defined.

Lemma SetMenuItemLabel_edge_cases_witness :
  SetMenuItemLabel ex_rebuilt 1 0 (L "x") = Some ex_rebuilt
  /\ SetMenuItemLabel ex_rebuilt 0 7 (L "x") = None
  /\ SetMenuItemLabel ex_rebuilt 9 0 (L "x")
     = Some (set_items_
               (<[Z.to_nat 0
                  := set_label (formatted_label (model_ ex_rebuilt) 0 (L "x"))
                       (default new_ItemData (items_ ex_rebuilt !! 0%nat))]>
                  (items_ ex_rebuilt)) ex_rebuilt).
Proof.
  split; [ | split].
  - apply (proj1 (SetMenuItemLabel_edge_cases ex_rebuilt 1 0 (L "x"))).
    vm_compute. reflexivity.
  - apply (proj1 (proj2 (SetMenuItemLabel_edge_cases ex_rebuilt 0 7 (L "x")))).
    + vm_compute. reflexivity.
    + vm_compute. reflexivity.
  - apply (proj2 (proj2 (SetMenuItemLabel_edge_cases ex_rebuilt 9 0 (L "x")))).
    + vm_compute. reflexivity.
    + vm_compute. reflexivity.
Defined.

Lemma SetMenuItemState_writes_state_witness :
  item_at (menu_ (SetMenuItemState ex_rebuilt 0 false true false)) 0
  = Some (mkMENUITEM MFT_STRING (item_state false true false) 1 None
            (Some (open_controller_ptr, 0)) (Some (L "A")))
  /\ (Z.land (item_state false true false) MFS_DISABLED =? 0) = false
  /\ has_flag (item_state false true false) MFS_CHECKED = true
  /\ has_flag (item_state false true false) MFS_DEFAULT = false.
Proof.
  apply (proj2 (proj2 (proj2 (proj2
           (SetMenuItemState_writes_state ex_rebuilt 0 false true false))))
           (mkMENUITEM MFT_STRING 0 1 None (Some (open_controller_ptr, 0))
              (Some (L "A")))).
  vm_compute. reflexivity.
Defined.

Lemma OnDrawItem_draws_label_and_accelerator_witness :
  exists dis' painted,
    OnDrawItem ex_font ex_colors true no_icons 0 ex_draw = Some dis'
    /\ dc_painted (dis_hDC dis') = dc_painted (dis_hDC ex_draw) ++ painted
    /\ drawn_texts painted
       = (L "New Tab", Z.lor (label_format true) DT_LEFT)
         :: match (if decide (GetTypeAt accel_model 0 <> TYPE_SUBMENU)
                   then GetAcceleratorAt accel_model 0 else None) with
            | Some accelerator =>
                [(tab ++ GetShortcutText accelerator, Z.lor (label_format true) DT_RIGHT)]
            | None => []
            end.
Proof.
  apply (OnDrawItem_draws_label_and_accelerator ex_font ex_colors true no_icons 0
           ex_draw accel_entry accel_model 0 (L "New Tab")).
  - reflexivity.
  - vm_compute. reflexivity.
  - vm_compute. intros H.
    repeat (apply elem_of_cons in H as [H|H]; [discriminate | ]).
    by apply elem_of_nil in H.
  - eexists. vm_compute. reflexivity.
  - eexists. vm_compute. reflexivity.
Defined.

Lemma OnDrawItem_restores_device_context_witness :
  is_Some (OnDrawItem ex_font ex_colors true no_icons 0 ex_draw).
Proof.
  apply (proj1 (OnDrawItem_restores_device_context ex_font ex_colors true no_icons 0
                  ex_draw)).
  split; eexists; vm_compute; reflexivity.
Defined.

Lemma OnMeasureItem_fits_label_rect_witness :
  rc_right (label_rect (mkRECT 0 0 142 23)) - rc_left (label_rect (mkRECT 0 0 142 23))
  = 98 + 0 + 7
  /\ rc_bottom (label_rect (mkRECT 0 0 142 23)) - rc_top (label_rect (mkRECT 0 0 142 23))
     = 16 + kItemBottomMargin.
Proof.
  apply (proj2 (OnMeasureItem_fits_label_rect ex_font ex_metrics 0 ex_measure accel_entry
                  (mkRECT 0 0 142 23))).
  - reflexivity.
  - vm_compute. intros H. discriminate H.
  - vm_compute. intros H. discriminate H.
  - vm_compute. reflexivity.
  - vm_compute. split; [intros H; discriminate H | reflexivity].
  - vm_compute. reflexivity.
  - vm_compute. reflexivity.
Defined.

Lemma RunMenuAt_changes_controller_witness :
  exists s1,
    UpdateStates (CreateHostWindow second_controller_ptr second_controller) = Some s1
    /\ objects exit_run !! second_controller_ptr
       = Some (set_listeners_called_ (Some (hook_called exit_events))
                 (set_menu_action_ (action_resolved exit_events) s1))
    /\ host_window_ s1
       = Some (default (mkMenuHostWindow (Some (mkWINDOW None)) second_controller_ptr)
                 (host_window_ second_controller))
    /\ forall other, other <> second_controller_ptr ->
                     objects exit_run !! other = objects nested_process !! other.
Proof.
  apply (RunMenuAt_changes_controller second_controller_ptr (0, 0) 0 exit_events
           nested_process exit_run second_controller).
  - vm_compute. reflexivity.
  - vm_compute. reflexivity.
Defined.

Lemma RunMenuAt_posts_MenuClosed_witness :
  exists host,
    parent_ host = second_controller_ptr
    /\ pending_tasks exit_run
       = pending_tasks nested_process ++ posted_tasks (Some host) exit_events
    /\ notifications (RunAllPending exit_run)
       = notifications exit_run ++ map task_notification (pending_tasks nested_process)
         ++ map (fun _ => MenuClosed second_controller_ptr)
              (posted_tasks (Some host) exit_events).
Proof.
  apply (RunMenuAt_posts_MenuClosed second_controller_ptr (0, 0) 0 exit_events
           nested_process exit_run second_controller).
  - vm_compute. reflexivity.
  - intros host H. vm_compute in H. discriminate H.
  - vm_compute. reflexivity.
Defined.

Lemma WM_MENUSELECT_notifies_position_witness :
  ProcessWindowMessage ex_host WM_MENUSELECT 7 (lparam_HMENU ex_command_menu) 0
    empty_process
  = Some (true, 0,
          notify (HighlightChangedTo [1; 2]
                    (GetMenuItemIndexFromWPARAM ex_command_menu (LOWORD 7)))
            empty_process)
  /\ 0 <= GetMenuItemIndexFromWPARAM ex_command_menu (LOWORD 7)
  /\ ((GetMenuItemIndexFromWPARAM ex_command_menu (LOWORD 7)
       < GetMenuItemCount ex_command_menu
       /\ wID <$> item_at ex_command_menu
                    (GetMenuItemIndexFromWPARAM ex_command_menu (LOWORD 7))
          = Some (LOWORD 7))
      \/ GetMenuItemIndexFromWPARAM ex_command_menu (LOWORD 7) = LOWORD 7).
Proof.
  apply (proj2 (WM_MENUSELECT_notifies_position ex_host 7 0 empty_process)
           (mkMENU MNS_NOTIFYBYPOS (Some [1; 2])
              [mkMENUITEM MFT_STRING 0 7 None (Some ([1; 2], 0)) (Some (L "Child"))])
           [1; 2]).
  reflexivity.
Defined.

Lemma Rebuild_submenu_owner_draw_witness :
  owner_draw_ (wrapper_ icon_parent_submenu)
  = HasIcons (m2_model_ icon_parent_submenu) || false.
Proof.
  apply (Rebuild_submenu_owner_draw false open_controller_ptr icon_parent_controller
           icon_parent_rebuilt 0 icon_parent_entry icon_parent_submenu).
  - vm_compute. reflexivity.
  - vm_compute. reflexivity.
  - vm_compute. reflexivity.
Defined.
